(** * The [documents] edge function: upload, review and visibility

    A shallow embedding of [supabase/functions/documents/index.ts] together
    with the tables of [supabase/migrations/20250919000000_documents_schema.sql].

    - JavaScript strings are sequences of UTF-16 code units ([jstring]).
    - The handlers run in a small monad over the shared [World]: the storage
      bucket, the three tables, the client's forwarded credential and the
      requests posted to the generative endpoint.
    - What the outside world answers during one request is the [Env]: the
      identity provider, the generated identifiers and clock, pdf.js, the
      generative endpoint, and a [fault] oracle that lets the backend refuse
      any single call for a reason the tables do not show (policy, outage,
      malformed identifier).  The constraints the migration declares on
      [documents] and [document_assignments] are checked on the tables.
    - Row-level policies are not evaluated: a query sees the rows it asks for
      unless the [fault] oracle refuses it.  Nothing below says which
      caller is entitled to an answer beyond the handlers' own gates. *)

From Stdlib Require Import List NArith Bool Arith Lia String Ascii.
From Stdlib Require Import Permutation Sorted.
Import ListNotations.

Set Implicit Arguments.

(* ------------------------------------------------------------------ *)
(** ** JavaScript strings *)

Module JS.

Definition jstring := list N.

(** A literal of the source, code unit by code unit. *)
Definition lit (s : string) : jstring :=
  List.map N_of_ascii (list_ascii_of_string s).

Definition LF : N := 10%N.
Definition SPACE : N := 32%N.

Fixpoint eqb (a b : jstring) : bool :=
  match a, b with
  | [], [] => true
  | x :: a', y :: b' => N.eqb x y && eqb a' b'
  | _, _ => false
  end.

(** [!s] is false exactly for the non-empty strings. *)
Definition truthy (s : jstring) : bool :=
  match s with [] => false | _ :: _ => true end.

(** [a || b] on strings. *)
Definition or_else (a b : jstring) : jstring :=
  if truthy a then a else b.

(** [a ?? b] and [(a as string) || b] when [a] may be null. *)
Definition nullish (a : option jstring) (b : jstring) : jstring :=
  match a with Some s => s | None => b end.

Definition truthy_opt (a : option jstring) : bool :=
  match a with Some s => truthy s | None => false end.

(** ECMAScript LineTerminator. *)
Definition is_line_terminator (c : N) : bool :=
  (c =? 10)%N || (c =? 13)%N || (c =? 8232)%N || (c =? 8233)%N.

(** ECMAScript WhiteSpace and LineTerminator: what [trim] strips. *)
Definition is_white_space (c : N) : bool :=
  ((9 <=? c)%N && (c <=? 13)%N)
  || (c =? 32)%N || (c =? 160)%N || (c =? 5760)%N
  || ((8192 <=? c)%N && (c <=? 8202)%N)
  || (c =? 8232)%N || (c =? 8233)%N || (c =? 8239)%N
  || (c =? 8287)%N || (c =? 12288)%N || (c =? 65279)%N.

Fixpoint trimStart (s : jstring) : jstring :=
  match s with
  | [] => []
  | c :: s' => if is_white_space c then trimStart s' else s
  end.

Definition trimEnd (s : jstring) : jstring := rev (trimStart (rev s)).

Definition trim (s : jstring) : jstring := trimStart (trimEnd s).

(** [arr.join(sep)]. *)
Fixpoint join (sep : jstring) (parts : list jstring) : jstring :=
  match parts with
  | [] => []
  | [p] => p
  | p :: rest => p ++ sep ++ join sep rest
  end.

(** [s.slice(0, n)]. *)
Definition slice0 (n : N) (s : jstring) : jstring := firstn (N.to_nat n) s.

(** [s] starts with [p]: what is left after [p]. *)
Fixpoint strip_prefix (p s : jstring) : option jstring :=
  match p, s with
  | [], _ => Some s
  | x :: p', y :: s' => if N.eqb x y then strip_prefix p' s' else None
  | _ :: _, [] => None
  end.

Definition strip_suffix (p s : jstring) : option jstring :=
  match strip_prefix (rev p) (rev s) with
  | Some r => Some (rev r)
  | None => None
  end.

(** What a greedy dot-star group captures when only an anchored constant
    follows it: any run without a line terminator. *)
Definition dot_star (s : jstring) : bool :=
  forallb (fun c => negb (is_line_terminator c)) s.

(** [needle] occurs in [hay]. *)
Fixpoint includes (needle hay : jstring) : bool :=
  match strip_prefix needle hay with
  | Some _ => true
  | None => match hay with [] => false | _ :: hay' => includes needle hay' end
  end.

End JS.

Import JS.

Declare Scope js_scope.
Delimit Scope js_scope with js.
Notation "'`' s '`'" := (lit s%string) (at level 0, s at level 0, format "'`' s '`'") : js_scope.
Open Scope js_scope.

(* ------------------------------------------------------------------ *)
(** ** Values on the wire *)

(** [type Json] of the source. *)
#[local] Set Warnings "-register-all".
Inductive Json : Type :=
| JNull
| JBool (b : bool)
| JNum (n : N)
| JStr (s : jstring)
| JArr (items : list Json)
| JObj (fields : list (jstring * Json)).
#[local] Set Warnings "register-all".

(** [obj[key]] on a parsed object; [None] is [undefined]. *)
Fixpoint assoc (key : jstring) (fields : list (jstring * Json)) : option Json :=
  match fields with
  | [] => None
  | (k, v) :: rest => if JS.eqb k key then Some v else assoc key rest
  end.

Definition field (key : jstring) (j : Json) : option Json :=
  match j with JObj fields => assoc key fields | _ => None end.

(** A [Response]: [new Response(text, { status })] carries text (possibly
    the text of [JSON.stringify]); [Response.json(v)] carries [v] with
    status 200 and the JSON content type. *)
Inductive Body : Type :=
| Text (s : jstring)
| Stringified (j : Json).

Record Response : Type := mkResponse {
  status : nat;
  body : Body;
  json_content_type : bool
}.

Definition new_Response (b : Body) (st : nat) : Response :=
  mkResponse st b false.

Definition Response_json (j : Json) : Response :=
  mkResponse 200 (Stringified j) true.

Definition error_object (message : jstring) : Json :=
  JObj [(`"error"`, JStr message)].

(** ** Requests *)

Record File : Type := mkFile {
  file_name : jstring;
  file_type : jstring;
  file_bytes : list N
}.

(** The fields [handleUpload] reads from the multipart form: [file] as a
    file or missing, [title] as text or missing. *)
Record FormData : Type := mkForm {
  form_file : option File;
  form_title : option jstring
}.

(** The body of an approve request as [req.json()] parses it. The
    handler casts it to [{ userIds?: string[] }] and checks nothing, so
    JSON of another shape arrives as well:
    - [mkApproveBody None]: a JSON value other than null that has no
      [userIds], or has [userIds: null]; an object, but also a number,
      a string, a boolean or an array;
    - [mkApproveBody (Some l)]: an object whose [userIds] is the array
      of strings [l];
    - [null_body]: the JSON value null;
    - [string_userIds s]: an object whose [userIds] is the string [s];
    - [scalar_userIds]: an object whose [userIds] is a number or a
      boolean.
    An object, or an array holding something else than strings, under
    [userIds] has no value here. *)
Inductive ApproveBody : Type :=
| mkApproveBody (ids : option (list jstring))
| null_body
| string_userIds (s : jstring)
| scalar_userIds.

(** The user list of a body of the declared type; [None] is a missing
    (or null) [userIds]. *)
Definition userIds (b : ApproveBody) : option (list jstring) :=
  match b with
  | mkApproveBody ids => ids
  | _ => None
  end.

(** What the request carries: nothing, a multipart form, JSON text, or
    text that is neither a form nor JSON. *)
Inductive Payload : Type :=
| NoPayload
| Multipart (form : FormData)
| JsonPayload (b : ApproveBody)
| Garbage.

Record Headers : Type := mkHeaders {
  Authorization : option jstring;
  x_mock_role : option jstring;
  x_mock_user_id : option jstring
}.

Record Request : Type := mkRequest {
  method : jstring;
  url_pathname : jstring;
  headers : Headers;
  payload : Payload
}.

(** The user record the handlers look at: [id] and [user_metadata.role]. *)
Record AuthUser : Type := mkAuthUser {
  user_id : jstring;
  user_metadata_role : option jstring
}.

(* ------------------------------------------------------------------ *)
(** ** Tables of the migration *)

(** [role text check (role in ('admin','employee'))]. *)
Inductive Role : Type := admin | employee.

Record UserRow : Type := mkUserRow {
  u_id : jstring;
  u_name : option jstring;
  u_email : option jstring;
  u_role : Role
}.

(** [status text check (status in ('pending','approved','rejected'))]. *)
Inductive Status : Type := pending | approved | rejected.

Definition status_eqb (a b : Status) : bool :=
  match a, b with
  | pending, pending | approved, approved | rejected, rejected => true
  | _, _ => false
  end.

Definition status_text (s : Status) : jstring :=
  match s with
  | pending => `"pending"`
  | approved => `"approved"`
  | rejected => `"rejected"`
  end.

Record Document : Type := mkDocument {
  d_id : jstring;
  d_title : jstring;
  d_file_url : jstring;
  d_parsed_text : option jstring;
  d_summary : option jstring;
  d_status : Status;
  d_created_at : N;
  d_created_by : option jstring
}.

Record Assignment : Type := mkAssignment {
  a_id : jstring;
  a_doc_id : jstring;
  a_user_id : jstring;
  a_assigned_at : N
}.

Record StoredObject : Type := mkStoredObject {
  o_path : jstring;
  o_bytes : list N;
  o_content_type : jstring
}.

(** Everything the requests share. *)
Record World : Type := mkWorld {
  bucket : list StoredObject;
  users : list UserRow;
  documents : list Document;
  document_assignments : list Assignment;
  rest_authorization : jstring;
  generate_requests : list jstring
}.

(** ** The outside world during one request *)

(** pdf.js as [parsePdfToText] uses it; [None] is a rejected promise. *)
Record TextItem : Type := mkTextItem { str : option jstring }.

Record PdfPage : Type := mkPdfPage { getTextContent : option (list TextItem) }.

Record PdfDocument : Type := mkPdfDocument {
  numPages : nat;
  getPage : nat -> option PdfPage
}.

(** The reply of the generative endpoint, along the path
    [data?.candidates?.[0]?.content?.parts?.[0]?.text]. *)
Record Part : Type := mkPart { part_text : option jstring }.
Record Content : Type := mkContent { parts : option (list Part) }.
Record Candidate : Type := mkCandidate { content : option Content }.
Record GenerateData : Type := mkGenerateData { candidates : option (list Candidate) }.

Record FetchResponse : Type := mkFetchResponse {
  ok : bool;
  json : option GenerateData
}.

(** The calls the handlers make to the hosted backend. *)
Inductive Call : Type :=
| StorageUpload
| InsertDocument
| UpdateParsedText
| UpdateSummary
| SelectPending
| UpdateStatus
| InsertAssignments
| SelectApproved
| SelectAssignments.

Record Env : Type := mkEnv {
  SUPABASE_URL : jstring;
  GEMINI_API_KEY : option jstring;
  auth_getUser : jstring -> option AuthUser;
  randomUUID : jstring;
  gen_random_uuid : nat -> jstring;
  now : N;
  fault : Call -> option jstring;
  pdfjs_import : bool;
  getDocument : list N -> option PdfDocument;
  fetch_generate : jstring -> jstring -> option FetchResponse
}.

(* ------------------------------------------------------------------ *)
(** ** The handler monad *)

(** A handler either goes on with a value, returns its response, or lets
    an exception (a rejected promise) escape. *)
Inductive Step (A : Type) : Type :=
| Next (a : A)
| Reply (r : Response)
| Uncaught.

Arguments Next {A} a.
Arguments Reply {A} r.
Arguments Uncaught {A}.

Definition Handler (A : Type) : Type := World -> Step A * World.

Definition ret {A : Type} (a : A) : Handler A := fun w => (Next a, w).

Definition bind {A B : Type} (m : Handler A) (k : A -> Handler B) : Handler B :=
  fun w =>
    match m w with
    | (Next a, w') => k a w'
    | (Reply r, w') => (Reply r, w')
    | (Uncaught, w') => (Uncaught, w')
    end.

Definition reply {A : Type} (r : Response) : Handler A := fun w => (Reply r, w).
Definition throw {A : Type} : Handler A := fun w => (Uncaught, w).
Definition modify (f : World -> World) : Handler unit := fun w => (Next tt, f w).

Declare Scope handler_scope.
Delimit Scope handler_scope with handler.
Notation "x <- m ;; k" := (bind m (fun x => k))
  (at level 61, m at next level, right associativity) : handler_scope.
Notation "m ;; k" := (bind m (fun _ => k))
  (at level 61, right associativity) : handler_scope.
Open Scope handler_scope.

(** What the caller of the function sees. *)
Inductive Outcome : Type :=
| Responded (r : Response)
| Failed.

Definition run (h : Handler Response) (w : World) : Outcome * World :=
  match h w with
  | (Next r, w') => (Responded r, w')
  | (Reply r, w') => (Responded r, w')
  | (Uncaught, w') => (Failed, w')
  end.

(** ** The hosted backend *)

(** [{ data, error }] of the client library. *)
Inductive Result (A : Type) : Type :=
| Data (a : A)
| Error (message : jstring).

Arguments Data {A} a.
Arguments Error {A} message.

Definition set_bucket (b : list StoredObject) (w : World) : World :=
  mkWorld b (users w) (documents w) (document_assignments w)
          (rest_authorization w) (generate_requests w).

Definition set_documents (ds : list Document) (w : World) : World :=
  mkWorld (bucket w) (users w) ds (document_assignments w)
          (rest_authorization w) (generate_requests w).

Definition set_document_assignments (asg : list Assignment) (w : World) : World :=
  mkWorld (bucket w) (users w) (documents w) asg
          (rest_authorization w) (generate_requests w).

Definition set_rest_authorization (a : jstring) (w : World) : World :=
  mkWorld (bucket w) (users w) (documents w) (document_assignments w)
          a (generate_requests w).

Definition log_generate_request (prompt : jstring) (w : World) : World :=
  mkWorld (bucket w) (users w) (documents w) (document_assignments w)
          (rest_authorization w) (generate_requests w ++ [prompt]).

Definition quoted (s : jstring) : jstring := [34%N] ++ s ++ [34%N].

Definition duplicate_key (constraint : string) : jstring :=
  `"duplicate key value violates unique constraint "` ++ quoted (lit constraint).

Definition foreign_key (table constraint : string) : jstring :=
  `"insert or update on table "` ++ quoted (lit table)
  ++ `" violates foreign key constraint "` ++ quoted (lit constraint).

Definition has_document (id : jstring) (ds : list Document) : bool :=
  existsb (fun d => JS.eqb (d_id d) id) ds.

Definition has_user (id : jstring) (us : list UserRow) : bool :=
  existsb (fun u => JS.eqb (u_id u) id) us.

(** [unique (doc_id, user_id)]. *)
Definition same_pair (doc user : jstring) (a : Assignment) : bool :=
  JS.eqb (a_doc_id a) doc && JS.eqb (a_user_id a) user.

Definition has_pair (doc user : jstring) (asg : list Assignment) : bool :=
  existsb (same_pair doc user) asg.

Definition has_assignment_id (id : jstring) (asg : list Assignment) : bool :=
  existsb (fun a => JS.eqb (a_id a) id) asg.

(** Rows are checked one after the other, each against the table and the
    rows of the same statement before it; a violation undoes the statement.
    Which constraint is named when a row breaks more than one is the
    order of the tests here, not necessarily the datastore's. *)
Fixpoint add_assignments (ds : list Document) (asg : list Assignment)
         (rows : list Assignment) : Result (list Assignment) :=
  match rows with
  | [] => Data asg
  | r :: rest =>
      if has_assignment_id (a_id r) asg
      then Error (duplicate_key "document_assignments_pkey")
      else if negb (has_document (a_doc_id r) ds)
      then Error (foreign_key "document_assignments" "document_assignments_doc_id_fkey")
      else if has_pair (a_doc_id r) (a_user_id r) asg
      then Error (duplicate_key "document_assignments_doc_id_user_id_key")
      else add_assignments ds (asg ++ [r]) rest
  end.

(** [order('created_at', { ascending: false })], rows of equal time kept
    in table order. *)
Fixpoint insert_desc (d : Document) (l : list Document) : list Document :=
  match l with
  | [] => [d]
  | x :: rest =>
      if (d_created_at x <=? d_created_at d)%N then d :: l
      else x :: insert_desc d rest
  end.

Definition order_created_at_desc (l : list Document) : list Document :=
  fold_right insert_desc [] l.

Definition set_parsed_text (t : jstring) (d : Document) : Document :=
  mkDocument (d_id d) (d_title d) (d_file_url d) (Some t) (d_summary d)
             (d_status d) (d_created_at d) (d_created_by d).

Definition set_summary (s : jstring) (d : Document) : Document :=
  mkDocument (d_id d) (d_title d) (d_file_url d) (d_parsed_text d) (Some s)
             (d_status d) (d_created_at d) (d_created_by d).

Definition set_status (s : Status) (d : Document) : Document :=
  mkDocument (d_id d) (d_title d) (d_file_url d) (d_parsed_text d) (d_summary d)
             s (d_created_at d) (d_created_by d).

(** [update(...).eq('id', id)] on a list of rows. *)
Definition update_where_id (id : jstring) (f : Document -> Document)
           (ds : list Document) : list Document :=
  List.map (fun d => if JS.eqb (d_id d) id then f d else d) ds.

Section Backend.

Variable env : Env.

(** [supabase.storage.from('documents').upload(path, bytes, { contentType, upsert: false })],
    for a key the client library sends as it is; it strips a leading
    and a trailing slash and collapses doubled ones in any other key,
    which is not modelled. *)
Definition storage_upload (path : jstring) (bytes : list N) (contentType : jstring)
  : Handler (Result jstring) :=
  fun w =>
    match fault env StorageUpload with
    | Some m => (Next (Error m), w)
    | None =>
        if existsb (fun o => JS.eqb (o_path o) path) (bucket w)
        then (Next (Error `"The resource already exists"`), w)
        else (Next (Data path),
              set_bucket (bucket w ++ [mkStoredObject path bytes contentType]) w)
    end.

(** [supabase.storage.from('documents').getPublicUrl(path)], for a key
    and a base URL the client library leaves as they are; it
    percent-encodes the characters [encodeURI] escapes (a space, for
    one), which is not modelled. *)
Definition getPublicUrl (path : jstring) : jstring :=
  SUPABASE_URL env ++ `"/storage/v1/object/public/documents/"` ++ path.

(** [from('documents').insert({ title, file_url, status: 'pending', created_by }).select('*').single()]. *)
Definition insert_document (title file_url created_by : jstring)
  : Handler (Result Document) :=
  fun w =>
    match fault env InsertDocument with
    | Some m => (Next (Error m), w)
    | None =>
        let doc := mkDocument (gen_random_uuid env 0) title file_url None None
                              pending (now env) (Some created_by) in
        if has_document (d_id doc) (documents w)
        then (Next (Error (duplicate_key "documents_pkey")), w)
        else if negb (has_user created_by (users w))
        then (Next (Error (foreign_key "documents" "documents_created_by_fkey")), w)
        else (Next (Data doc), set_documents (documents w ++ [doc]) w)
    end.

(** [from('documents').update(patch).eq('id', id)]. *)
Definition update_document (call : Call) (id : jstring) (patch : Document -> Document)
  : Handler (Result unit) :=
  fun w =>
    match fault env call with
    | Some m => (Next (Error m), w)
    | None => (Next (Data tt), set_documents (update_where_id id patch (documents w)) w)
    end.

(** [from('documents').select(...)] filtered on [status], newest first. *)
Definition select_documents (call : Call) (st : Status)
  : Handler (Result (list Document)) :=
  fun w =>
    match fault env call with
    | Some m => (Next (Error m), w)
    | None =>
        (Next (Data (order_created_at_desc
                       (filter (fun d => status_eqb (d_status d) st) (documents w)))), w)
    end.

(** [from('document_assignments').insert(rows)]: the i-th row gets the
    i-th generated id and the statement's time. *)
Definition new_assignments (rows : list (jstring * jstring)) : list Assignment :=
  List.map (fun ir => mkAssignment (gen_random_uuid env (fst ir))
                                   (fst (snd ir)) (snd (snd ir)) (now env))
           (combine (seq 0 (List.length rows)) rows).

Definition insert_assignments (rows : list (jstring * jstring))
  : Handler (Result unit) :=
  fun w =>
    match fault env InsertAssignments with
    | Some m => (Next (Error m), w)
    | None =>
        match add_assignments (documents w) (document_assignments w)
                              (new_assignments rows) with
        | Error m => (Next (Error m), w)
        | Data asg => (Next (Data tt), set_document_assignments asg w)
        end
    end.

(** [from('document_assignments').select('doc_id,user_id').eq('user_id', userId)]. *)
Definition select_assignments (userId : jstring)
  : Handler (Result (list Assignment)) :=
  fun w =>
    match fault env SelectAssignments with
    | Some m => (Next (Error m), w)
    | None =>
        (Next (Data (filter (fun a => JS.eqb (a_user_id a) userId)
                            (document_assignments w))), w)
    end.

End Backend.

(* ------------------------------------------------------------------ *)
(** ** The edge function *)

(** [new Set(xs)]: insertion order, an element once. *)
Fixpoint Set_has (s : list jstring) (x : jstring) : bool :=
  match s with
  | [] => false
  | y :: s' => JS.eqb y x || Set_has s' x
  end.

Definition new_Set (xs : list jstring) : list jstring :=
  fold_left (fun s x => if Set_has s x then s else s ++ [x]) xs [].

(** [s.replace(pat, rep)] with a string pattern: the first occurrence. *)
Fixpoint replace_first (pat rep s : jstring) : jstring :=
  match strip_prefix pat s with
  | Some rest => rep ++ rest
  | None => match s with
            | [] => []
            | c :: s' => c :: replace_first pat rep s'
            end
  end.

(** [it.str] inside [join]: a missing [str] prints as nothing. *)
Definition item_str (it : TextItem) : jstring := nullish (str it) [].

(** The body of the loop of [parsePdfToText], pages [i], [i+1], ... for
    [count] rounds. *)
Fixpoint read_pages (pdf : PdfDocument) (count i : nat) (text : jstring)
  : option jstring :=
  match count with
  | O => Some text
  | S count' =>
      match getPage pdf i with
      | None => None
      | Some page =>
          match getTextContent page with
          | None => None
          | Some items =>
              read_pages pdf count' (S i)
                         (text ++ join [SPACE] (List.map item_str items) ++ [LF])
          end
      end
  end.

(** The row as [select('id,title,file_url,summary,status,created_at')] gives it. *)
Definition nullable (s : option jstring) : Json :=
  match s with Some t => JStr t | None => JNull end.

Definition listed_row (d : Document) : Json :=
  JObj [(`"id"`, JStr (d_id d));
        (`"title"`, JStr (d_title d));
        (`"file_url"`, JStr (d_file_url d));
        (`"summary"`, nullable (d_summary d));
        (`"status"`, JStr (status_text (d_status d)));
        (`"created_at"`, JNum (d_created_at d))].

Definition PROMPT : jstring :=
  `"Summarize this document and extract: date of issue, who issued it, to whom it is addressed, important details, important names, and any critical information. Return a concise, structured summary."`
  ++ [LF; LF] ++ `"Document Text:"` ++ [LF].

(** [data?.candidates?.[0]?.content?.parts?.[0]?.text]. *)
Definition first_candidate_text (data : GenerateData) : option jstring :=
  match candidates data with
  | Some (c :: _) =>
      match content c with
      | Some ct =>
          match parts ct with
          | Some (p :: _) => part_text p
          | _ => None
          end
      | None => None
      end
  | _ => None
  end.

(** The text handed to the summarizer when nothing was extracted. *)
Definition fallback_description (publicUrl : jstring) : jstring :=
  `"The document is at "` ++ publicUrl ++ `". Summarize based on its content."`.

Section EdgeFunction.

Variable env : Env.

Definition getAuthUser (req : Request) : option AuthUser :=
  let authHeader := Authorization (headers req) in
  let provided :=
    match authHeader with
    | Some h =>
        if truthy h then auth_getUser env (replace_first `"Bearer "` [] h) else None
    | None => None
    end in
  match provided with
  | Some user => Some user
  | None =>
      let mockRole := x_mock_role (headers req) in
      let mockUserId := x_mock_user_id (headers req) in
      match mockRole, mockUserId with
      | Some role, Some uid =>
          if truthy role && truthy uid
          then Some (mkAuthUser uid (Some role))
          else None
      | _, _ => None
      end
  end.

Definition isAdmin (user : option AuthUser) : bool :=
  match user with
  | Some u =>
      match user_metadata_role u with
      | Some role => JS.eqb role `"admin"`
      | None => false
      end
  | None => false
  end.

Definition parsePdfToText (fileBytes : list N) : jstring :=
  let attempt :=
    if pdfjs_import env then
      match getDocument env fileBytes with
      | Some pdf => read_pages pdf (numPages pdf) 1 []
      | None => None
      end
    else None in
  match attempt with
  | Some text => trim text
  | None => []
  end.

(** [fetch(...)] to the generative endpoint: the request leaves, then the
    promise resolves or rejects. *)
Definition fetch (key prompt : jstring) : Handler FetchResponse :=
  fun w =>
    let w' := log_generate_request prompt w in
    match fetch_generate env key prompt with
    | Some resp => (Next resp, w')
    | None => (Uncaught, w')
    end.

(** [resp.json()]. *)
Definition resp_json (resp : FetchResponse) : Handler GenerateData :=
  match json resp with
  | Some data => ret data
  | None => throw
  end.

Definition summarizeWithGemini (text : jstring) : Handler jstring :=
  match GEMINI_API_KEY env with
  | None => ret []
  | Some key =>
      if negb (truthy key) then ret []
      else
        let prompt := PROMPT ++ slice0 120000 text in
        resp <- fetch key prompt ;;
        if negb (ok resp) then ret []
        else
          data <- resp_json resp ;;
          let textOut := nullish (first_candidate_text data) [] in
          ret (trim textOut)
  end.

(** [req.formData()] rejects unless the body is a form. *)
Definition formData (req : Request) : Handler FormData :=
  match payload req with
  | Multipart form => ret form
  | _ => throw
  end.

(** [req.json().catch(() => ({}))]: the parsed body, and the empty
    object when the body is missing or is not JSON. *)
Definition json_or_empty (req : Request) : ApproveBody :=
  match payload req with
  | JsonPayload b => b
  | _ => mkApproveBody None
  end.

(** The value of [body.userIds ?? []]: an array of strings, a string, or
    a number or boolean. *)
Inductive UserIds : Type :=
| id_list (l : list jstring)
| id_string (s : jstring)
| id_scalar.

(** [body.userIds ?? []]; reading a property of null throws. *)
Definition userIds_or_empty (body : ApproveBody) : Handler UserIds :=
  match body with
  | mkApproveBody (Some l) => ret (id_list l)
  | mkApproveBody None => ret (id_list [])
  | null_body => throw
  | string_userIds s => ret (id_string s)
  | scalar_userIds => ret id_scalar
  end.

(** [userIds.length > 0]: an array and a string have a length; a number
    or a boolean has none, and [undefined > 0] is false. *)
Definition length_positive (v : UserIds) : bool :=
  match v with
  | id_list l => 0 <? List.length l
  | id_string s => 0 <? List.length s
  | id_scalar => false
  end.

(** [userIds.map((uid) => ({ doc_id: id, user_id: uid }))]: only an
    array has [map]. *)
Definition map_rows (id : jstring) (v : UserIds) : Handler (list (jstring * jstring)) :=
  match v with
  | id_list l => ret (List.map (fun uid => (id, uid)) l)
  | _ => throw
  end.

Definition Forbidden : Response := new_Response (Text `"Forbidden"`) 403.

(** [(form.get('title') as string) || (file?.name ?? 'Untitled')]. *)
Definition title_of (form : FormData) : jstring :=
  let named :=
    match form_file form with
    | Some f => file_name f
    | None => `"Untitled"`
    end in
  match form_title form with
  | Some t => or_else t named
  | None => named
  end.

(** The storage key: a random identifier, a dash, the file's name. *)
Definition storagePath (file : File) : jstring :=
  randomUUID env ++ `"-"` ++ file_name file.

Definition server_error (message : jstring) : Response :=
  new_Response (Stringified (error_object message)) 500.

(** Past the gate the user is not null; [user.id] on null would throw. *)
Definition handleUpload (req : Request) (user : option AuthUser) : Handler Response :=
  if negb (isAdmin user) then reply Forbidden
  else
    form <- formData req ;;
    let file := form_file form in
    let title := title_of form in
    match file with
    | None => reply (new_Response (Stringified (error_object `"file required"`)) 400)
    | Some file =>
        let bytes := file_bytes file in
        uploaded <- storage_upload env (storagePath file) bytes
                      (or_else (file_type file) `"application/pdf"`) ;;
        match uploaded with
        | Error uploadErr => reply (server_error uploadErr)
        | Data path =>
            let publicUrl := getPublicUrl env path in
            match user with
            | None => throw
            | Some u =>
                inserted <- insert_document env title publicUrl (user_id u) ;;
                match inserted with
                | Error insertErr => reply (server_error insertErr)
                | Data doc =>
                    let parsedText := parsePdfToText bytes in
                    update_document env UpdateParsedText (d_id doc)
                                    (set_parsed_text parsedText) ;;
                    summary <- summarizeWithGemini
                                 (or_else parsedText (fallback_description publicUrl)) ;;
                    update_document env UpdateSummary (d_id doc)
                                    (set_summary summary) ;;
                    ret (Response_json
                           (JObj [(`"id"`, JStr (d_id doc));
                                  (`"title"`, JStr title);
                                  (`"file_url"`, JStr publicUrl);
                                  (`"status"`, JStr `"pending"`)]))
                end
            end
        end
    end.

Definition handlePending (req : Request) (user : option AuthUser) : Handler Response :=
  if negb (isAdmin user) then reply Forbidden
  else
    selected <- select_documents env SelectPending pending ;;
    match selected with
    | Error message => reply (server_error message)
    | Data data => ret (Response_json (JArr (List.map listed_row data)))
    end.

Definition handleApprove (req : Request) (user : option AuthUser) (id : jstring)
  : Handler Response :=
  if negb (isAdmin user) then reply Forbidden
  else
    let body := json_or_empty req in
    userIds <- userIds_or_empty body ;;
    updated <- update_document env UpdateStatus id (set_status approved) ;;
    match updated with
    | Error upErr => reply (server_error upErr)
    | Data _ =>
        (if length_positive userIds then
           rows <- map_rows id userIds ;;
           inserted <- insert_assignments env rows ;;
           match inserted with
           | Error insErr => reply (server_error insErr)
           | Data _ => ret tt
           end
         else ret tt) ;;
        ret (Response_json (JObj [(`"ok"`, JBool true)]))
    end.

Definition handleApprovedForUser (_req : Request) (_user : option AuthUser)
           (userId : jstring) : Handler Response :=
  selected <- select_documents env SelectApproved approved ;;
  match selected with
  | Error message => reply (server_error message)
  | Data data =>
      assigned <- select_assignments env userId ;;
      let assigns := match assigned with Data l => l | Error _ => [] end in
      let allowed := new_Set (List.map a_doc_id assigns) in
      let filtered := filter (fun d => Set_has allowed (d_id d)) data in
      ret (Response_json (JArr (List.map listed_row filtered)))
  end.

(** [approveMatch]: the pattern is a slash, a greedy dot-star group and
    [/approve], anchored at both ends; the result is the captured group. *)
Definition match_approve (pathname : jstring) : option jstring :=
  match strip_prefix `"/"` pathname with
  | Some rest =>
      match strip_suffix `"/approve"` rest with
      | Some id => if dot_star id then Some id else None
      | None => None
      end
  | None => None
  end.

(** [approvedForUser]: the pattern is [/approved/] and a greedy dot-star
    group, anchored at both ends; the result is the captured group. *)
Definition match_approved (pathname : jstring) : option jstring :=
  match strip_prefix `"/approved/"` pathname with
  | Some userId => if dot_star userId then Some userId else None
  | None => None
  end.

Definition route_pathname (url_path : jstring) : jstring :=
  or_else (match strip_prefix `"/functions/v1/documents"` url_path with
           | Some rest => rest
           | None => url_path
           end) `"/"`.

(** The function given to [Deno.serve]. *)
Definition serve (req : Request) : Handler Response :=
  let pathname := route_pathname (url_pathname req) in
  let authHeader := Authorization (headers req) in
  modify (set_rest_authorization (nullish authHeader [])) ;;
  let user := getAuthUser req in
  if JS.eqb (method req) `"POST"` && JS.eqb pathname `"/upload"`
  then handleUpload req user
  else if JS.eqb (method req) `"GET"` && JS.eqb pathname `"/pending"`
  then handlePending req user
  else
    let approveMatch := match_approve pathname in
    match (if JS.eqb (method req) `"POST"` then approveMatch else None) with
    | Some id => handleApprove req user id
    | None =>
        let approvedForUser := match_approved pathname in
        match (if JS.eqb (method req) `"GET"` then approvedForUser else None) with
        | Some userId => handleApprovedForUser req user userId
        | None => ret (new_Response (Text `"Not Found"`) 404)
        end
    end.

End EdgeFunction.

(* ------------------------------------------------------------------ *)
(** ** Notions the statements use *)

(** The text content of page [i]: its items joined by a space; [None]
    when the page or its content cannot be read. *)
Definition page_text (pdf : PdfDocument) (i : nat) : option jstring :=
  match getPage pdf i with
  | Some page =>
      match getTextContent page with
      | Some items => Some (join [SPACE] (List.map item_str items))
      | None => None
      end
  | None => None
  end.

(** The text of pages [i], [i+1], ..., [count] of them, when all can be read. *)
Fixpoint page_texts_from (pdf : PdfDocument) (count i : nat) : option (list jstring) :=
  match count with
  | O => Some []
  | S count' =>
      match page_text pdf i with
      | Some t =>
          match page_texts_from pdf count' (S i) with
          | Some ts => Some (t :: ts)
          | None => None
          end
      | None => None
      end
  end.

(** Per-page text of a file, or [None] on any parsing failure. *)
Definition page_texts (env : Env) (fileBytes : list N) : option (list jstring) :=
  if pdfjs_import env then
    match getDocument env fileBytes with
    | Some pdf => page_texts_from pdf (numPages pdf) 1
    | None => None
    end
  else None.

(** The documents a user is meant to see: approved and assigned to the
    user, newest first. *)
Definition listVisibleFor (w : World) (userId : jstring) : list Document :=
  filter (fun d => has_pair (d_id d) userId (document_assignments w))
         (order_created_at_desc
            (filter (fun d => status_eqb (d_status d) approved) (documents w))).

(** Two rows agree on what the upload confirmation reports. *)
Definition same_card (a b : Document) : Prop :=
  d_id a = d_id b /\ d_title a = d_title b
  /\ d_file_url a = d_file_url b /\ d_status a = d_status b.

(** [a] may come before [b] in a newest-first listing. *)
Definition newer_or_equal (a b : Document) : Prop :=
  (d_created_at b <= d_created_at a)%N.

(** Number of assignment rows for a (document, user) pair. *)
Definition pair_count (doc user : jstring) (asg : list Assignment) : nat :=
  List.length (filter (same_pair doc user) asg).

(** The unique constraint of [document_assignments] as a property of the table. *)
Definition unique_pairs (asg : list Assignment) : Prop :=
  forall doc user, pair_count doc user asg <= 1.

(** The request is one of POST /upload, GET /pending, POST /{id}/approve. *)
Definition admin_only_request (req : Request) : bool :=
  let pathname := route_pathname (url_pathname req) in
  (JS.eqb (method req) `"POST"` && JS.eqb pathname `"/upload"`)
  || (JS.eqb (method req) `"GET"` && JS.eqb pathname `"/pending"`)
  || (JS.eqb (method req) `"POST"`
      && match match_approve pathname with Some _ => true | None => false end).

(** The bearer token is absent, or the identity provider rejects it. *)
Definition token_unresolved (env : Env) (req : Request) : Prop :=
  match Authorization (headers req) with
  | None => True
  | Some h => truthy h = false \/ auth_getUser env (replace_first `"Bearer "` [] h) = None
  end.

(** The approve request gives no user list: no body, a body that is not
    JSON, or JSON other than null without [userIds]. *)
Definition no_user_list (req : Request) : Prop :=
  match payload req with
  | JsonPayload b => b = mkApproveBody None
  | _ => True
  end.

(** A listed row with the given id. *)
Definition row_with_id (id : jstring) (row : Json) : Prop :=
  field `"id"` row = Some (JStr id).

Definition ok_true : Response := Response_json (JObj [(`"ok"`, JBool true)]).

(** The confirmation [handleUpload] sends. *)
Definition upload_confirmation (id title file_url : jstring) : Response :=
  Response_json (JObj [(`"id"`, JStr id);
                       (`"title"`, JStr title);
                       (`"file_url"`, JStr file_url);
                       (`"status"`, JStr `"pending"`)]).

(* ------------------------------------------------------------------ *)
(** ** A small office, for running the handlers *)

Module Office.

Definition quiet : Call -> option jstring := fun _ => None.

Definition page (items : list (option jstring)) : PdfPage :=
  mkPdfPage (Some (List.map mkTextItem items)).

Definition two_pages : PdfDocument :=
  mkPdfDocument 2 (fun i =>
    if Nat.eqb i 1 then Some (page [Some `"Hello"`; Some `"world "`])
    else if Nat.eqb i 2 then Some (page [Some `" page two"`])
    else None).

Definition good_reply : FetchResponse :=
  mkFetchResponse true
    (Some (mkGenerateData
             (Some [mkCandidate (Some (mkContent (Some [mkPart (Some `" A summary. "`)])))]))).

Definition provider (token : jstring) : option AuthUser :=
  if JS.eqb token `"tok-admin"` then Some (mkAuthUser `"a1"` (Some `"admin"`))
  else if JS.eqb token `"tok-u1"` then Some (mkAuthUser `"u1"` (Some `"employee"`))
  else None.

Definition uuid (i : nat) : jstring := `"row-"` ++ [(48 + N.of_nat i)%N].

(** Everything answers. *)
Definition calm : Env :=
  mkEnv `"https://kmrl.supabase.co"` (Some `"key"`) provider `"r1"` uuid 7%N
        quiet true (fun _ => Some two_pages) (fun _ _ => Some good_reply).

(** A later request: other generated ids, a later clock. *)
Definition later : Env :=
  mkEnv `"https://kmrl.supabase.co"` (Some `"key"`) provider `"r2"`
        (fun i => `"next-"` ++ [(48 + N.of_nat i)%N]) 9%N
        quiet true (fun _ => Some two_pages) (fun _ _ => Some good_reply).

(** The file cannot be parsed. *)
Definition unreadable : Env :=
  mkEnv `"https://kmrl.supabase.co"` (Some `"key"`) provider `"r1"` uuid 7%N
        quiet true (fun _ => None) (fun _ _ => Some good_reply).

(** The generative endpoint cannot be reached. *)
Definition offline : Env :=
  mkEnv `"https://kmrl.supabase.co"` (Some `"key"`) provider `"r1"` uuid 7%N
        quiet true (fun _ => Some two_pages) (fun _ _ => None).

(** The file cannot be parsed and the generative endpoint cannot be
    reached. *)
Definition cut_off : Env :=
  mkEnv `"https://kmrl.supabase.co"` (Some `"key"`) provider `"r1"` uuid 7%N
        quiet true (fun _ => None) (fun _ _ => None).

Definition a1 : AuthUser := mkAuthUser `"a1"` (Some `"admin"`).

Definition d1 : Document :=
  mkDocument `"d1"` `"Q1 Report"` `"https://kmrl.supabase.co/storage/v1/object/public/documents/r0-report.pdf"`
             (Some `"text"`) (Some `"summary"`) pending 5%N (Some `"a1"`).

Definition staff : list UserRow :=
  [mkUserRow `"a1"` (Some `"Asha"`) (Some `"asha@kmrl.example"`) admin;
   mkUserRow `"u1"` (Some `"Unni"`) (Some `"unni@kmrl.example"`) employee].

(** No document yet. *)
Definition empty_office : World := mkWorld [] staff [] [] [] [].

(** One pending document, nobody assigned. *)
Definition one_pending : World := mkWorld [] staff [d1] [] [] [].

(** The pending document already carries an assignment for [u3]. *)
Definition earlier_assignment : World :=
  mkWorld [] staff [d1] [mkAssignment `"row-9"` `"d1"` `"u3"` 6%N] [] [].

(** The document approved and assigned to [u1]. *)
Definition approved_for_u1 : World :=
  mkWorld [] staff [set_status approved d1]
          [mkAssignment `"row-0"` `"d1"` `"u1"` 7%N] [] [].

Definition bearer (token : string) : Headers :=
  mkHeaders (Some (`"Bearer "` ++ lit token)) None None.

Definition anonymous : Headers := mkHeaders None None None.

Definition mock (role uid : string) : Headers :=
  mkHeaders None (Some (lit role)) (Some (lit uid)).

Definition report : File := mkFile `"report.pdf"` `"application/pdf"` [37%N; 80%N; 68%N; 70%N].

Definition upload_request (h : Headers) : Request :=
  mkRequest `"POST"` `"/functions/v1/documents/upload"` h
            (Multipart (mkForm (Some report) (Some `"Q1 Report"`))).

Definition pending_request (h : Headers) : Request :=
  mkRequest `"GET"` `"/functions/v1/documents/pending"` h NoPayload.

Definition approve_request (h : Headers) (p : Payload) : Request :=
  mkRequest `"POST"` `"/functions/v1/documents/d1/approve"` h p.

Definition approved_request (h : Headers) (uid : string) : Request :=
  mkRequest `"GET"` (`"/functions/v1/documents/approved/"` ++ lit uid) h NoPayload.

Definition with_users (l : list string) : Payload :=
  JsonPayload (mkApproveBody (Some (List.map lit l))).

End Office.

(* ------------------------------------------------------------------ *)
(** ** The tables as the migration constrains them *)

(** [id uuid primary key] of [documents]. *)
Definition unique_document_ids (w : World) : Prop :=
  NoDup (List.map d_id (documents w)).

(** [id uuid primary key] of [document_assignments]. *)
Definition unique_assignment_ids (w : World) : Prop :=
  NoDup (List.map a_id (document_assignments w)).

(** One object per storage key ([upsert: false]). *)
Definition unique_storage_paths (w : World) : Prop :=
  NoDup (List.map o_path (bucket w)).

(** [doc_id uuid not null references public.documents(id)]. *)
Definition assignments_refer (w : World) : Prop :=
  forall a, In a (document_assignments w) ->
            has_document (a_doc_id a) (documents w) = true.

(** [created_by uuid references public.users(id)]. *)
Definition creators_exist (w : World) : Prop :=
  forall d u, In d (documents w) -> d_created_by d = Some u ->
              has_user u (users w) = true.

(** What one request may do to a row that was there: leave it, or
    approve it. *)
Definition kept (d d' : Document) : Prop :=
  d' = d \/ d' = set_status approved d.

(** What one request may do to the shared state: add objects, add
    pending rows, approve rows, add assignment rows. *)
Definition evolves (w w' : World) : Prop :=
  users w' = users w
  /\ (exists added, bucket w' = bucket w ++ added)
  /\ (exists rows added,
         documents w' = rows ++ added
         /\ Forall2 kept (documents w) rows
         /\ Forall (fun d => d_status d = pending) added)
  /\ (exists added, document_assignments w' = document_assignments w ++ added).

(** The pair of an assignment row. *)
Definition pair_of (a : Assignment) : jstring * jstring :=
  (a_doc_id a, a_user_id a).

(** An id the URL parser leaves as it is: letters, digits, dash, underscore. *)
Definition plain_char (c : N) : bool :=
  ((48 <=? c)%N && (c <=? 57)%N)
  || ((65 <=? c)%N && (c <=? 90)%N)
  || ((97 <=? c)%N && (c <=? 122)%N)
  || (c =? 45)%N || (c =? 95)%N.

Definition plain_id (s : jstring) : bool := forallb plain_char s.

(* ------------------------------------------------------------------ *)
(** ** The callers: [src/services/api.js] and the review page *)

Module Client.

(** The user object the app keeps under [kmrl_user]: a role, taken to be
    a string, and possibly an [id] or a [user_id]. *)
Record MockUser : Type := mkMockUser {
  role : jstring;
  id : option jstring;
  user_id : option jstring
}.

(** [localStorage.getItem('kmrl_user')] and what [JSON.parse] makes of
    it: no item (or the empty string); text on which [JSON.parse]
    throws, or the value null, on which [mockUser.role] throws (the
    [try] swallows both); a value without a role; or a user. *)
Inductive Stored : Type :=
| NoItem
| NotAUser
| NoRole (id user_id : option jstring)
| User (u : MockUser).

Record Browser : Type := mkBrowser {
  access_token : option jstring;
  kmrl_user : Stored
}.

(** The request interceptor of [functionsApi], on a request that carries
    none of the three headers yet; a header set to [undefined] (the role
    of a value without one) is not sent. *)
Definition interceptor (b : Browser) : Headers :=
  if truthy_opt (access_token b)
  then mkHeaders (Some (`"Bearer "` ++ nullish (access_token b) [])) None None
  else
    match kmrl_user b with
    | User mockUser =>
        mkHeaders None
                  (Some (role mockUser))
                  (Some (match id mockUser with
                         | Some i => i
                         | None => nullish (user_id mockUser) `"mock-user"`
                         end))
    | NoRole i u =>
        mkHeaders None None
                  (Some (match i with
                         | Some i => i
                         | None => nullish u `"mock-user"`
                         end))
    | _ => mkHeaders None None None
    end.

(** [documentsApi], each call as the request the function receives; the
    base URL ends in [/functions/v1], and an id is taken to be one the
    URL parser leaves as it is. *)
Definition getPendingDocuments (b : Browser) : Request :=
  mkRequest `"GET"` `"/functions/v1/documents/pending"` (interceptor b) NoPayload.

Definition uploadDocument (b : Browser) (formData : FormData) : Request :=
  mkRequest `"POST"` `"/functions/v1/documents/upload"` (interceptor b)
            (Multipart formData).

Definition approveDocument (b : Browser) (id : jstring) (userIds : list jstring)
  : Request :=
  mkRequest `"POST"` (`"/functions/v1/documents/"` ++ id ++ `"/approve"`)
            (interceptor b) (JsonPayload (mkApproveBody (Some userIds))).

Definition getApprovedForUser (b : Browser) (userId : jstring) : Request :=
  mkRequest `"GET"` (`"/functions/v1/documents/approved/"` ++ userId)
            (interceptor b) NoPayload.

(** [arr.includes(x)] on strings. *)
Definition includes_id (l : list jstring) (x : jstring) : bool :=
  existsb (fun y => JS.eqb y x) l.

(** The updater of [selectedEmployeeIds] behind an employee's button. *)
Definition toggleEmployee (empId : jstring) (prev : list jstring) : list jstring :=
  if includes_id prev empId
  then filter (fun i => negb (JS.eqb i empId)) prev
  else prev ++ [empId].

(** [doc.status === s] on a listed row. *)
Definition status_is (s : jstring) (doc : Json) : bool :=
  match field `"status"` doc with
  | Some (JStr t) => JS.eqb t s
  | _ => false
  end.

(** [d.id !== id] on a listed row. *)
Definition id_is_not (i : jstring) (doc : Json) : bool :=
  match field `"id"` doc with
  | Some (JStr t) => negb (JS.eqb t i)
  | _ => true
  end.

Definition pendingDocuments (documents : list Json) : list Json :=
  filter (status_is `"pending"`) documents.

Definition approvedDocuments (documents : list Json) : list Json :=
  filter (status_is `"approved"`) documents.

(** What [Loader] gives [setDocuments]: the array of a 2xx response,
    and the empty list when the call is rejected. *)
Definition Loader_documents (o : Outcome) : list Json :=
  match o with
  | Responded r =>
      if (200 <=? status r) && (status r <? 300)
      then match body r with
           | Stringified (JArr rows) => rows
           | _ => []
           end
      else []
  | Failed => []
  end.

(** [prevDocs.filter(d => d.id !== selectedDocument.id)], after an
    approval or a rejection. *)
Definition removeDocument (i : jstring) (prevDocs : list Json) : list Json :=
  filter (id_is_not i) prevDocs.

End Client.

(** A row of the pending list. *)
Definition pending_row (r : Json) : Prop :=
  exists d, r = listed_row d /\ d_status d = pending.

(* ================================================================== *)
(** * Properties *)

Unset Implicit Arguments.

(** ** Strings *)

Module JSFacts.

Lemma eqb_eq (a b : jstring) : JS.eqb a b = true <-> a = b.
Proof.
  revert b. induction a as [|x a IH]; intros [|y b]; simpl; split;
    try congruence; try reflexivity.
  - intros H. apply andb_true_iff in H as [Hx Hab].
    apply N.eqb_eq in Hx. apply IH in Hab. congruence.
  - intros H. injection H as -> ->.
    rewrite N.eqb_refl. simpl. apply IH. reflexivity.
Qed.

Lemma eqb_refl (a : jstring) : JS.eqb a a = true.
Proof. apply eqb_eq. reflexivity. Qed.

Lemma eqb_neq (a b : jstring) : JS.eqb a b = false <-> a <> b.
Proof.
  split.
  - intros H E. apply eqb_eq in E. congruence.
  - intros H. destruct (JS.eqb a b) eqn:E; [|reflexivity].
    apply eqb_eq in E. contradiction.
Qed.

Lemma truthy_nonempty (s : jstring) : truthy s = true <-> s <> [].
Proof. destruct s; simpl; split; congruence. Qed.

(** A trailing white space does not survive [trim]. *)
Lemma trimEnd_snoc (s : jstring) (c : N) :
  is_white_space c = true -> trimEnd (s ++ [c]) = trimEnd s.
Proof.
  intros Hc. unfold trimEnd. rewrite rev_app_distr. simpl.
  rewrite Hc. reflexivity.
Qed.

Lemma trim_snoc (s : jstring) (c : N) :
  is_white_space c = true -> trim (s ++ [c]) = trim s.
Proof. intros Hc. unfold trim. rewrite trimEnd_snoc by assumption. reflexivity. Qed.

(** [trimStart] removes a run of white space and nothing else. *)
Lemma trimStart_split (s : jstring) :
  exists l, s = l ++ trimStart s /\ forallb is_white_space l = true.
Proof.
  induction s as [|c s [l [Hs Hl]]]; simpl.
  - exists []. split; reflexivity.
  - destruct (is_white_space c) eqn:Hc.
    + exists (c :: l). simpl. rewrite Hc, Hl. split; [congruence | reflexivity].
    + exists []. split; reflexivity.
Qed.

Lemma trimStart_head (s : jstring) (c : N) (t : jstring) :
  trimStart s = c :: t -> is_white_space c = false.
Proof.
  induction s as [|x s IH]; simpl; [discriminate|].
  destruct (is_white_space x) eqn:Hx; [exact IH|].
  intros H. injection H as -> _. exact Hx.
Qed.

Lemma forallb_rev {A : Type} (f : A -> bool) (l : list A) :
  forallb f (rev l) = forallb f l.
Proof.
  induction l as [|x l IH]; simpl; [reflexivity|].
  rewrite forallb_app, IH. simpl. rewrite andb_true_r. apply andb_comm.
Qed.

(** [trim s] is [s] without a run of white space at either end. *)
Lemma trim_split (s : jstring) :
  exists l r, s = l ++ trim s ++ r
              /\ forallb is_white_space l = true
              /\ forallb is_white_space r = true.
Proof.
  unfold trim, trimEnd.
  destruct (trimStart_split (rev s)) as [r [Hr Hwr]].
  destruct (trimStart_split (rev (trimStart (rev s)))) as [l [Hl Hwl]].
  exists l, (rev r).
  assert (Hs : s = rev (trimStart (rev s)) ++ rev r).
  { rewrite <- rev_app_distr, <- Hr, rev_involutive. reflexivity. }
  split; [|split].
  - etransitivity; [exact Hs|]. rewrite app_assoc. f_equal. exact Hl.
  - exact Hwl.
  - rewrite forallb_rev. exact Hwr.
Qed.

(** Neither end of [trim s] is white space. *)
Lemma trim_head (s : jstring) (c : N) (t : jstring) :
  trim s = c :: t -> is_white_space c = false.
Proof. unfold trim. apply trimStart_head. Qed.

Lemma trim_last (s t : jstring) (c : N) :
  trim s = t ++ [c] -> is_white_space c = false.
Proof.
  unfold trim, trimEnd. intros H.
  destruct (trimStart_split (rev (trimStart (rev s)))) as [l [Hl _]].
  rewrite H in Hl.
  assert (E : trimStart (rev s) = c :: rev (l ++ t)).
  { rewrite <- (rev_involutive (trimStart (rev s))), Hl, app_assoc.
    rewrite rev_app_distr. reflexivity. }
  exact (trimStart_head _ _ _ E).
Qed.

End JSFacts.

(** ** Sets, ordering and tables *)

Section Containers.

Lemma Set_has_In (s : list jstring) (x : jstring) :
  Set_has s x = true <-> In x s.
Proof.
  induction s as [|y s IH]; simpl.
  - split; [discriminate | contradiction].
  - rewrite orb_true_iff, IH, JSFacts.eqb_eq. reflexivity.
Qed.

Lemma Set_has_app (s t : list jstring) (x : jstring) :
  Set_has (s ++ t) x = Set_has s x || Set_has t x.
Proof.
  induction s as [|y s IH]; simpl; [reflexivity|].
  rewrite IH. apply orb_assoc.
Qed.

Lemma fold_Set_has (xs acc : list jstring) (x : jstring) :
  Set_has (fold_left (fun s y => if Set_has s y then s else s ++ [y]) xs acc) x
  = Set_has acc x || Set_has xs x.
Proof.
  revert acc. induction xs as [|y xs IH]; intros acc; simpl.
  - rewrite orb_false_r. reflexivity.
  - rewrite IH. destruct (Set_has acc y) eqn:Hy.
    + destruct (JS.eqb y x) eqn:E; simpl; [|reflexivity].
      apply JSFacts.eqb_eq in E. subst y. rewrite Hy. reflexivity.
    + rewrite Set_has_app. simpl. rewrite orb_false_r, orb_assoc. reflexivity.
Qed.

(** Membership in [new Set(xs)] is membership in [xs]. *)
Lemma new_Set_has (xs : list jstring) (x : jstring) :
  Set_has (new_Set xs) x = Set_has xs x.
Proof. unfold new_Set. rewrite fold_Set_has. reflexivity. Qed.

Lemma Set_has_doc_ids (asg : list Assignment) (user doc : jstring) :
  Set_has (List.map a_doc_id (filter (fun a => JS.eqb (a_user_id a) user) asg)) doc
  = has_pair doc user asg.
Proof.
  unfold has_pair, same_pair.
  induction asg as [|a asg IH]; simpl; [reflexivity|].
  destruct (JS.eqb (a_user_id a) user); simpl.
  - rewrite IH, andb_true_r. reflexivity.
  - rewrite IH, andb_false_r. reflexivity.
Qed.

Lemma insert_desc_perm (d : Document) (l : list Document) :
  Permutation (insert_desc d l) (d :: l).
Proof.
  induction l as [|x l IH]; simpl; [apply Permutation_refl|].
  destruct (d_created_at x <=? d_created_at d)%N.
  - apply Permutation_refl.
  - eapply Permutation_trans; [apply perm_skip, IH | apply perm_swap].
Qed.

(** Ordering keeps exactly the rows it is given. *)
Lemma order_perm (l : list Document) : Permutation (order_created_at_desc l) l.
Proof.
  induction l as [|d l IH]; simpl; [apply perm_nil|].
  eapply Permutation_trans; [apply insert_desc_perm | apply perm_skip, IH].
Qed.

Lemma order_In (l : list Document) (d : Document) :
  In d (order_created_at_desc l) <-> In d l.
Proof.
  split; apply Permutation_in;
    [apply order_perm | apply Permutation_sym, order_perm].
Qed.

Lemma insert_desc_sorted (d : Document) (l : list Document) :
  Sorted newer_or_equal l -> Sorted newer_or_equal (insert_desc d l).
Proof.
  induction l as [|x l IH]; simpl; intros Hs.
  - repeat constructor.
  - destruct (N.leb_spec (d_created_at x) (d_created_at d)) as [Hle|Hlt].
    + constructor; [assumption | constructor; exact Hle].
    + inversion Hs as [|? ? Hs' Hhd]; subst.
      constructor; [apply IH, Hs'|].
      destruct l as [|y l]; simpl.
      * constructor. unfold newer_or_equal. lia.
      * destruct (N.leb_spec (d_created_at y) (d_created_at d)).
        -- constructor. unfold newer_or_equal. lia.
        -- inversion Hhd; subst. constructor. assumption.
Qed.

(** The result is newest first. *)
Lemma order_sorted (l : list Document) :
  Sorted newer_or_equal (order_created_at_desc l).
Proof.
  induction l as [|d l IH]; simpl; [constructor | apply insert_desc_sorted, IH].
Qed.

Lemma has_document_In (id : jstring) (ds : list Document) :
  has_document id ds = true <-> exists d, In d ds /\ d_id d = id.
Proof.
  unfold has_document. rewrite existsb_exists.
  split; intros [d [Hin H]]; exists d; split; try assumption;
    apply JSFacts.eqb_eq; assumption.
Qed.

Lemma has_pair_In (doc user : jstring) (asg : list Assignment) :
  has_pair doc user asg = true
  <-> exists a, In a asg /\ a_doc_id a = doc /\ a_user_id a = user.
Proof.
  unfold has_pair, same_pair. rewrite existsb_exists.
  split.
  - intros [a [Hin H]]. apply andb_true_iff in H as [H1 H2].
    apply JSFacts.eqb_eq in H1, H2. exists a. auto.
  - intros [a [Hin [H1 H2]]]. exists a. split; [assumption|].
    apply andb_true_iff. split; apply JSFacts.eqb_eq; assumption.
Qed.

Lemma has_pair_app (doc user : jstring) (a b : list Assignment) :
  has_pair doc user (a ++ b) = has_pair doc user a || has_pair doc user b.
Proof. unfold has_pair. apply existsb_app. Qed.

Lemma pair_count_app (doc user : jstring) (a b : list Assignment) :
  pair_count doc user (a ++ b) = pair_count doc user a + pair_count doc user b.
Proof. unfold pair_count. rewrite filter_app, length_app. reflexivity. Qed.

Lemma pair_count_zero (doc user : jstring) (asg : list Assignment) :
  has_pair doc user asg = false -> pair_count doc user asg = 0.
Proof.
  unfold has_pair, pair_count.
  induction asg as [|a asg IH]; simpl; [reflexivity|].
  destruct (same_pair doc user a); simpl; [discriminate | exact IH].
Qed.

Lemma has_document_update (id id' : jstring) (f : Document -> Document)
      (ds : list Document) :
  (forall d, d_id (f d) = d_id d) ->
  has_document id' (update_where_id id f ds) = has_document id' ds.
Proof.
  intros Hf. unfold has_document, update_where_id.
  induction ds as [|d ds IH]; simpl; [reflexivity|].
  rewrite IH. f_equal.
  destruct (JS.eqb (d_id d) id); [rewrite Hf|]; reflexivity.
Qed.

(** After [update(patch).eq('id', id)] a row with that id is a patched row. *)
Lemma update_where_id_In (id : jstring) (f : Document -> Document)
      (ds : list Document) (d : Document) :
  In d (update_where_id id f ds) <->
  exists d0, In d0 ds /\ d = (if JS.eqb (d_id d0) id then f d0 else d0).
Proof.
  unfold update_where_id. rewrite in_map_iff.
  split; intros [d0 [H1 H2]]; exists d0; split; auto.
Qed.

End Containers.

(** ** The text extractor *)

Section Extractor.

Variable env : Env.

(** The loop reads the pages in order and ends each with a line feed. *)
Lemma read_pages_page_texts (pdf : PdfDocument) (count i : nat) (text : jstring) :
  read_pages pdf count i text =
  match page_texts_from pdf count i with
  | Some ts => Some (text ++ List.concat (List.map (fun t => t ++ [LF]) ts))
  | None => None
  end.
Proof.
  revert i text. induction count as [|count IH]; intros i text; simpl.
  - rewrite app_nil_r. reflexivity.
  - unfold page_text. destruct (getPage pdf i) as [page|]; [|reflexivity].
    destruct (getTextContent page) as [items|]; [|reflexivity].
    rewrite IH. destruct (page_texts_from pdf count (S i)) as [ts|]; [|reflexivity].
    simpl. rewrite <- !app_assoc. reflexivity.
Qed.

(** Ending every page with a line feed is separating the pages by line
    feeds and adding one more at the end. *)
Lemma terminated_join (t : jstring) (ts : list jstring) :
  List.concat (List.map (fun p => p ++ [LF]) (t :: ts)) = join [LF] (t :: ts) ++ [LF].
Proof.
  revert t. induction ts as [|t' ts IH]; intros t.
  - simpl. rewrite app_nil_r. reflexivity.
  - change (List.concat (List.map (fun p => p ++ [LF]) (t :: t' :: ts)))
      with ((t ++ [LF]) ++ List.concat (List.map (fun p => p ++ [LF]) (t' :: ts))).
    rewrite IH.
    change (join [LF] (t :: t' :: ts)) with (t ++ [LF] ++ join [LF] (t' :: ts)).
    rewrite <- !app_assoc. reflexivity.
Qed.

Lemma trim_terminated (ts : list jstring) :
  trim (List.concat (List.map (fun p => p ++ [LF]) ts)) = trim (join [LF] ts).
Proof.
  destruct ts as [|t ts]; [reflexivity|].
  rewrite terminated_join. apply JSFacts.trim_snoc. reflexivity.
Qed.

(** C9. Whatever the bytes, [parsePdfToText] returns a string: the empty
    string when pdf.js cannot be loaded, the file cannot be opened or a
    page or its content cannot be read, and otherwise the texts of the
    pages joined by a line feed, with the white space at both ends
    removed. *)
Theorem parsePdfToText_page_texts (fileBytes : list N) :
  parsePdfToText env fileBytes =
  match page_texts env fileBytes with
  | Some pages => trim (join [LF] pages)
  | None => []
  end.
Proof.
  unfold parsePdfToText, page_texts.
  destruct (pdfjs_import env); [|reflexivity].
  destruct (getDocument env fileBytes) as [pdf|]; [|reflexivity].
  rewrite read_pages_page_texts.
  destruct (page_texts_from pdf (numPages pdf) 1) as [ts|]; [|reflexivity].
  simpl. apply trim_terminated.
Qed.

(** The extracted text has no white space at either end. *)
Lemma parsePdfToText_is_trim (fileBytes : list N) :
  exists s, parsePdfToText env fileBytes = trim s.
Proof.
  unfold parsePdfToText.
  destruct (if pdfjs_import env then _ else _) as [text|];
    [exists text | exists []]; reflexivity.
Qed.

Lemma parsePdfToText_trimmed (fileBytes : list N) :
  (forall c t, parsePdfToText env fileBytes = c :: t -> is_white_space c = false)
  /\ (forall t c, parsePdfToText env fileBytes = t ++ [c] -> is_white_space c = false).
Proof.
  destruct (parsePdfToText_is_trim fileBytes) as [s ->]. split.
  - intros c t. apply JSFacts.trim_head.
  - intros t c. apply JSFacts.trim_last.
Qed.

End Extractor.

(** ** Running handlers *)

(** Case analysis on the innermost test a handler is waiting on. *)
Ltac innermost_case :=
  match goal with
  | |- context [match ?x with _ => _ end] =>
      lazymatch x with
      | context [match _ with _ => _ end] => fail
      | _ => destruct x eqn:?
      end
  end.

Ltac innermost_case_in H :=
  match type of H with
  | context [match ?x with _ => _ end] =>
      lazymatch x with
      | context [match _ with _ => _ end] => fail
      | _ => destruct x eqn:?
      end
  end.

(** Unfold the monad and the backend calls, nothing else. *)
Ltac open_handler :=
  cbv beta iota zeta delta
      [run bind ret reply throw modify
       storage_upload insert_document update_document select_documents
       insert_assignments select_assignments
       fetch resp_json summarizeWithGemini formData
       userIds_or_empty map_rows].

Ltac open_handler_in H :=
  cbv beta iota zeta delta
      [run bind ret reply throw modify
       storage_upload insert_document update_document select_documents
       insert_assignments select_assignments
       fetch resp_json summarizeWithGemini formData
       userIds_or_empty map_rows] in H.

Ltac split_cases_in H :=
  repeat (innermost_case_in H; cbv beta iota zeta in H; try discriminate H).

(** ** The access resolver and the gates *)

Section Gates.

Variable env : Env.

Lemma isAdmin_role (user : option AuthUser) :
  isAdmin user = true <->
  exists u, user = Some u /\ user_metadata_role u = Some `"admin"`.
Proof.
  unfold isAdmin. split.
  - destruct user as [u|]; [|discriminate].
    destruct (user_metadata_role u) as [role|] eqn:E; [|discriminate].
    intros H. apply JSFacts.eqb_eq in H. subst role. exists u. auto.
  - intros [u [-> ->]]. apply JSFacts.eqb_refl.
Qed.

Lemma handleUpload_gate (req : Request) (user : option AuthUser) (w : World) :
  isAdmin user = false -> handleUpload env req user w = (Reply Forbidden, w).
Proof. intros H. unfold handleUpload. rewrite H. reflexivity. Qed.

Lemma handlePending_gate (req : Request) (user : option AuthUser) (w : World) :
  isAdmin user = false -> handlePending env req user w = (Reply Forbidden, w).
Proof. intros H. unfold handlePending. rewrite H. reflexivity. Qed.

Lemma handleApprove_gate (req : Request) (user : option AuthUser) (id : jstring)
      (w : World) :
  isAdmin user = false -> handleApprove env req user id w = (Reply Forbidden, w).
Proof. intros H. unfold handleApprove. rewrite H. reflexivity. Qed.

(** C1. A request to POST /upload, GET /pending or POST /{id}/approve
    whose caller does not resolve to the admin role is answered with
    403 Forbidden, and the bucket and the tables are left as they were:
    no file stored, no document row created or updated, no assignment row
    inserted. *)
Theorem non_admin_forbidden (req : Request) (w : World) :
  admin_only_request req = true ->
  isAdmin (getAuthUser env req) = false ->
  exists w',
    run (serve env req) w = (Responded Forbidden, w')
    /\ status Forbidden = 403
    /\ bucket w' = bucket w
    /\ users w' = users w
    /\ documents w' = documents w
    /\ document_assignments w' = document_assignments w
    /\ generate_requests w' = generate_requests w.
Proof.
  intros Hroute Hrole.
  exists (set_rest_authorization (nullish (Authorization (headers req)) []) w).
  split; [|repeat split; reflexivity].
  unfold admin_only_request in Hroute.
  unfold run, serve, bind, modify.
  destruct (JS.eqb (method req) `"POST"` && JS.eqb (route_pathname (url_pathname req)) `"/upload"`).
  { rewrite handleUpload_gate by assumption. reflexivity. }
  destruct (JS.eqb (method req) `"GET"` && JS.eqb (route_pathname (url_pathname req)) `"/pending"`).
  { rewrite handlePending_gate by assumption. reflexivity. }
  simpl in Hroute. apply andb_true_iff in Hroute as [Hpost Hmatch].
  rewrite Hpost.
  destruct (match_approve (route_pathname (url_pathname req))) as [id|];
    [|discriminate].
  rewrite handleApprove_gate by assumption. reflexivity.
Qed.

End Gates.

(** ** What an admin is answered *)

Section AdminAnswers.

Variable env : Env.

Lemma handlePending_admin_status (req : Request) (user : option AuthUser)
      (w w' : World) (r : Response) :
  isAdmin user = true ->
  run (handlePending env req user) w = (Responded r, w') ->
  status r = 200 \/ status r = 500.
Proof.
  intros Ha H. unfold handlePending in H. rewrite Ha in H.
  open_handler_in H. cbv beta iota zeta delta [negb] in H.
  split_cases_in H; inversion H; subst; simpl; auto.
Qed.

Lemma handleApprove_admin_status (req : Request) (user : option AuthUser)
      (id : jstring) (w w' : World) (r : Response) :
  isAdmin user = true ->
  run (handleApprove env req user id) w = (Responded r, w') ->
  status r = 200 \/ status r = 500.
Proof.
  intros Ha H. unfold handleApprove in H. rewrite Ha in H.
  open_handler_in H. cbv beta iota zeta delta [negb] in H.
  split_cases_in H; inversion H; subst; simpl; auto.
Qed.

Lemma handleUpload_admin_status (req : Request) (user : option AuthUser)
      (w w' : World) (r : Response) :
  isAdmin user = true ->
  run (handleUpload env req user) w = (Responded r, w') ->
  status r = 200 \/ status r = 400 \/ status r = 500.
Proof.
  intros Ha H. unfold handleUpload in H. rewrite Ha in H.
  open_handler_in H. cbv beta iota zeta delta [negb] in H.
  split_cases_in H; inversion H; subst; simpl; auto.
Qed.

End AdminAnswers.

(** ** The upload pipeline *)

Section Upload.

Variable env : Env.

Lemma same_card_refl (d : Document) : same_card d d.
Proof. repeat split. Qed.

Lemma set_parsed_text_card (t : jstring) (d : Document) :
  same_card (set_parsed_text t d) d.
Proof. repeat split. Qed.

Lemma set_summary_card (s : jstring) (d : Document) :
  same_card (set_summary s d) d.
Proof. repeat split. Qed.

(** A patch that leaves id, title, url and status alone keeps every card. *)
Lemma update_keeps_card (id : jstring) (f : Document -> Document)
      (ds : list Document) (doc : Document) :
  (forall d, same_card (f d) d) ->
  (exists row, In row ds /\ same_card row doc) ->
  exists row, In row (update_where_id id f ds) /\ same_card row doc.
Proof.
  intros Hf [row [Hin Hc]].
  exists (if JS.eqb (d_id row) id then f row else row). split.
  - apply update_where_id_In. exists row. auto.
  - destruct (JS.eqb (d_id row) id); [|assumption].
    destruct (Hf row) as [H1 [H2 [H3 H4]]]. destruct Hc as [C1 [C2 [C3 C4]]].
    repeat split; congruence.
Qed.

Lemma appended_card (ds : list Document) (doc : Document) :
  exists row, In row (ds ++ [doc]) /\ same_card row doc.
Proof.
  exists doc. split; [apply in_or_app; right; left; reflexivity | apply same_card_refl].
Qed.

Ltac keep_card :=
  repeat first
    [ apply appended_card
    | apply update_keeps_card; [intros; first [apply set_parsed_text_card | apply set_summary_card] |] ].

(** C4. Whenever an upload is answered with success, the answer is the
    confirmation made of the document id, the title, the file URL and
    status pending, and a row with that id, title and URL and status
    pending is in the table when the call returns, whatever extraction
    and summarization did. *)
Theorem upload_success_pending_row (req : Request) (user : option AuthUser)
        (w w' : World) (r : Response) :
  run (handleUpload env req user) w = (Responded r, w') ->
  status r = 200 ->
  exists id title file_url,
    r = upload_confirmation id title file_url
    /\ exists row, In row (documents w')
                   /\ d_id row = id /\ d_title row = title
                   /\ d_file_url row = file_url /\ d_status row = pending.
Proof.
  intros H Hst. unfold handleUpload in H.
  open_handler_in H.
  split_cases_in H; inversion H; subst; clear H; simpl in Hst; try discriminate Hst.
  all: eexists _, _, _; (split; [reflexivity|]).
  all: cbn [documents set_documents log_generate_request set_bucket].
  all: match goal with
       | |- exists row, In row ?ds /\ _ =>
           match ds with
           | context [_ ++ [?doc]] =>
               change (exists row, In row ds /\ same_card row doc)
           end
       end.
  all: keep_card.
Qed.

End Upload.

(** ** The summarizer inside the upload *)

Section Summarizer.

Variable env : Env.

(** No credential: the empty string at once, nothing sent. *)
Lemma summarize_without_key (text : jstring) (w : World) :
  truthy_opt (GEMINI_API_KEY env) = false ->
  summarizeWithGemini env text w = (Next [], w).
Proof.
  unfold summarizeWithGemini, truthy_opt.
  destruct (GEMINI_API_KEY env) as [key|]; [|reflexivity].
  intros ->. reflexivity.
Qed.

(** A response that is not a success: the empty string. *)
Lemma summarize_non_success (text key : jstring) (resp : FetchResponse) (w : World) :
  GEMINI_API_KEY env = Some key ->
  truthy key = true ->
  fetch_generate env key (PROMPT ++ slice0 120000 text) = Some resp ->
  ok resp = false ->
  summarizeWithGemini env text w
  = (Next [], log_generate_request (PROMPT ++ slice0 120000 text) w).
Proof.
  intros Hk Ht Hf Hok. unfold summarizeWithGemini, bind, fetch.
  rewrite Hk, Ht, Hf, Hok. reflexivity.
Qed.

(** A request that gets no response leaves the summarizer as an exception. *)
Lemma summarize_rejected (text key : jstring) (w : World) :
  GEMINI_API_KEY env = Some key ->
  truthy key = true ->
  fetch_generate env key (PROMPT ++ slice0 120000 text) = None ->
  summarizeWithGemini env text w
  = (Uncaught, log_generate_request (PROMPT ++ slice0 120000 text) w).
Proof.
  intros Hk Ht Hf. unfold summarizeWithGemini, bind, fetch.
  rewrite Hk, Ht, Hf. reflexivity.
Qed.

(** What the summarizer answers does not depend on the tables. *)
Lemma summarize_answer (text : jstring) (w1 w2 : World) :
  fst (summarizeWithGemini env text w1) = fst (summarizeWithGemini env text w2).
Proof.
  unfold summarizeWithGemini, bind, fetch, resp_json, ret, throw.
  repeat (innermost_case; cbv beta iota zeta; try reflexivity).
Qed.

(** The summarizer never returns a response of its own and touches
    nothing but the list of requests it sent. *)
Lemma summarize_world (text : jstring) (w : World) :
  (snd (summarizeWithGemini env text w) = w
   \/ snd (summarizeWithGemini env text w)
      = log_generate_request (PROMPT ++ slice0 120000 text) w)
  /\ (forall r, fst (summarizeWithGemini env text w) <> Reply r).
Proof.
  unfold summarizeWithGemini, bind, fetch, resp_json, ret, throw.
  repeat (innermost_case; cbv beta iota zeta);
    (split; [auto | intros r; discriminate]).
Qed.

Lemma summarize_logs (text key : jstring) (w : World) :
  GEMINI_API_KEY env = Some key ->
  truthy key = true ->
  generate_requests (snd (summarizeWithGemini env text w))
  = generate_requests w ++ [PROMPT ++ slice0 120000 text].
Proof.
  intros Hk Ht. unfold summarizeWithGemini, bind, fetch, resp_json, ret, throw.
  rewrite Hk, Ht. cbv beta iota zeta delta [negb].
  repeat (innermost_case; cbv beta iota zeta); reflexivity.
Qed.

Lemma strip_prefix_self (p s : jstring) : strip_prefix p (p ++ s) = Some s.
Proof.
  induction p as [|c p IH]; simpl; [reflexivity|].
  rewrite N.eqb_refl. exact IH.
Qed.

Lemma includes_infix (a needle b : jstring) :
  includes needle (a ++ needle ++ b) = true.
Proof.
  induction a as [|c a IH].
  - simpl app. destruct (needle ++ b) eqn:E; simpl;
      rewrite <- ?E, strip_prefix_self; reflexivity.
  - simpl app. simpl. rewrite IH.
    destruct (strip_prefix needle (c :: a ++ needle ++ b)); reflexivity.
Qed.

(** The fallback description names the file's URL. *)
Lemma fallback_names_url (publicUrl : jstring) :
  includes publicUrl (fallback_description publicUrl) = true.
Proof. unfold fallback_description. apply includes_infix. Qed.

End Summarizer.

Section Fallback.

Variable env : Env.

Lemma or_else_empty (b : jstring) : or_else [] b = b.
Proof. reflexivity. Qed.

Lemma update_document_step (call : Call) (id : jstring) (f : Document -> Document)
      (w : World) :
  exists res, update_document env call id f w
              = (Next res, snd (update_document env call id f w)).
Proof.
  unfold update_document. destruct (fault env call); eexists; reflexivity.
Qed.

Lemma update_document_requests (call : Call) (id : jstring) (f : Document -> Document)
      (w : World) :
  generate_requests (snd (update_document env call id f w)) = generate_requests w.
Proof. unfold update_document. destruct (fault env call); reflexivity. Qed.

Lemma storage_upload_requests (path : jstring) (bytes : list N) (ct : jstring)
      (w w' : World) (res : Result jstring) :
  storage_upload env path bytes ct w = (Next res, w') ->
  generate_requests w' = generate_requests w.
Proof.
  unfold storage_upload. intros H.
  split_cases_in H; inversion H; reflexivity.
Qed.

Lemma insert_document_requests (title url uid : jstring) (w w' : World)
      (res : Result Document) :
  insert_document env title url uid w = (Next res, w') ->
  generate_requests w' = generate_requests w.
Proof.
  unfold insert_document. intros H.
  split_cases_in H; inversion H; reflexivity.
Qed.

Lemma update_summary_row (id : jstring) (summary : jstring) (w : World) :
  fault env UpdateSummary = None ->
  has_document id (documents w) = true ->
  exists row, In row (documents (snd (update_document env UpdateSummary id
                                                       (set_summary summary) w)))
              /\ d_id row = id /\ d_summary row = Some summary.
Proof.
  intros Hf Hd. unfold update_document. rewrite Hf. simpl.
  apply has_document_In in Hd as [d [Hin Hid]].
  exists (set_summary summary d). split; [|split; [exact Hid | reflexivity]].
  apply update_where_id_In. exists d. split; [assumption|].
  rewrite Hid, JSFacts.eqb_refl. reflexivity.
Qed.

Lemma summarize_keeps_documents (text : jstring) (w : World) :
  documents (snd (summarizeWithGemini env text w)) = documents w.
Proof.
  destruct (summarize_world env text w) as [[-> | ->] _]; reflexivity.
Qed.

Lemma inserted_document_present (title url uid : jstring) (w w' : World)
      (doc : Document) :
  insert_document env title url uid w = (Next (Data doc), w') ->
  has_document (d_id doc) (documents w') = true.
Proof.
  unfold insert_document. intros H.
  split_cases_in H; inversion H; subst; clear H.
  cbn [documents set_documents]. unfold has_document.
  rewrite existsb_app. simpl. rewrite JSFacts.eqb_refl, orb_true_r. reflexivity.
Qed.

(** As long as the summarizer call returns: in an upload whose file was
    stored and whose row was created, if extraction yields the empty
    text then the summarizer is run on the fallback description, which
    names the file's URL, in place of the extracted text: its request is
    the one sent upstream, its answer is what is written to the row, and
    the upload is answered with the confirmation. *)
Theorem empty_extraction_uses_fallback
        (req : Request) (u : AuthUser) (form : FormData) (file : File)
        (w w1 w2 : World) (doc : Document) (summary : jstring) :
  isAdmin (Some u) = true ->
  payload req = Multipart form ->
  form_file form = Some file ->
  storage_upload env (storagePath env file) (file_bytes file)
                 (or_else (file_type file) `"application/pdf"`) w
  = (Next (Data (storagePath env file)), w1) ->
  insert_document env (title_of form) (getPublicUrl env (storagePath env file))
                  (user_id u) w1
  = (Next (Data doc), w2) ->
  parsePdfToText env (file_bytes file) = [] ->
  fst (summarizeWithGemini env
         (fallback_description (getPublicUrl env (storagePath env file))) w)
  = Next summary ->
  exists w',
    run (handleUpload env req (Some u)) w
    = (Responded (upload_confirmation (d_id doc) (title_of form)
                                      (getPublicUrl env (storagePath env file))), w')
    /\ includes (getPublicUrl env (storagePath env file))
                (fallback_description (getPublicUrl env (storagePath env file))) = true
    /\ (forall key, GEMINI_API_KEY env = Some key -> truthy key = true ->
          generate_requests w'
          = generate_requests w
            ++ [PROMPT ++ slice0 120000
                  (fallback_description (getPublicUrl env (storagePath env file)))])
    /\ (fault env UpdateSummary = None ->
          exists row, In row (documents w')
                      /\ d_id row = d_id doc /\ d_summary row = Some summary).
Proof.
  intros Hadmin Hpay Hfile Hstore Hins Hparse Hsum.
  set (url := getPublicUrl env (storagePath env file)) in *.
  set (w3 := snd (update_document env UpdateParsedText (d_id doc)
                                  (set_parsed_text []) w2)).
  set (w4 := snd (summarizeWithGemini env (fallback_description url) w3)).
  exists (snd (update_document env UpdateSummary (d_id doc) (set_summary summary) w4)).
  assert (Hrun : summarizeWithGemini env (fallback_description url) w3
                 = (Next summary, w4)).
  { rewrite (summarize_answer env _ w w3) in Hsum.
    unfold w4. destruct (summarizeWithGemini env (fallback_description url) w3).
    simpl in *. congruence. }
  split; [|split; [|split]].
  - unfold handleUpload, run, bind, formData.
    rewrite Hadmin, Hpay. cbv beta iota zeta delta [negb ret].
    rewrite Hfile. fold url. rewrite Hstore. fold url. rewrite Hins, Hparse.
    destruct (update_document_step UpdateParsedText (d_id doc) (set_parsed_text []) w2)
      as [res1 E1].
    rewrite E1. fold w3. rewrite or_else_empty, Hrun.
    destruct (update_document_step UpdateSummary (d_id doc) (set_summary summary) w4)
      as [res2 E2].
    rewrite E2. reflexivity.
  - apply fallback_names_url.
  - intros key Hk Ht.
    rewrite update_document_requests. unfold w4.
    rewrite (summarize_logs env _ _ w3 Hk Ht). unfold w3.
    rewrite update_document_requests.
    rewrite (insert_document_requests _ _ _ _ _ _ Hins).
    rewrite (storage_upload_requests _ _ _ _ _ _ Hstore). reflexivity.
  - intros Hf. apply update_summary_row; [assumption|].
    unfold w4. rewrite summarize_keeps_documents. unfold w3.
    unfold update_document. destruct (fault env UpdateParsedText); simpl.
    + apply (inserted_document_present _ _ _ _ _ _ Hins).
    + rewrite has_document_update by reflexivity.
      apply (inserted_document_present _ _ _ _ _ _ Hins).
Qed.

End Fallback.

Section SummarizerFailure.

Variable env : Env.

(** With no credential, or with a response that is not a success, an
    upload whose file was stored and whose row was created is answered
    with the confirmation. *)
Lemma degraded_summary_upload_succeeds
      (req : Request) (u : AuthUser) (form : FormData) (file : File)
      (w w1 w2 : World) (doc : Document) :
  isAdmin (Some u) = true ->
  payload req = Multipart form ->
  form_file form = Some file ->
  storage_upload env (storagePath env file) (file_bytes file)
                 (or_else (file_type file) `"application/pdf"`) w
  = (Next (Data (storagePath env file)), w1) ->
  insert_document env (title_of form) (getPublicUrl env (storagePath env file))
                  (user_id u) w1
  = (Next (Data doc), w2) ->
  (truthy_opt (GEMINI_API_KEY env) = false
   \/ exists key resp,
        GEMINI_API_KEY env = Some key /\ truthy key = true
        /\ fetch_generate env key
             (PROMPT ++ slice0 120000
                (or_else (parsePdfToText env (file_bytes file))
                         (fallback_description (getPublicUrl env (storagePath env file)))))
           = Some resp
        /\ ok resp = false) ->
  exists w',
    run (handleUpload env req (Some u)) w
    = (Responded (upload_confirmation (d_id doc) (title_of form)
                                      (getPublicUrl env (storagePath env file))), w').
Proof.
  intros Hadmin Hpay Hfile Hstore Hins Hdeg.
  unfold handleUpload, run, bind, formData.
  rewrite Hadmin, Hpay. cbv beta iota zeta delta [negb ret].
  rewrite Hfile, Hstore, Hins.
  destruct (update_document_step env UpdateParsedText (d_id doc)
              (set_parsed_text (parsePdfToText env (file_bytes file))) w2) as [res1 E1].
  rewrite E1.
  destruct Hdeg as [Hnone | [key [resp [Hk [Ht [Hf Hok]]]]]].
  - rewrite summarize_without_key by assumption.
    destruct (update_document_step env UpdateSummary (d_id doc) (set_summary []) 
                (snd (update_document env UpdateParsedText (d_id doc)
                        (set_parsed_text (parsePdfToText env (file_bytes file))) w2)))
      as [res2 E2].
    rewrite E2. eexists. reflexivity.
  - rewrite (summarize_non_success env _ _ _ _ Hk Ht Hf Hok).
    match goal with
    | |- context [update_document env UpdateSummary ?i ?f ?x] =>
        destruct (update_document_step env UpdateSummary i f x) as [res2 E2]
    end.
    rewrite E2. eexists. reflexivity.
Qed.

(** When the request to the generative endpoint gets no response, the
    exception leaves [handleUpload]: the created row stays, no response is
    produced. *)
Lemma rejected_summary_upload_fails
      (req : Request) (u : AuthUser) (form : FormData) (file : File)
      (w w1 w2 : World) (doc : Document) (key : jstring) :
  isAdmin (Some u) = true ->
  payload req = Multipart form ->
  form_file form = Some file ->
  storage_upload env (storagePath env file) (file_bytes file)
                 (or_else (file_type file) `"application/pdf"`) w
  = (Next (Data (storagePath env file)), w1) ->
  insert_document env (title_of form) (getPublicUrl env (storagePath env file))
                  (user_id u) w1
  = (Next (Data doc), w2) ->
  GEMINI_API_KEY env = Some key ->
  truthy key = true ->
  fetch_generate env key
    (PROMPT ++ slice0 120000
       (or_else (parsePdfToText env (file_bytes file))
                (fallback_description (getPublicUrl env (storagePath env file)))))
  = None ->
  fst (run (handleUpload env req (Some u)) w) = Failed
  /\ has_document (d_id doc) (documents (snd (run (handleUpload env req (Some u)) w)))
     = true.
Proof.
  intros Hadmin Hpay Hfile Hstore Hins Hk Ht Hf.
  unfold handleUpload, run, bind, formData.
  rewrite Hadmin, Hpay. cbv beta iota zeta delta [negb ret].
  rewrite Hfile, Hstore, Hins.
  destruct (update_document_step env UpdateParsedText (d_id doc)
              (set_parsed_text (parsePdfToText env (file_bytes file))) w2) as [res1 E1].
  rewrite E1. rewrite (summarize_rejected env _ _ _ Hk Ht Hf).
  split; [reflexivity|]. cbn [snd documents log_generate_request].
  unfold update_document. destruct (fault env UpdateParsedText); simpl.
  - apply (inserted_document_present env _ _ _ _ _ _ Hins).
  - rewrite has_document_update by reflexivity.
    apply (inserted_document_present env _ _ _ _ _ _ Hins).
Qed.

End SummarizerFailure.

(** C5. An admin uploads a readable file while the generative endpoint
    cannot be reached: the file is stored and the pending row created,
    and then the summarizer's exception ends the request without a
    response. *)
Theorem unreachable_summarizer_fails_upload :
  fst (run (serve Office.offline (Office.upload_request (Office.bearer "tok-admin")))
           Office.empty_office) = Failed
  /\ has_document `"row-0"`
       (documents
          (snd (run (serve Office.offline
                           (Office.upload_request (Office.bearer "tok-admin")))
                    Office.empty_office))) = true.
Proof. vm_compute. split; reflexivity. Qed.

(** C6. An admin uploads a file that cannot be parsed while the
    generative endpoint cannot be reached: extraction yields the empty
    text, the summarizer is called on the fallback description with the
    file's URL and its request is sent, and then the summarizer's
    exception ends the request without a response: the upload does not
    return success, and the pending row stays behind. *)
Theorem unparsed_upload_fails_when_unreachable :
  parsePdfToText Office.cut_off (file_bytes Office.report) = []
  /\ fst (run (serve Office.cut_off (Office.upload_request (Office.bearer "tok-admin")))
              Office.empty_office) = Failed
  /\ generate_requests
       (snd (run (serve Office.cut_off
                        (Office.upload_request (Office.bearer "tok-admin")))
                 Office.empty_office))
     = [PROMPT
        ++ slice0 120000
             (fallback_description
                (getPublicUrl Office.cut_off
                              (storagePath Office.cut_off Office.report)))]
  /\ List.map d_status
       (documents
          (snd (run (serve Office.cut_off
                           (Office.upload_request (Office.bearer "tok-admin")))
                    Office.empty_office)))
     = [pending].
Proof. vm_compute. repeat split; reflexivity. Qed.

(** ** Inserting assignment rows *)

Section AssignmentRows.

Lemma add_assignments_app (ds : list Document) (rows asg asg' : list Assignment) :
  add_assignments ds asg rows = Data asg' -> asg' = asg ++ rows.
Proof.
  revert asg. induction rows as [|r rows IH]; intros asg; simpl.
  - intros H. injection H as <-. rewrite app_nil_r. reflexivity.
  - destruct (has_assignment_id (a_id r) asg); [discriminate|].
    destruct (negb (has_document (a_doc_id r) ds)); [discriminate|].
    destruct (has_pair (a_doc_id r) (a_user_id r) asg); [discriminate|].
    intros H. apply IH in H. rewrite <- app_assoc in H. exact H.
Qed.

(** Every inserted row refers to a document of the table. *)
Lemma add_assignments_fk (ds : list Document) (rows asg asg' : list Assignment) :
  add_assignments ds asg rows = Data asg' ->
  forall r, In r rows -> has_document (a_doc_id r) ds = true.
Proof.
  revert asg. induction rows as [|r0 rows IH]; intros asg; simpl.
  - intros _ r [].
  - destruct (has_assignment_id (a_id r0) asg); [discriminate|].
    destruct (has_document (a_doc_id r0) ds) eqn:Hfk; [|discriminate]. simpl.
    destruct (has_pair (a_doc_id r0) (a_user_id r0) asg); [discriminate|].
    intros H r [<- | Hin]; [exact Hfk | exact (IH _ H r Hin)].
Qed.

(** A pair already in the table cannot be among the rows of a statement
    that went through. *)
Lemma add_assignments_not_again (ds : list Document) (rows asg asg' : list Assignment)
      (doc user : jstring) :
  add_assignments ds asg rows = Data asg' ->
  has_pair doc user asg = true ->
  pair_count doc user rows = 0.
Proof.
  revert asg. induction rows as [|r rows IH]; intros asg; simpl.
  - reflexivity.
  - destruct (has_assignment_id (a_id r) asg); [discriminate|].
    destruct (negb (has_document (a_doc_id r) ds)); [discriminate|].
    destruct (has_pair (a_doc_id r) (a_user_id r) asg) eqn:Hnew; [discriminate|].
    intros H Hold. unfold pair_count. simpl.
    destruct (same_pair doc user r) eqn:Hsame.
    + unfold same_pair in Hsame. apply andb_true_iff in Hsame as [H1 H2].
      apply JSFacts.eqb_eq in H1, H2. subst. congruence.
    + apply (IH _ H). rewrite has_pair_app, Hold. reflexivity.
Qed.

Lemma pair_count_self (r : Assignment) :
  pair_count (a_doc_id r) (a_user_id r) [r] = 1.
Proof.
  unfold pair_count, same_pair. simpl. rewrite !JSFacts.eqb_refl. reflexivity.
Qed.

(** After a statement that went through, each of its pairs is in the
    table exactly once. *)
Lemma add_assignments_once (ds : list Document) (rows asg asg' : list Assignment) :
  add_assignments ds asg rows = Data asg' ->
  forall r, In r rows -> pair_count (a_doc_id r) (a_user_id r) asg' = 1.
Proof.
  revert asg. induction rows as [|r0 rows IH]; intros asg H r Hin.
  - destruct Hin.
  - simpl in H.
    destruct (has_assignment_id (a_id r0) asg); [discriminate|].
    destruct (negb (has_document (a_doc_id r0) ds)); [discriminate|].
    destruct (has_pair (a_doc_id r0) (a_user_id r0) asg) eqn:Hnew; [discriminate|].
    destruct Hin as [<- | Hin]; [|exact (IH _ H r Hin)].
    rewrite (add_assignments_app _ _ _ _ H), !pair_count_app.
    rewrite (pair_count_zero _ _ _ Hnew), pair_count_self.
    rewrite (add_assignments_not_again _ _ _ _ (a_doc_id r0) (a_user_id r0) H).
    + reflexivity.
    + rewrite has_pair_app. unfold has_pair at 2. simpl. unfold same_pair.
      rewrite !JSFacts.eqb_refl. simpl. apply orb_true_r.
Qed.

(** The unique constraint survives every statement. *)
Lemma add_assignments_unique (ds : list Document) (rows asg asg' : list Assignment) :
  add_assignments ds asg rows = Data asg' ->
  unique_pairs asg -> unique_pairs asg'.
Proof.
  revert asg. induction rows as [|r rows IH]; intros asg; simpl.
  - intros H. injection H as <-. auto.
  - destruct (has_assignment_id (a_id r) asg); [discriminate|].
    destruct (negb (has_document (a_doc_id r) ds)); [discriminate|].
    destruct (has_pair (a_doc_id r) (a_user_id r) asg) eqn:Hnew; [discriminate|].
    intros H Hu. apply (IH _ H). intros doc user.
    rewrite pair_count_app. specialize (Hu doc user).
    unfold pair_count at 2. simpl.
    destruct (same_pair doc user r) eqn:Hsame; simpl; [|lia].
    unfold same_pair in Hsame. apply andb_true_iff in Hsame as [H1 H2].
    apply JSFacts.eqb_eq in H1, H2. subst.
    rewrite (pair_count_zero _ _ _ Hnew). lia.
Qed.

(** A statement whose first row repeats a pair of the table is refused. *)
Lemma add_assignments_conflict (ds : list Document) (r : Assignment)
      (rest asg : list Assignment) :
  has_pair (a_doc_id r) (a_user_id r) asg = true ->
  exists m, add_assignments ds asg (r :: rest) = Error m.
Proof.
  intros H. simpl.
  destruct (has_assignment_id (a_id r) asg); [eexists; reflexivity|].
  destruct (negb (has_document (a_doc_id r) ds)); [eexists; reflexivity|].
  rewrite H. eexists; reflexivity.
Qed.

Lemma add_assignments_conflict_message (ds : list Document) (r : Assignment)
      (rest asg : list Assignment) :
  has_assignment_id (a_id r) asg = false ->
  has_document (a_doc_id r) ds = true ->
  has_pair (a_doc_id r) (a_user_id r) asg = true ->
  add_assignments ds asg (r :: rest)
  = Error (duplicate_key "document_assignments_doc_id_user_id_key").
Proof. intros H1 H2 H3. simpl. rewrite H1, H2, H3. reflexivity. Qed.

Variable env : Env.

Lemma new_assignments_pairs_from (start : nat) (rows : list (jstring * jstring)) :
  List.map (fun a => (a_doc_id a, a_user_id a))
           (List.map (fun ir => mkAssignment (gen_random_uuid env (fst ir))
                                             (fst (snd ir)) (snd (snd ir)) (now env))
                     (combine (seq start (List.length rows)) rows))
  = rows.
Proof.
  revert start. induction rows as [|[d u] rows IH]; intros start; simpl.
  - reflexivity.
  - rewrite IH. reflexivity.
Qed.

(** The rows of the statement carry exactly the pairs the handler built. *)
Lemma new_assignments_pairs (rows : list (jstring * jstring)) :
  List.map (fun a => (a_doc_id a, a_user_id a)) (new_assignments env rows) = rows.
Proof. apply new_assignments_pairs_from. Qed.

Lemma new_assignments_In (id : jstring) (l : list jstring) (u : jstring) :
  In u l ->
  exists r, In r (new_assignments env (List.map (fun uid => (id, uid)) l))
            /\ a_doc_id r = id /\ a_user_id r = u.
Proof.
  intros Hin.
  assert (H : In (id, u) (List.map (fun a => (a_doc_id a, a_user_id a))
                    (new_assignments env (List.map (fun uid => (id, uid)) l)))).
  { rewrite new_assignments_pairs. apply in_map_iff. exists u. auto. }
  apply in_map_iff in H as [r [Hr Hin']]. exists r.
  injection Hr as H1 H2. auto.
Qed.

Lemma new_assignments_users (id : jstring) (l : list jstring) (r : Assignment) :
  In r (new_assignments env (List.map (fun uid => (id, uid)) l)) ->
  a_doc_id r = id /\ In (a_user_id r) l.
Proof.
  intros Hin.
  assert (H : In (a_doc_id r, a_user_id r)
                 (List.map (fun uid => (id, uid)) l)).
  { rewrite <- (new_assignments_pairs (List.map (fun uid => (id, uid)) l)).
    apply in_map_iff. exists r. auto. }
  apply in_map_iff in H as [u [Hu Hin']]. injection Hu as H1 H2.
  subst. auto.
Qed.

End AssignmentRows.

(** ** Approval *)

Section Approval.

Variable env : Env.

(** One admin approval, call by call. *)
Lemma handleApprove_admin (req : Request) (user : option AuthUser) (id : jstring)
      (w : World) :
  isAdmin user = true ->
  run (handleApprove env req user id) w =
  match json_or_empty req with
  | null_body => (Failed, w)
  | body =>
      match fault env UpdateStatus with
      | Some m => (Responded (server_error m), w)
      | None =>
          let w1 :=
            set_documents (update_where_id id (set_status approved) (documents w)) w in
          match body with
          | mkApproveBody (Some (u :: l)) =>
              match fault env InsertAssignments with
              | Some m => (Responded (server_error m), w1)
              | None =>
                  match add_assignments (documents w1) (document_assignments w1)
                          (new_assignments env
                             (List.map (fun uid => (id, uid)) (u :: l))) with
                  | Error m => (Responded (server_error m), w1)
                  | Data asg => (Responded ok_true, set_document_assignments asg w1)
                  end
              end
          | string_userIds (_ :: _) => (Failed, w1)
          | _ => (Responded ok_true, w1)
          end
      end
  end.
Proof.
  intros Ha. unfold handleApprove. rewrite Ha.
  open_handler. cbv beta iota zeta delta [negb].
  destruct (json_or_empty req) as [[[|u l]|]| |[|c s]|];
    try reflexivity;
    cbv beta iota zeta delta [length_positive];
    destruct (fault env UpdateStatus); try reflexivity.
  change (0 <? List.length (u :: l)) with true. cbv beta iota.
  destruct (fault env InsertAssignments); [reflexivity|].
  destruct (add_assignments _ _ _); reflexivity.
Qed.

(** The same for a body of the declared type. *)
Lemma handleApprove_typed (req : Request) (user : option AuthUser) (id : jstring)
      (w : World) (ids : option (list jstring)) :
  isAdmin user = true ->
  json_or_empty req = mkApproveBody ids ->
  run (handleApprove env req user id) w =
  match fault env UpdateStatus with
  | Some m => (Responded (server_error m), w)
  | None =>
      let w1 := set_documents (update_where_id id (set_status approved) (documents w)) w in
      match ids with
      | None | Some [] => (Responded ok_true, w1)
      | Some (u :: l) =>
          match fault env InsertAssignments with
          | Some m => (Responded (server_error m), w1)
          | None =>
              match add_assignments (documents w1) (document_assignments w1)
                      (new_assignments env (List.map (fun uid => (id, uid)) (u :: l))) with
              | Error m => (Responded (server_error m), w1)
              | Data asg => (Responded ok_true, set_document_assignments asg w1)
              end
          end
      end
  end.
Proof.
  intros Ha Hb. rewrite handleApprove_admin by assumption. rewrite Hb.
  destruct (fault env UpdateStatus); [reflexivity|].
  destruct ids as [[|u l]|]; reflexivity.
Qed.

Lemma userIds_Some (b : ApproveBody) (l : list jstring) :
  userIds b = Some l -> b = mkApproveBody (Some l).
Proof. destruct b; simpl; intros H; try discriminate H. rewrite H. reflexivity. Qed.

Lemma no_user_list_empty (req : Request) :
  no_user_list req -> json_or_empty req = mkApproveBody None.
Proof.
  unfold no_user_list, json_or_empty. destruct (payload req); auto.
Qed.

Lemma approved_rows (id : jstring) (ds : list Document) (d : Document) :
  In d (update_where_id id (set_status approved) ds) ->
  d_id d = id -> d_status d = approved.
Proof.
  intros Hin Hid. apply update_where_id_In in Hin as [d0 [_ ->]].
  destruct (JS.eqb (d_id d0) id) eqn:E; [reflexivity|].
  apply JSFacts.eqb_neq in E. contradiction.
Qed.

(** An admin's approve request without a user list (no body, a body
    that is not JSON, or JSON other than null without [userIds]) is
    handled as the request with the empty list: no assignment row is
    inserted, the answer is never a 400, and once the datastore takes
    the status update every row with that id is approved and the answer
    is [{ok: true}]. *)
Theorem approve_without_user_list (req : Request) (user : option AuthUser)
        (id : jstring) (w : World) :
  isAdmin user = true ->
  no_user_list req ->
  run (handleApprove env req user id) w
  = run (handleApprove env
           (mkRequest (method req) (url_pathname req) (headers req)
                      (JsonPayload (mkApproveBody (Some []))))
           user id) w
  /\ document_assignments (snd (run (handleApprove env req user id) w))
     = document_assignments w
  /\ (forall r, fst (run (handleApprove env req user id) w) = Responded r ->
                status r <> 400)
  /\ (fault env UpdateStatus = None ->
      fst (run (handleApprove env req user id) w) = Responded ok_true
      /\ documents (snd (run (handleApprove env req user id) w))
         = update_where_id id (set_status approved) (documents w)
      /\ forall d, In d (documents (snd (run (handleApprove env req user id) w))) ->
                   d_id d = id -> d_status d = approved).
Proof.
  intros Ha Hbody.
  rewrite !handleApprove_admin by assumption.
  rewrite (no_user_list_empty _ Hbody). cbn [json_or_empty payload userIds].
  destruct (fault env UpdateStatus) as [m|]; cbn [fst snd].
  - split; [reflexivity|]. split; [reflexivity|]. split.
    + intros r H. injection H as <-. simpl. discriminate.
    + discriminate.
  - split; [reflexivity|]. split; [reflexivity|]. split.
    + intros r H. injection H as <-. simpl. discriminate.
    + intros _. split; [reflexivity|]. split; [reflexivity|].
      intros d Hin Hid. cbn [documents set_documents] in Hin.
      eapply approved_rows; eassumption.
Qed.

End Approval.

(** C10. An admin sends the approve request with the JSON body null, a
    body without a [userIds] field: reading [body.userIds] throws, the
    request ends without a response, and the document is left pending:
    the user list is not treated as empty. *)
Theorem null_body_fails_approval :
  isAdmin (getAuthUser Office.calm
             (Office.approve_request (Office.bearer "tok-admin") (JsonPayload null_body)))
  = true
  /\ fst (run (serve Office.calm
                 (Office.approve_request (Office.bearer "tok-admin")
                                         (JsonPayload null_body)))
              Office.one_pending)
     = Failed
  /\ documents
       (snd (run (serve Office.calm
                        (Office.approve_request (Office.bearer "tok-admin")
                                                (JsonPayload null_body)))
                 Office.one_pending))
     = [Office.d1]
  /\ d_status Office.d1 = pending.
Proof. vm_compute. repeat split; reflexivity. Qed.

Section ApproveTwice.

Variables env1 env2 : Env.

(** What a successful approval with a non-empty list leaves behind. *)
Lemma handleApprove_ok (env : Env) (req : Request) (user : option AuthUser)
      (id u0 : jstring) (l : list jstring) (w w1 : World) :
  isAdmin user = true ->
  payload req = JsonPayload (mkApproveBody (Some (u0 :: l))) ->
  run (handleApprove env req user id) w = (Responded ok_true, w1) ->
  let ds := update_where_id id (set_status approved) (documents w) in
  documents w1 = ds
  /\ add_assignments ds (document_assignments w)
                     (new_assignments env (List.map (fun uid => (id, uid)) (u0 :: l)))
     = Data (document_assignments w1).
Proof.
  intros Ha Hp H. rewrite handleApprove_admin in H by assumption.
  unfold json_or_empty in H. rewrite Hp in H. cbn [userIds] in H.
  destruct (fault env UpdateStatus);
    [injection H as H _; exfalso; revert H; unfold server_error, ok_true; discriminate|].
  destruct (fault env InsertAssignments);
    [injection H as H _; exfalso; revert H; unfold server_error, ok_true; discriminate|].
  cbv zeta in H. cbn [documents document_assignments set_documents] in H.
  destruct (add_assignments _ _ _) as [asg|m] eqn:E;
    [|injection H as H _; exfalso; revert H; unfold server_error, ok_true; discriminate].
  injection H as <-. cbv zeta. split; [reflexivity|].
  rewrite E. reflexivity.
Qed.

(** C2. After an approval with a non-empty user list went through, the
    same approval again is refused by the unique constraint: the second
    call is answered with 500, the assignment rows stay as the first call
    left them, each (document, user) pair of the list is there exactly
    once, and a table without duplicates stays without duplicates. *)
Theorem approve_twice_conflict (req : Request) (user : option AuthUser)
        (id u0 : jstring) (l : list jstring) (w w1 : World) :
  isAdmin user = true ->
  payload req = JsonPayload (mkApproveBody (Some (u0 :: l))) ->
  run (handleApprove env1 req user id) w = (Responded ok_true, w1) ->
  exists r2 w2,
    run (handleApprove env2 req user id) w1 = (Responded r2, w2)
    /\ status r2 = 500
    /\ document_assignments w2 = document_assignments w1
    /\ (forall u, In u (u0 :: l) -> pair_count id u (document_assignments w2) = 1)
    /\ (unique_pairs (document_assignments w) ->
        unique_pairs (document_assignments w2))
    /\ (fault env2 UpdateStatus = None ->
        fault env2 InsertAssignments = None ->
        has_assignment_id (gen_random_uuid env2 0) (document_assignments w1) = false ->
        r2 = server_error (duplicate_key "document_assignments_doc_id_user_id_key")).
Proof.
  intros Ha Hp H1.
  destruct (handleApprove_ok _ _ _ _ _ _ _ _ Ha Hp H1) as [Hds Hadd].
  assert (Honce : forall u, In u (u0 :: l) ->
                            pair_count id u (document_assignments w1) = 1).
  { intros u Hu.
    destruct (new_assignments_In env1 id (u0 :: l) u Hu) as [r [Hr [Hd Hus]]].
    rewrite <- Hd, <- Hus. exact (add_assignments_once _ _ _ _ Hadd r Hr). }
  assert (Huniq : unique_pairs (document_assignments w) ->
                  unique_pairs (document_assignments w1)).
  { apply (add_assignments_unique _ _ _ _ Hadd). }
  assert (Hhas : has_pair id u0 (document_assignments w1) = true).
  { destruct (has_pair id u0 (document_assignments w1)) eqn:E; [reflexivity|].
    apply pair_count_zero in E. rewrite Honce in E by (left; reflexivity).
    discriminate. }
  assert (Hdoc : has_document id (documents w1) = true).
  { rewrite Hds.
    destruct (new_assignments_In env1 id (u0 :: l) u0 (or_introl eq_refl))
      as [r [Hr [Hd _]]].
    pose proof (add_assignments_fk _ _ _ _ Hadd r Hr) as K.
    rewrite Hd in K. exact K. }
  rewrite handleApprove_admin by assumption.
  unfold json_or_empty. rewrite Hp. cbn [userIds].
  destruct (fault env2 UpdateStatus) as [m|].
  { exists (server_error m), w1. repeat split; auto. discriminate. }
  destruct (fault env2 InsertAssignments) as [m|].
  { eexists (server_error m), _. split; [reflexivity|].
    repeat split; auto. discriminate. }
  cbv zeta. cbn [documents document_assignments set_documents].
  assert (Hrows : exists rest,
             new_assignments env2 (List.map (fun uid => (id, uid)) (u0 :: l))
             = mkAssignment (gen_random_uuid env2 0) id u0 (now env2) :: rest).
  { eexists. reflexivity. }
  destruct Hrows as [rest ->].
  destruct (add_assignments_conflict
              (update_where_id id (set_status approved) (documents w1))
              (mkAssignment (gen_random_uuid env2 0) id u0 (now env2)) rest
              (document_assignments w1) Hhas) as [m Hm].
  rewrite Hm. eexists (server_error m), _. split; [reflexivity|].
  repeat split; auto.
  intros _ _ Hpk. f_equal.
  rewrite add_assignments_conflict_message in Hm; auto.
  - congruence.
  - cbn [a_doc_id]. rewrite has_document_update by reflexivity. exact Hdoc.
Qed.

End ApproveTwice.

(** ** The visibility query *)

Section Visibility.

Variable env : Env.

Lemma status_eqb_eq (a b : Status) : status_eqb a b = true <-> a = b.
Proof. destruct a, b; simpl; split; congruence. Qed.

(** The handler's own filter is the assignment join. *)
Lemma allowed_is_assigned (asg : list Assignment) (userId : jstring) (d : Document) :
  Set_has (new_Set (List.map a_doc_id
                      (filter (fun a => JS.eqb (a_user_id a) userId) asg))) (d_id d)
  = has_pair (d_id d) userId asg.
Proof. rewrite new_Set_has. apply Set_has_doc_ids. Qed.

(** When both queries are answered, the response is the array of the
    approved documents that have an assignment row for the user. *)
Lemma handleApprovedForUser_lists (req : Request) (user : option AuthUser)
      (userId : jstring) (w : World) :
  fault env SelectApproved = None ->
  fault env SelectAssignments = None ->
  run (handleApprovedForUser env req user userId) w
  = (Responded (Response_json (JArr (List.map listed_row (listVisibleFor w userId)))), w).
Proof.
  intros H1 H2. unfold handleApprovedForUser. open_handler.
  rewrite H1, H2. unfold listVisibleFor.
  do 5 f_equal. apply filter_ext. intros d. apply allowed_is_assigned.
Qed.

(** When the assignment rows cannot be read, nothing is listed. *)
Lemma handleApprovedForUser_closed (req : Request) (user : option AuthUser)
      (userId message : jstring) (w : World) :
  fault env SelectApproved = None ->
  fault env SelectAssignments = Some message ->
  run (handleApprovedForUser env req user userId) w
  = (Responded (Response_json (JArr [])), w).
Proof.
  intros H1 H2. unfold handleApprovedForUser. open_handler.
  rewrite H1, H2. cbn [new_Set List.map fold_left].
  do 5 f_equal. induction (order_created_at_desc _) as [|d l IH]; simpl; auto.
Qed.

Lemma listVisibleFor_In (w : World) (userId : jstring) (d : Document) :
  In d (listVisibleFor w userId) <->
  In d (documents w) /\ d_status d = approved
  /\ exists a, In a (document_assignments w)
               /\ a_doc_id a = d_id d /\ a_user_id a = userId.
Proof.
  unfold listVisibleFor.
  rewrite filter_In, order_In, filter_In, status_eqb_eq, has_pair_In.
  tauto.
Qed.

(** The identity of the caller plays no part. *)
Lemma handleApprovedForUser_any_caller (req : Request) (user user' : option AuthUser)
      (userId : jstring) (w : World) :
  handleApprovedForUser env req user userId w
  = handleApprovedForUser env req user' userId w.
Proof. reflexivity. Qed.

Lemma strip_prefix_Some (p s r : jstring) :
  strip_prefix p s = Some r -> s = p ++ r.
Proof.
  revert s. induction p as [|c p IH]; intros s; simpl.
  - intros H. injection H as ->. reflexivity.
  - destruct s as [|x s]; [discriminate|].
    destruct (N.eqb_spec c x); [|discriminate].
    intros H. apply IH in H. subst. reflexivity.
Qed.

Lemma match_approved_not_pending (pathname userId : jstring) :
  match_approved pathname = Some userId ->
  JS.eqb pathname `"/pending"` = false.
Proof.
  unfold match_approved.
  destruct (strip_prefix `"/approved/"` pathname) as [rest|] eqn:E; [|discriminate].
  intros _. apply strip_prefix_Some in E. subst pathname. reflexivity.
Qed.

(** GET /approved/{userId} goes to [handleApprovedForUser] whoever calls. *)
Lemma serve_approved (req : Request) (userId : jstring) (w : World) :
  method req = `"GET"` ->
  match_approved (route_pathname (url_pathname req)) = Some userId ->
  run (serve env req) w
  = run (handleApprovedForUser env req (getAuthUser env req) userId)
        (set_rest_authorization (nullish (Authorization (headers req)) []) w).
Proof.
  intros Hm Hr. unfold serve, run at 1, bind, modify.
  rewrite Hm, Hr, (match_approved_not_pending _ _ Hr).
  change (JS.eqb `"GET"` `"POST"`) with false.
  change (JS.eqb `"GET"` `"GET"`) with true.
  cbv beta iota zeta delta [andb]. reflexivity.
Qed.

End Visibility.

Section RoundTrip.

Variables env env' : Env.

Lemma pair_count_positive (doc user : jstring) (asg : list Assignment) :
  pair_count doc user asg = 1 -> has_pair doc user asg = true.
Proof.
  intros H. destruct (has_pair doc user asg) eqn:E; [reflexivity|].
  apply pair_count_zero in E. congruence.
Qed.

Lemma has_pair_new_assignments (e : Env) (id user : jstring) (l : list jstring) :
  ~ In user l ->
  has_pair id user (new_assignments e (List.map (fun uid => (id, uid)) l)) = false.
Proof.
  intros Hnot.
  destruct (has_pair id user _) eqn:E; [|reflexivity].
  apply has_pair_In in E as [a [Hin [_ Hu]]].
  apply new_assignments_users in Hin as [_ Hin]. rewrite Hu in Hin. contradiction.
Qed.

Lemma listed_row_id (d : Document) (id : jstring) :
  row_with_id id (listed_row d) <-> d_id d = id.
Proof.
  unfold row_with_id, listed_row, field. cbn [assoc].
  change (JS.eqb `"id"` `"id"`) with true. cbv iota.
  split; [intros H; injection H as ->; reflexivity | intros ->; reflexivity].
Qed.

Lemma listed_row_status (d : Document) :
  field `"status"` (listed_row d) = Some (JStr (status_text (d_status d))).
Proof. reflexivity. Qed.

(** C3. After an approval with userIds = [u1, u2] went through, the
    listing for u1 and the listing for u2 contain the document, as
    approved, and the listing for a user outside the list who had no
    assignment row for the document before does not contain it; whenever
    the datastore answers both queries, the handler returns exactly the
    approved documents that have an assignment row for the user, having
    filtered by the assignment rows itself. *)
Theorem approved_round_trip (req req' : Request) (user user' : option AuthUser)
        (id u1 u2 : jstring) (w w1 : World) :
  isAdmin user = true ->
  payload req = JsonPayload (mkApproveBody (Some [u1; u2])) ->
  run (handleApprove env req user id) w = (Responded ok_true, w1) ->
  fault env' SelectApproved = None ->
  fault env' SelectAssignments = None ->
  (forall w0 u,
      run (handleApprovedForUser env' req' user' u) w0
      = (Responded (Response_json (JArr (List.map listed_row (listVisibleFor w0 u)))), w0))
  /\ (forall w0 u d,
         In d (listVisibleFor w0 u) <->
         In d (documents w0) /\ d_status d = approved
         /\ exists a, In a (document_assignments w0)
                      /\ a_doc_id a = d_id d /\ a_user_id a = u)
  /\ (forall u, In u [u1; u2] ->
         exists rows row,
           run (handleApprovedForUser env' req' user' u) w1
           = (Responded (Response_json (JArr rows)), w1)
           /\ In row rows /\ row_with_id id row
           /\ field `"status"` row = Some (JStr `"approved"`))
  /\ (forall u3, ~ In u3 [u1; u2] ->
         has_pair id u3 (document_assignments w) = false ->
         exists rows,
           run (handleApprovedForUser env' req' user' u3) w1
           = (Responded (Response_json (JArr rows)), w1)
           /\ forall row, In row rows -> ~ row_with_id id row).
Proof.
  intros Ha Hp Hrun Hf1 Hf2.
  destruct (handleApprove_ok _ _ _ _ _ _ _ _ Ha Hp Hrun) as [Hds Hadd].
  split; [|split; [|split]].
  - intros w0 u. apply handleApprovedForUser_lists; assumption.
  - intros w0 u d. apply listVisibleFor_In.
  - intros u Hu.
    assert (Hpair : has_pair id u (document_assignments w1) = true).
    { apply pair_count_positive.
      destruct (new_assignments_In env id [u1; u2] u Hu) as [r [Hr [Hd Hus]]].
      rewrite <- Hd, <- Hus. exact (add_assignments_once _ _ _ _ Hadd r Hr). }
    assert (Hdoc : has_document id (documents w1) = true).
    { rewrite Hds.
      destruct (new_assignments_In env id [u1; u2] u Hu) as [r [Hr [Hd _]]].
      pose proof (add_assignments_fk _ _ _ _ Hadd r Hr) as K.
      rewrite Hd in K. exact K. }
    apply has_document_In in Hdoc as [d [Hin Hid]].
    assert (Hst : d_status d = approved).
    { rewrite Hds in Hin. exact (approved_rows _ _ _ Hin Hid). }
    exists (List.map listed_row (listVisibleFor w1 u)), (listed_row d).
    split; [apply handleApprovedForUser_lists; assumption|].
    split; [|split].
    + apply in_map. apply listVisibleFor_In.
      split; [exact Hin|]. split; [exact Hst|].
      apply has_pair_In. rewrite Hid. exact Hpair.
    + apply listed_row_id. exact Hid.
    + rewrite listed_row_status, Hst. reflexivity.
  - intros u3 Hnot Hold.
    exists (List.map listed_row (listVisibleFor w1 u3)).
    split; [apply handleApprovedForUser_lists; assumption|].
    intros row Hrow Hid.
    apply in_map_iff in Hrow as [d [<- Hin]].
    apply listed_row_id in Hid.
    apply listVisibleFor_In in Hin as [_ [_ Ha3]].
    apply has_pair_In in Ha3. rewrite Hid in Ha3.
    rewrite (add_assignments_app _ _ _ _ Hadd), has_pair_app, Hold in Ha3.
    rewrite has_pair_new_assignments in Ha3 by assumption.
    discriminate.
Qed.

End RoundTrip.

(** ** Mock identities *)

Section MockIdentity.

Variable env : Env.

(** C8. When the bearer token is absent or is rejected and the request
    carries the x-mock-role and x-mock-user-id headers, both with a
    non-empty value, the resolver makes up the identity with exactly that
    role and user id; a caller claiming role admin is an admin for
    [isAdmin], and none of upload, pending and approve answers it with
    Forbidden. *)
Theorem mock_headers_identity (req : Request) (role uid : jstring) :
  token_unresolved env req ->
  x_mock_role (headers req) = Some role ->
  x_mock_user_id (headers req) = Some uid ->
  role <> [] ->
  uid <> [] ->
  getAuthUser env req = Some (mkAuthUser uid (Some role))
  /\ (role = `"admin"` ->
      isAdmin (getAuthUser env req) = true
      /\ forall id w,
          fst (run (handleUpload env req (getAuthUser env req)) w) <> Responded Forbidden
          /\ fst (run (handlePending env req (getAuthUser env req)) w) <> Responded Forbidden
          /\ fst (run (handleApprove env req (getAuthUser env req) id) w)
             <> Responded Forbidden).
Proof.
  intros Htok Hrole Huid Hr Hu.
  assert (Hget : getAuthUser env req = Some (mkAuthUser uid (Some role))).
  { unfold getAuthUser. unfold token_unresolved in Htok.
    rewrite Hrole, Huid.
    apply JSFacts.truthy_nonempty in Hr, Hu. rewrite Hr, Hu.
    destruct (Authorization (headers req)) as [h|]; [|reflexivity].
    destruct Htok as [-> | ->]; [reflexivity|].
    destruct (truthy h); reflexivity. }
  split; [exact Hget|].
  intros ->. rewrite Hget.
  assert (Ha : isAdmin (Some (mkAuthUser uid (Some `"admin"`))) = true)
    by reflexivity.
  split; [exact Ha|].
  intros id w. split; [|split].
  - destruct (run (handleUpload env req _) w) as [[r|] w'] eqn:E; [|discriminate].
    intros H. injection H as ->.
    destruct (handleUpload_admin_status _ _ _ _ _ _ Ha E) as [K | [K | K]];
      discriminate K.
  - destruct (run (handlePending env req _) w) as [[r|] w'] eqn:E; [|discriminate].
    intros H. injection H as ->.
    destruct (handlePending_admin_status _ _ _ _ _ _ Ha E) as [K | K];
      discriminate K.
  - destruct (run (handleApprove env req _ id) w) as [[r|] w'] eqn:E; [|discriminate].
    intros H. injection H as ->.
    destruct (handleApprove_admin_status _ _ _ _ _ _ _ Ha E) as [K | K];
      discriminate K.
Qed.

End MockIdentity.

(* ================================================================== *)
(** * Runs in the office *)

(** An employee's token on GET /pending. *)
Lemma non_admin_forbidden_witness :
  admin_only_request (Office.pending_request (Office.bearer "tok-u1")) = true
  /\ isAdmin (getAuthUser Office.calm (Office.pending_request (Office.bearer "tok-u1")))
     = false
  /\ exists w',
      run (serve Office.calm (Office.pending_request (Office.bearer "tok-u1")))
          Office.one_pending
      = (Responded Forbidden, w')
      /\ status Forbidden = 403
      /\ bucket w' = bucket Office.one_pending
      /\ users w' = users Office.one_pending
      /\ documents w' = documents Office.one_pending
      /\ document_assignments w' = document_assignments Office.one_pending
      /\ generate_requests w' = generate_requests Office.one_pending.
Proof.
  split; [vm_compute; reflexivity|].
  split; [vm_compute; reflexivity|].
  apply (non_admin_forbidden Office.calm
           (Office.pending_request (Office.bearer "tok-u1")) Office.one_pending);
    vm_compute; reflexivity.
Defined.

(** The admin uploads report.pdf titled Q1 Report. *)
Lemma upload_success_pending_row_witness :
  exists id title file_url,
    upload_confirmation `"row-0"` `"Q1 Report"`
      `"https://kmrl.supabase.co/storage/v1/object/public/documents/r1-report.pdf"`
    = upload_confirmation id title file_url
    /\ exists row,
        In row (documents
                  (snd (run (handleUpload Office.calm
                               (Office.upload_request (Office.bearer "tok-admin"))
                               (Some Office.a1))
                            Office.empty_office)))
        /\ d_id row = id /\ d_title row = title
        /\ d_file_url row = file_url /\ d_status row = pending.
Proof.
  apply (upload_success_pending_row Office.calm
           (Office.upload_request (Office.bearer "tok-admin")) (Some Office.a1)
           Office.empty_office);
    vm_compute; reflexivity.
Defined.

(** The admin uploads a file pdf.js cannot open. *)
Lemma empty_extraction_uses_fallback_witness :
  parsePdfToText Office.unreadable (file_bytes Office.report) = []
  /\ exists w',
      run (handleUpload Office.unreadable
             (Office.upload_request (Office.bearer "tok-admin")) (Some Office.a1))
          Office.empty_office
      = (Responded
           (upload_confirmation `"row-0"` `"Q1 Report"`
              (getPublicUrl Office.unreadable (storagePath Office.unreadable Office.report))),
         w')
      /\ includes (getPublicUrl Office.unreadable (storagePath Office.unreadable Office.report))
                  (fallback_description
                     (getPublicUrl Office.unreadable
                                   (storagePath Office.unreadable Office.report)))
         = true
      /\ (forall key, GEMINI_API_KEY Office.unreadable = Some key -> truthy key = true ->
            generate_requests w'
            = generate_requests Office.empty_office
              ++ [PROMPT ++ slice0 120000
                    (fallback_description
                       (getPublicUrl Office.unreadable
                                     (storagePath Office.unreadable Office.report)))])
      /\ (fault Office.unreadable UpdateSummary = None ->
            exists row, In row (documents w')
                        /\ d_id row = `"row-0"` /\ d_summary row = Some `"A summary."`).
Proof.
  split; [vm_compute; reflexivity|].
  apply (empty_extraction_uses_fallback Office.unreadable
           (Office.upload_request (Office.bearer "tok-admin")) Office.a1
           (mkForm (Some Office.report) (Some `"Q1 Report"`)) Office.report
           Office.empty_office
           (snd (storage_upload Office.unreadable
                   (storagePath Office.unreadable Office.report)
                   (file_bytes Office.report) `"application/pdf"` Office.empty_office))
           (snd (insert_document Office.unreadable `"Q1 Report"`
                   (getPublicUrl Office.unreadable
                                 (storagePath Office.unreadable Office.report))
                   `"a1"`
                   (snd (storage_upload Office.unreadable
                           (storagePath Office.unreadable Office.report)
                           (file_bytes Office.report) `"application/pdf"`
                           Office.empty_office))))
           (mkDocument `"row-0"` `"Q1 Report"`
              (getPublicUrl Office.unreadable (storagePath Office.unreadable Office.report))
              None None pending 7%N (Some `"a1"`))
           `"A summary."`);
    vm_compute; reflexivity.
Defined.

(** The admin approves with no body at all. *)
Lemma approve_without_user_list_witness :
  no_user_list (Office.approve_request (Office.bearer "tok-admin") NoPayload)
  /\ fst (run (handleApprove Office.calm
                 (Office.approve_request (Office.bearer "tok-admin") NoPayload)
                 (Some Office.a1) `"d1"`)
              Office.one_pending)
     = Responded ok_true
  /\ documents (snd (run (handleApprove Office.calm
                            (Office.approve_request (Office.bearer "tok-admin") NoPayload)
                            (Some Office.a1) `"d1"`)
                         Office.one_pending))
     = [set_status approved Office.d1].
Proof.
  split; [exact I|].
  destruct (approve_without_user_list Office.calm
              (Office.approve_request (Office.bearer "tok-admin") NoPayload)
              (Some Office.a1) `"d1"` Office.one_pending eq_refl I)
    as [_ [_ [_ H]]].
  destruct (H eq_refl) as [H1 [H2 _]].
  split; [exact H1|]. rewrite H2. vm_compute. reflexivity.
Defined.

(** The admin approves d1 for u1 twice. *)
Lemma approve_twice_conflict_witness :
  exists r2 w2,
    run (handleApprove Office.later
           (Office.approve_request (Office.bearer "tok-admin") (Office.with_users ["u1"%string]))
           (Some Office.a1) `"d1"`)
        Office.approved_for_u1
    = (Responded r2, w2)
    /\ status r2 = 500
    /\ document_assignments w2 = document_assignments Office.approved_for_u1
    /\ (forall u, In u [`"u1"`] -> pair_count `"d1"` u (document_assignments w2) = 1)
    /\ (unique_pairs (document_assignments Office.one_pending) ->
        unique_pairs (document_assignments w2))
    /\ (fault Office.later UpdateStatus = None ->
        fault Office.later InsertAssignments = None ->
        has_assignment_id (gen_random_uuid Office.later 0)
                          (document_assignments Office.approved_for_u1) = false ->
        r2 = server_error (duplicate_key "document_assignments_doc_id_user_id_key")).
Proof.
  apply (approve_twice_conflict Office.calm Office.later
           (Office.approve_request (Office.bearer "tok-admin") (Office.with_users ["u1"%string]))
           (Some Office.a1) `"d1"` `"u1"` [] Office.one_pending Office.approved_for_u1);
    vm_compute; reflexivity.
Defined.

(** C2, as stated: the second approval with the same list is not answered
    with success but with the conflict of the unique constraint. *)
Lemma second_approval_refused :
  fst (run (serve Office.calm
              (Office.approve_request (Office.bearer "tok-admin")
                                      (Office.with_users ["u1"%string])))
           Office.one_pending)
  = Responded ok_true
  /\ fst (run (serve Office.later
                 (Office.approve_request (Office.bearer "tok-admin")
                                         (Office.with_users ["u1"%string])))
              (snd (run (serve Office.calm
                           (Office.approve_request (Office.bearer "tok-admin")
                                                   (Office.with_users ["u1"%string])))
                        Office.one_pending)))
     = Responded (server_error (duplicate_key "document_assignments_doc_id_user_id_key"))
  /\ status (server_error (duplicate_key "document_assignments_doc_id_user_id_key")) = 500.
Proof. vm_compute. repeat split; reflexivity. Qed.

(** The admin approves d1 for u1 and u2; the list for u1 is then asked for. *)
Lemma approved_round_trip_witness :
  exists rows row,
    run (handleApprovedForUser Office.later
           (Office.approved_request (Office.bearer "tok-admin") "u1")
           (Some Office.a1) `"u1"`)
        (snd (run (handleApprove Office.calm
                     (Office.approve_request (Office.bearer "tok-admin")
                        (Office.with_users ["u1"%string; "u2"%string]))
                     (Some Office.a1) `"d1"`)
                  Office.one_pending))
    = (Responded (Response_json (JArr rows)),
       snd (run (handleApprove Office.calm
                   (Office.approve_request (Office.bearer "tok-admin")
                      (Office.with_users ["u1"%string; "u2"%string]))
                   (Some Office.a1) `"d1"`)
                Office.one_pending))
    /\ In row rows /\ row_with_id `"d1"` row
    /\ field `"status"` row = Some (JStr `"approved"`).
Proof.
  refine (proj1 (proj2 (proj2
    (approved_round_trip Office.calm Office.later
       (Office.approve_request (Office.bearer "tok-admin")
                               (Office.with_users ["u1"%string; "u2"%string]))
       (Office.approved_request (Office.bearer "tok-admin") "u1")
       (Some Office.a1) (Some Office.a1) `"d1"` `"u1"` `"u2"`
       Office.one_pending _ _ _ _ _ _))) `"u1"` (or_introl eq_refl));
    vm_compute; reflexivity.
Defined.

(** C3, as stated: u3 is not in the list [u1, u2] of this approval, yet
    the document is listed for u3, who was assigned to it before. *)
Lemma earlier_assignee_still_listed :
  fst (run (serve Office.calm
              (Office.approve_request (Office.bearer "tok-admin")
                                      (Office.with_users ["u1"%string; "u2"%string])))
           Office.earlier_assignment)
  = Responded ok_true
  /\ ~ In `"u3"` [`"u1"`; `"u2"`]
  /\ fst (run (serve Office.later (Office.approved_request (Office.bearer "tok-admin") "u3"))
              (snd (run (serve Office.calm
                           (Office.approve_request (Office.bearer "tok-admin")
                              (Office.with_users ["u1"%string; "u2"%string])))
                        Office.earlier_assignment)))
     = Responded (Response_json (JArr [listed_row (set_status approved Office.d1)])).
Proof.
  split; [vm_compute; reflexivity|]. split.
  - vm_compute. intros [H | [H | []]]; discriminate H.
  - vm_compute. reflexivity.
Qed.

(** A request with no credentials at all on GET /approved/u1. *)
(** The mock headers of an admin on GET /pending. *)
Lemma mock_headers_identity_witness :
  getAuthUser Office.calm (Office.pending_request (Office.mock "admin" "mock-user"))
  = Some (mkAuthUser `"mock-user"` (Some `"admin"`))
  /\ isAdmin (getAuthUser Office.calm
                (Office.pending_request (Office.mock "admin" "mock-user"))) = true.
Proof.
  destruct (mock_headers_identity Office.calm
              (Office.pending_request (Office.mock "admin" "mock-user"))
              `"admin"` `"mock-user"` I eq_refl eq_refl
              ltac:(discriminate) ltac:(discriminate)) as [H1 H2].
  split; [exact H1 | exact (proj1 (H2 eq_refl))].
Defined.

(** C8, as stated: both headers are there, the user id empty; the
    resolver gives no identity and the admin gate refuses the caller. *)
Lemma empty_mock_user_id_is_anonymous :
  token_unresolved Office.calm (Office.pending_request (Office.mock "admin" EmptyString))
  /\ x_mock_role (headers (Office.pending_request (Office.mock "admin" EmptyString)))
     = Some `"admin"`
  /\ x_mock_user_id (headers (Office.pending_request (Office.mock "admin" EmptyString)))
     = Some []
  /\ getAuthUser Office.calm (Office.pending_request (Office.mock "admin" EmptyString)) = None
  /\ fst (run (serve Office.calm (Office.pending_request (Office.mock "admin" EmptyString)))
              Office.one_pending)
     = Responded Forbidden.
Proof. vm_compute. repeat split; reflexivity. Qed.

(* ================================================================== *)
(** * The whole function, and its callers *)

(** ** What a request can do to the tables *)

Section Frames.

Variable env : Env.

Lemma update_absent (id : jstring) (f : Document -> Document) (ds : list Document) :
  has_document id ds = false -> update_where_id id f ds = ds.
Proof.
  unfold has_document, update_where_id.
  induction ds as [|d ds IH]; simpl; [reflexivity|].
  intros H. apply orb_false_iff in H as [Hd Hds].
  rewrite Hd, IH by assumption. reflexivity.
Qed.

Lemma update_appended (id : jstring) (f : Document -> Document)
      (ds : list Document) (doc : Document) :
  d_id doc = id ->
  has_document id ds = false ->
  update_where_id id f (ds ++ [doc]) = ds ++ [f doc].
Proof.
  intros Hid H. unfold update_where_id. rewrite map_app. simpl.
  rewrite Hid, JSFacts.eqb_refl. f_equal.
  apply (update_absent id f ds H).
Qed.

(** The shared state after [handleUpload], whatever it answers. *)
Lemma handleUpload_world (req : Request) (user : option AuthUser) (w : World) :
  let w' := snd (run (handleUpload env req user) w) in
  users w' = users w
  /\ document_assignments w' = document_assignments w
  /\ (bucket w' = bucket w
      \/ exists o, bucket w' = bucket w ++ [o]
                   /\ existsb (fun x => JS.eqb (o_path x) (o_path o)) (bucket w) = false)
  /\ (documents w' = documents w
      \/ exists row uid,
           documents w' = documents w ++ [row]
           /\ d_id row = gen_random_uuid env 0
           /\ d_status row = pending
           /\ d_created_by row = Some uid
           /\ has_document (d_id row) (documents w) = false
           /\ has_user uid (users w) = true).
Proof.
  cbv zeta. unfold handleUpload. open_handler.
  repeat (innermost_case; cbv beta iota zeta).
  all: cbn [snd users document_assignments bucket documents d_id
            set_bucket set_documents log_generate_request] in *.
  all: repeat rewrite update_appended by (reflexivity || assumption).
  all: split; [reflexivity|]; split; [reflexivity|]; split.
  all: try (left; reflexivity).
  all: try (right; eexists; split; [reflexivity | assumption]).
  all: right; eexists _, _; split; [reflexivity|].
  all: cbn [d_id d_status d_created_by set_parsed_text set_summary].
  all: repeat split; try reflexivity; try assumption.
  all: apply negb_false_iff; assumption.
Qed.

(** The shared state after [handleApprove], whatever it answers. *)
Lemma handleApprove_world (req : Request) (user : option AuthUser) (id : jstring)
      (w : World) :
  let w' := snd (run (handleApprove env req user id) w) in
  users w' = users w
  /\ bucket w' = bucket w
  /\ generate_requests w' = generate_requests w
  /\ (documents w' = documents w
      \/ documents w' = update_where_id id (set_status approved) (documents w))
  /\ (document_assignments w' = document_assignments w
      \/ exists l,
           userIds (json_or_empty req) = Some l
           /\ add_assignments (documents w') (document_assignments w)
                              (new_assignments env (List.map (fun uid => (id, uid)) l))
              = Data (document_assignments w')).
Proof.
  cbv zeta. destruct (isAdmin user) eqn:Ha.
  - rewrite handleApprove_admin by assumption.
    destruct (json_or_empty req) as [[[|u l]|]| |[|c s]|] eqn:Hb;
      try (cbn; auto 6; fail);
      destruct (fault env UpdateStatus); try (cbn; auto 6; fail).
    destruct (fault env InsertAssignments); [cbn; auto 6|].
    cbv zeta. destruct (add_assignments _ _ _) as [asg|m] eqn:E; [|cbn; auto 6].
    cbn [snd users bucket generate_requests documents document_assignments
         set_documents set_document_assignments] in *.
    repeat split; auto. right. exists (u :: l). auto.
  - unfold run. rewrite handleApprove_gate by assumption. cbn. auto 6.
Qed.

Lemma handlePending_world (req : Request) (user : option AuthUser) (w : World) :
  snd (run (handlePending env req user) w) = w.
Proof.
  unfold handlePending. open_handler.
  repeat (innermost_case; cbv beta iota zeta); reflexivity.
Qed.

Lemma handleApprovedForUser_world (req : Request) (user : option AuthUser)
      (userId : jstring) (w : World) :
  snd (run (handleApprovedForUser env req user userId) w) = w.
Proof.
  unfold handleApprovedForUser. open_handler.
  repeat (innermost_case; cbv beta iota zeta); reflexivity.
Qed.

(** [serve] hands the request, with the resolved user, to one handler or
    answers 404. *)
Lemma serve_cases (req : Request) (w : World) :
  let w0 := set_rest_authorization (nullish (Authorization (headers req)) []) w in
  let user := getAuthUser env req in
  (method req = `"POST"`
   /\ run (serve env req) w = run (handleUpload env req user) w0)
  \/ (method req = `"GET"`
      /\ run (serve env req) w = run (handlePending env req user) w0)
  \/ (exists id, method req = `"POST"`
                 /\ match_approve (route_pathname (url_pathname req)) = Some id
                 /\ run (serve env req) w = run (handleApprove env req user id) w0)
  \/ (exists userId, method req = `"GET"`
                     /\ match_approved (route_pathname (url_pathname req)) = Some userId
                     /\ run (serve env req) w
                        = run (handleApprovedForUser env req user userId) w0)
  \/ run (serve env req) w = (Responded (new_Response (Text `"Not Found"`) 404), w0).
Proof.
  cbv zeta. unfold serve, run at 1, bind, modify.
  destruct (JS.eqb (method req) `"POST"`) eqn:Hpost; cbn [andb].
  - apply JSFacts.eqb_eq in Hpost.
    destruct (JS.eqb (route_pathname (url_pathname req)) `"/upload"`).
    + left. split; [assumption | reflexivity].
    + rewrite Hpost. change (JS.eqb `"POST"` `"GET"`) with false. cbn [andb].
      destruct (match_approve (route_pathname (url_pathname req))) as [id|] eqn:E.
      * right. right. left. exists id. repeat split; reflexivity.
      * right. right. right. right. reflexivity.
  - destruct (JS.eqb (method req) `"GET"`) eqn:Hget; cbn [andb].
    + apply JSFacts.eqb_eq in Hget.
      destruct (JS.eqb (route_pathname (url_pathname req)) `"/pending"`).
      * right. left. split; [assumption | reflexivity].
      * destruct (match_approved (route_pathname (url_pathname req))) as [u|] eqn:E.
        -- right. right. right. left. exists u. repeat split; try assumption; reflexivity.
        -- right. right. right. right. reflexivity.
    + right. right. right. right. reflexivity.
Qed.

(** The tables after any request. *)
Lemma serve_world (req : Request) (w : World) :
  let w' := snd (run (serve env req) w) in
  users w' = users w
  /\ (bucket w' = bucket w
      \/ exists o, bucket w' = bucket w ++ [o]
                   /\ existsb (fun x => JS.eqb (o_path x) (o_path o)) (bucket w) = false)
  /\ (documents w' = documents w
      \/ (exists row uid,
            documents w' = documents w ++ [row]
            /\ d_id row = gen_random_uuid env 0
            /\ d_status row = pending
            /\ d_created_by row = Some uid
            /\ has_document (d_id row) (documents w) = false
            /\ has_user uid (users w) = true)
      \/ exists id, documents w' = update_where_id id (set_status approved) (documents w))
  /\ (document_assignments w' = document_assignments w
      \/ exists id l,
           add_assignments (documents w') (document_assignments w)
                           (new_assignments env (List.map (fun uid => (id, uid)) l))
           = Data (document_assignments w')).
Proof.
  cbv zeta.
  destruct (serve_cases req w)
    as [[_ ->] | [[_ ->] | [[id [_ [_ ->]]] | [[u [_ [_ ->]]] | ->]]]].
  - destruct (handleUpload_world req (getAuthUser env req)
                (set_rest_authorization (nullish (Authorization (headers req)) []) w))
      as [Hu [Ha [Hb Hd]]].
    cbn [users bucket documents document_assignments set_rest_authorization] in *.
    repeat split; auto. destruct Hd as [Hd | Hd]; auto.
  - rewrite handlePending_world. cbn. auto 6.
  - destruct (handleApprove_world req (getAuthUser env req) id
                (set_rest_authorization (nullish (Authorization (headers req)) []) w))
      as [Hu [Hb [_ [Hd Ha]]]].
    cbn [users bucket documents document_assignments set_rest_authorization] in *.
    repeat split; auto.
    + destruct Hd as [Hd | Hd]; [auto | right; right; exists id; exact Hd].
    + destruct Ha as [Ha | [l [_ Ha]]]; [auto | right; exists id, l; exact Ha].
  - rewrite handleApprovedForUser_world. cbn. auto 6.
  - cbn. auto 6.
Qed.

Lemma kept_all (ds : list Document) : Forall2 kept ds ds.
Proof. induction ds; constructor; [left; reflexivity | assumption]. Qed.

Lemma kept_approved (id : jstring) (ds : list Document) :
  Forall2 kept ds (update_where_id id (set_status approved) ds).
Proof.
  unfold update_where_id. induction ds as [|d ds IH]; simpl; constructor; auto.
  destruct (JS.eqb (d_id d) id); [right | left]; reflexivity.
Qed.

(** X1. A request, whatever it is and whatever it is answered, leaves
    the users alone, only adds objects to the bucket, only adds
    assignment rows, and in [documents] only adds pending rows and
    approves rows that were there: nothing is deleted, no other field of
    an existing row changes, and no status other than approved is given
    to an existing row. *)
Theorem serve_evolves (req : Request) (w : World) :
  evolves w (snd (run (serve env req) w)).
Proof.
  destruct (serve_world req w) as [Hu [Hb [Hd Ha]]]. cbv zeta in *.
  unfold evolves. split; [exact Hu|]. split; [|split].
  - destruct Hb as [-> | [o [-> _]]].
    + exists []. symmetry. apply app_nil_r.
    + exists [o]. reflexivity.
  - destruct Hd as [Hd | [[row [uid [Hd [_ [Hst _]]]]] | [id Hd]]]; rewrite Hd.
    + exists (documents w), []. rewrite app_nil_r.
      split; [reflexivity|]. split; [apply kept_all | constructor].
    + exists (documents w), [row].
      split; [reflexivity|]. split; [apply kept_all|].
      constructor; [exact Hst | constructor].
    + exists (update_where_id id (set_status approved) (documents w)), [].
      rewrite app_nil_r.
      split; [reflexivity|]. split; [apply kept_approved | constructor].
  - destruct Ha as [-> | [id [l Ha]]].
    + exists []. symmetry. apply app_nil_r.
    + exists (new_assignments env (List.map (fun uid => (id, uid)) l)).
      apply (add_assignments_app _ _ _ _ Ha).
Qed.

Lemma set_status_same (d : Document) :
  d_status d = approved -> set_status approved d = d.
Proof. destruct d. simpl. intros ->. reflexivity. Qed.

(** X2. A document that is approved is never touched again: after any
    request the very same row is still in the table. *)
Theorem approved_row_is_final (req : Request) (w : World) (d : Document) :
  In d (documents w) ->
  d_status d = approved ->
  In d (documents (snd (run (serve env req) w))).
Proof.
  intros Hin Hst.
  destruct (serve_world req w) as [_ [_ [Hd _]]]. cbv zeta in Hd.
  destruct Hd as [Hd | [[row [uid [Hd _]]] | [id Hd]]]; rewrite Hd.
  - exact Hin.
  - apply in_or_app. left. exact Hin.
  - apply update_where_id_In. exists d. split; [exact Hin|].
    destruct (JS.eqb (d_id d) id); [|reflexivity].
    symmetry. apply set_status_same. exact Hst.
Qed.

Lemma has_document_ids (id : jstring) (ds : list Document) :
  has_document id ds = false <-> ~ In id (List.map d_id ds).
Proof.
  split.
  - intros H Hin. apply in_map_iff in Hin as [d [Hid Hd]].
    assert (K : has_document id ds = true)
      by (apply has_document_In; exists d; auto).
    congruence.
  - intros H. destruct (has_document id ds) eqn:E; [|reflexivity].
    apply has_document_In in E as [d [Hd Hid]].
    exfalso. apply H. apply in_map_iff. exists d. auto.
Qed.

Lemma NoDup_snoc {A : Type} (l : list A) (x : A) :
  NoDup l -> ~ In x l -> NoDup (l ++ [x]).
Proof.
  intros Hl Hx. induction Hl as [|y l Hy Hl IH]; simpl.
  - constructor; [intros [] | constructor].
  - constructor.
    + intros Hin. apply in_app_or in Hin as [Hin | [-> | []]].
      * contradiction.
      * apply Hx. left. reflexivity.
    + apply IH. intros Hin. apply Hx. right. exact Hin.
Qed.

Lemma has_assignment_id_ids (id : jstring) (asg : list Assignment) :
  has_assignment_id id asg = false -> ~ In id (List.map a_id asg).
Proof.
  unfold has_assignment_id. intros H Hin.
  apply in_map_iff in Hin as [a [Hid Ha]].
  assert (K : existsb (fun a => JS.eqb (a_id a) id) asg = true).
  { apply existsb_exists. exists a. split; [assumption|].
    apply JSFacts.eqb_eq. assumption. }
  congruence.
Qed.

(** The primary key of the assignment rows survives every statement. *)
Lemma add_assignments_ids (ds : list Document) (rows asg asg' : list Assignment) :
  add_assignments ds asg rows = Data asg' ->
  NoDup (List.map a_id asg) -> NoDup (List.map a_id asg').
Proof.
  revert asg. induction rows as [|r rows IH]; intros asg; simpl.
  - intros H. injection H as <-. auto.
  - destruct (has_assignment_id (a_id r) asg) eqn:Hpk; [discriminate|].
    destruct (negb (has_document (a_doc_id r) ds)); [discriminate|].
    destruct (has_pair (a_doc_id r) (a_user_id r) asg); [discriminate|].
    intros H Hn. apply (IH _ H). rewrite map_app. simpl.
    apply NoDup_snoc; [assumption | apply has_assignment_id_ids; assumption].
Qed.

Lemma path_absent (path : jstring) (objects : list StoredObject) :
  existsb (fun x => JS.eqb (o_path x) path) objects = false ->
  ~ In path (List.map o_path objects).
Proof.
  intros H Hin. apply in_map_iff in Hin as [o [Hp Ho]].
  assert (K : existsb (fun x => JS.eqb (o_path x) path) objects = true).
  { apply existsb_exists. exists o. split; [assumption|].
    apply JSFacts.eqb_eq. assumption. }
  congruence.
Qed.

(** X3. The keys the migration declares stay keys under every request:
    document ids, assignment ids, (document, user) pairs and storage
    paths that were without duplicates are without duplicates
    afterwards. *)
Theorem serve_keeps_keys (req : Request) (w : World) :
  unique_document_ids w ->
  unique_assignment_ids w ->
  unique_pairs (document_assignments w) ->
  unique_storage_paths w ->
  unique_document_ids (snd (run (serve env req) w))
  /\ unique_assignment_ids (snd (run (serve env req) w))
  /\ unique_pairs (document_assignments (snd (run (serve env req) w)))
  /\ unique_storage_paths (snd (run (serve env req) w)).
Proof.
  intros Hdoc Hasg Hpair Hpath.
  destruct (serve_world req w) as [_ [Hb [Hd Ha]]]. cbv zeta in *.
  unfold unique_document_ids, unique_assignment_ids, unique_storage_paths in *.
  split; [|split; [|split]].
  - destruct Hd as [-> | [[row [uid [-> [_ [_ [_ [Hfresh _]]]]]]] | [id ->]]].
    + exact Hdoc.
    + rewrite map_app. simpl.
      apply NoDup_snoc; [exact Hdoc | apply has_document_ids; exact Hfresh].
    + unfold update_where_id. rewrite map_map.
      erewrite map_ext; [exact Hdoc|].
      intros d. destruct (JS.eqb (d_id d) id); reflexivity.
  - destruct Ha as [-> | [id [l Ha]]]; [exact Hasg|].
    exact (add_assignments_ids _ _ _ _ Ha Hasg).
  - destruct Ha as [-> | [id [l Ha]]]; [exact Hpair|].
    exact (add_assignments_unique _ _ _ _ Ha Hpair).
  - destruct Hb as [-> | [o [-> Hfresh]]]; [exact Hpath|].
    rewrite map_app. simpl.
    apply NoDup_snoc; [exact Hpath | apply path_absent; exact Hfresh].
Qed.

Lemma has_document_app (id : jstring) (a b : list Document) :
  has_document id (a ++ b) = has_document id a || has_document id b.
Proof. unfold has_document. apply existsb_app. Qed.

(** X4. The references the migration declares stay valid under every
    request: every assignment row still points to a document of the
    table, and every document's creator is still a row of [users]. *)
Theorem serve_keeps_references (req : Request) (w : World) :
  assignments_refer w ->
  creators_exist w ->
  assignments_refer (snd (run (serve env req) w))
  /\ creators_exist (snd (run (serve env req) w)).
Proof.
  intros Href Hcre.
  destruct (serve_world req w) as [Hu [_ [Hd Ha]]]. cbv zeta in *.
  assert (Hmono : forall id, has_document id (documents w) = true ->
                             has_document id (documents (snd (run (serve env req) w)))
                             = true).
  { intros id H.
    destruct Hd as [-> | [[row [uid [-> _]]] | [id' ->]]].
    - exact H.
    - rewrite has_document_app, H. reflexivity.
    - rewrite has_document_update by reflexivity. exact H. }
  split.
  - intros a Hin.
    destruct Ha as [Ha | [id [l Ha]]].
    + rewrite Ha in Hin. apply Hmono, Href, Hin.
    + rewrite (add_assignments_app _ _ _ _ Ha) in Hin.
      apply in_app_or in Hin as [Hin | Hin].
      * apply Hmono, Href, Hin.
      * exact (add_assignments_fk _ _ _ _ Ha a Hin).
  - intros d u Hin Hby. rewrite Hu.
    destruct Hd as [Hd | [[row [uid [Hd [_ [_ [Hrow [_ Huser]]]]]]] | [id Hd]]];
      rewrite Hd in Hin.
    + exact (Hcre d u Hin Hby).
    + apply in_app_or in Hin as [Hin | [<- | []]].
      * exact (Hcre d u Hin Hby).
      * rewrite Hrow in Hby. injection Hby as <-. exact Huser.
    + apply update_where_id_In in Hin as [d0 [Hin0 ->]].
      apply (Hcre d0 u Hin0).
      destruct (JS.eqb (d_id d0) id); exact Hby.
Qed.

Lemma GET_is_not_POST : `"GET"` <> `"POST"`.
Proof. intros H. vm_compute in H. discriminate H. Qed.

(** X5. A GET request, whatever its path and credentials, changes
    neither the bucket nor a table, and sends nothing upstream. *)
Theorem get_is_read_only (req : Request) (w : World) :
  method req = `"GET"` ->
  bucket (snd (run (serve env req) w)) = bucket w
  /\ users (snd (run (serve env req) w)) = users w
  /\ documents (snd (run (serve env req) w)) = documents w
  /\ document_assignments (snd (run (serve env req) w)) = document_assignments w
  /\ generate_requests (snd (run (serve env req) w)) = generate_requests w.
Proof.
  intros Hget.
  destruct (serve_cases req w)
    as [[Hp _] | [[_ ->] | [[id [Hp _]] | [[u [_ [_ ->]]] | ->]]]].
  - rewrite Hget in Hp. destruct (GET_is_not_POST Hp).
  - rewrite handlePending_world. repeat split; reflexivity.
  - rewrite Hget in Hp. destruct (GET_is_not_POST Hp).
  - rewrite handleApprovedForUser_world. repeat split; reflexivity.
  - repeat split; reflexivity.
Qed.

(** X6. A request whose method is neither GET nor POST is answered 404
    Not Found before any handler runs, whatever its path, body and
    credentials. *)
Theorem other_methods_not_found (req : Request) (w : World) :
  method req <> `"GET"` ->
  method req <> `"POST"` ->
  run (serve env req) w
  = (Responded (new_Response (Text `"Not Found"`) 404),
     set_rest_authorization (nullish (Authorization (headers req)) []) w).
Proof.
  intros Hget Hpost.
  destruct (serve_cases req w)
    as [[Hp _] | [[Hg _] | [[id [Hp _]] | [[u [Hg _]] | H]]]];
    try contradiction.
  exact H.
Qed.

End Frames.

(** ** Uploads that do not go through *)

Section UploadEdges.

Variable env : Env.

(** X7. An upload that does not end in success either is answered with
    an error, and then has created no document row and sent nothing
    upstream (and, unless the answer is a 500, has stored no file), or
    ends without a response, and then has either changed nothing or left
    everything behind: the stored file, the pending row and the request
    sent upstream. *)
Theorem upload_without_success (req : Request) (user : option AuthUser)
        (w w' : World) (o : Outcome) :
  run (handleUpload env req user) w = (o, w') ->
  (forall r, o = Responded r -> status r <> 200) ->
  (exists r,
      o = Responded r
      /\ documents w' = documents w
      /\ document_assignments w' = document_assignments w
      /\ generate_requests w' = generate_requests w
      /\ (status r <> 500 -> w' = w))
  \/ (o = Failed
      /\ (w' = w
          \/ exists object row prompt,
               bucket w' = bucket w ++ [object]
               /\ documents w' = documents w ++ [row]
               /\ d_status row = pending
               /\ document_assignments w' = document_assignments w
               /\ generate_requests w' = generate_requests w ++ [prompt])).
Proof.
  intros H Hst. unfold handleUpload in H. open_handler_in H.
  repeat (innermost_case_in H; cbv beta iota zeta in H).
  all: inversion H; subst; clear H.
  all: try (exfalso; apply (Hst _ eq_refl); reflexivity).
  all: try (left; eexists; split; [reflexivity|]; repeat split; try reflexivity;
            intros K; exfalso; apply K; reflexivity).
  all: right; split; [reflexivity|].
  all: try (left; reflexivity).
  all: try match goal with
           | K : negb (isAdmin None) = false |- _ => discriminate K
           end.
  all: right; eexists _, _, _.
  all: cbn [bucket documents users document_assignments generate_requests d_id
            set_documents log_generate_request set_bucket] in *.
  all: repeat rewrite update_appended by (reflexivity || assumption).
  all: repeat split; reflexivity.
Qed.


End UploadEdges.

(** ** Approvals at the edges *)

Section ApproveEdges.

Variable env : Env.

Lemma pair_count_not_in (doc user : jstring) (rows : list Assignment) :
  pair_count doc user rows = 0 -> ~ In (doc, user) (List.map pair_of rows).
Proof.
  unfold pair_count. intros H Hin.
  apply in_map_iff in Hin as [a [Hp Ha]].
  assert (K : In a (filter (same_pair doc user) rows)).
  { apply filter_In. split; [assumption|].
    unfold pair_of in Hp. injection Hp as H1 H2. unfold same_pair.
    rewrite H1, H2, !JSFacts.eqb_refl. reflexivity. }
  destruct (filter (same_pair doc user) rows); [destruct K | discriminate H].
Qed.

(** A statement that went through had no pair twice. *)
Lemma add_assignments_distinct (ds : list Document) (rows asg asg' : list Assignment) :
  add_assignments ds asg rows = Data asg' -> NoDup (List.map pair_of rows).
Proof.
  revert asg. induction rows as [|r rows IH]; intros asg H; simpl.
  - constructor.
  - simpl in H.
    destruct (has_assignment_id (a_id r) asg); [discriminate|].
    destruct (negb (has_document (a_doc_id r) ds)); [discriminate|].
    destruct (has_pair (a_doc_id r) (a_user_id r) asg); [discriminate|].
    constructor; [|exact (IH _ H)].
    apply pair_count_not_in.
    apply (add_assignments_not_again _ _ _ _ (a_doc_id r) (a_user_id r) H).
    rewrite has_pair_app. unfold has_pair at 2, same_pair. simpl.
    rewrite !JSFacts.eqb_refl. apply orb_true_r.
Qed.

Lemma new_assignments_pair_of (rows : list (jstring * jstring)) :
  List.map pair_of (new_assignments env rows) = rows.
Proof. apply new_assignments_pairs. Qed.

(** X9. An approval whose user list names a user twice never assigns
    anyone: the insert is refused as a whole and the answer is a 500,
    while the status update, when the datastore took it, stays: the
    document is approved and unassigned. *)
Theorem approve_repeated_user (req : Request) (user : option AuthUser)
        (id : jstring) (l : list jstring) (w : World) :
  isAdmin user = true ->
  userIds (json_or_empty req) = Some l ->
  ~ NoDup l ->
  exists r w',
    run (handleApprove env req user id) w = (Responded r, w')
    /\ status r = 500
    /\ document_assignments w' = document_assignments w
    /\ (fault env UpdateStatus = None ->
        documents w' = update_where_id id (set_status approved) (documents w)).
Proof.
  intros Ha Hl Hdup. apply userIds_Some in Hl.
  rewrite (handleApprove_typed env req user id w (Some l)) by assumption.
  destruct (fault env UpdateStatus) as [m|].
  { eexists _, _. repeat split. discriminate. }
  destruct l as [|u l]; [exfalso; apply Hdup; constructor|].
  destruct (fault env InsertAssignments) as [m|].
  { eexists _, _. repeat split. }
  cbv zeta. destruct (add_assignments _ _ _) as [asg|m] eqn:E.
  - exfalso. apply Hdup.
    apply add_assignments_distinct in E. rewrite new_assignments_pair_of in E.
    exact (NoDup_map_inv _ _ E).
  - eexists _, _. repeat split.
Qed.

Lemma add_assignments_unknown_document (id u : jstring) (l : list jstring)
      (w : World) :
  has_document id (documents w) = false ->
  exists m, add_assignments (documents w) (document_assignments w)
              (new_assignments env (List.map (fun uid => (id, uid)) (u :: l)))
            = Error m.
Proof.
  intros Hno.
  change (new_assignments env (List.map (fun uid => (id, uid)) (u :: l)))
    with (mkAssignment (gen_random_uuid env 0) id u (now env)
          :: List.map (fun ir => mkAssignment (gen_random_uuid env (fst ir))
                                   (fst (snd ir)) (snd (snd ir)) (now env))
                      (combine (seq 1 (List.length (List.map (fun uid => (id, uid)) l)))
                               (List.map (fun uid => (id, uid)) l))).
  simpl. destruct (has_assignment_id _ _); [eexists; reflexivity|].
  rewrite Hno. eexists; reflexivity.
Qed.

(** X10. Approving an id that no document has changes no table, whatever
    the body: with users in the list the answer is a 500; with no body,
    a body that is not JSON, JSON other than null without [userIds], or
    an empty list it is [{ok: true}], when the datastore takes the
    update, although nothing was approved; and with the body null the
    request fails. *)
Theorem approve_unknown_document (req : Request) (user : option AuthUser)
        (id : jstring) (w : World) :
  isAdmin user = true ->
  has_document id (documents w) = false ->
  documents (snd (run (handleApprove env req user id) w)) = documents w
  /\ document_assignments (snd (run (handleApprove env req user id) w))
     = document_assignments w
  /\ (forall u l, userIds (json_or_empty req) = Some (u :: l) ->
        exists r, fst (run (handleApprove env req user id) w) = Responded r
                  /\ status r = 500)
  /\ (json_or_empty req = mkApproveBody None
      \/ json_or_empty req = mkApproveBody (Some []) ->
      fault env UpdateStatus = None ->
      fst (run (handleApprove env req user id) w) = Responded ok_true)
  /\ (json_or_empty req = null_body ->
      fst (run (handleApprove env req user id) w) = Failed).
Proof.
  intros Ha Hno. rewrite handleApprove_admin by assumption.
  rewrite (update_absent id (set_status approved) (documents w) Hno).
  destruct (json_or_empty req) as [[[|u l]|]| |[|c s]|] eqn:Hb;
    cbn [userIds].
  - destruct (fault env UpdateStatus) as [m|]; cbn [fst snd];
      repeat split; try discriminate; try reflexivity.
    all: intros u l H; discriminate H.
  - destruct (fault env UpdateStatus) as [m|].
    { cbn [fst snd]. repeat split; try discriminate.
      intros u0 l0 _. eexists. split; reflexivity. }
    destruct (fault env InsertAssignments) as [m|].
    { cbn [fst snd]. repeat split; try discriminate.
      - intros u0 l0 _. eexists. split; reflexivity.
      - intros [H | H]; discriminate H. }
    cbv zeta. cbn [documents document_assignments set_documents].
    destruct (add_assignments_unknown_document id u l w Hno) as [m ->].
    cbn [fst snd]. repeat split; try discriminate.
    + intros u0 l0 _. eexists. split; reflexivity.
    + intros [H | H]; discriminate H.
  - destruct (fault env UpdateStatus) as [m|]; cbn [fst snd];
      repeat split; try discriminate; try reflexivity.
    all: intros u l H; discriminate H.
  - cbn [fst snd]. repeat split; try discriminate.
    intros [H | H]; discriminate H.
  - destruct (fault env UpdateStatus) as [m|]; cbn [fst snd];
      repeat split; try discriminate.
    all: intros [H | H]; discriminate H.
  - destruct (fault env UpdateStatus) as [m|]; cbn [fst snd];
      repeat split; try discriminate.
    all: intros [H | H]; discriminate H.
  - destruct (fault env UpdateStatus) as [m|]; cbn [fst snd];
      repeat split; try discriminate.
    all: intros [H | H]; discriminate H.
Qed.

Lemma approve_twice_same_rows (id : jstring) (ds : list Document) :
  update_where_id id (set_status approved)
                  (update_where_id id (set_status approved) ds)
  = update_where_id id (set_status approved) ds.
Proof.
  unfold update_where_id. rewrite map_map. apply map_ext. intros d.
  destruct (JS.eqb (d_id d) id) eqn:E; cbn [d_id set_status]; rewrite E; reflexivity.
Qed.

Lemma handleApprove_ok_documents (e : Env) (req : Request) (user : option AuthUser)
      (id : jstring) (w w1 : World) :
  run (handleApprove e req user id) w = (Responded ok_true, w1) ->
  documents w1 = update_where_id id (set_status approved) (documents w).
Proof.
  intros H. destruct (isAdmin user) eqn:Ha.
  - rewrite handleApprove_admin in H by assumption.
    destruct (json_or_empty req) as [[[|u l]|]| |[|c s]|];
      try discriminate H;
      (destruct (fault e UpdateStatus); [discriminate H|]);
      try (injection H as <-; reflexivity); try discriminate H.
    destruct (fault e InsertAssignments); [discriminate H|].
    cbv zeta in H. destruct (add_assignments _ _ _); [|discriminate H].
    injection H as <-. reflexivity.
  - unfold run in H. rewrite handleApprove_gate in H by assumption. discriminate H.
Qed.

End ApproveEdges.

Section ApproveAgain.

Variables env1 env2 : Env.

(** X11. Once an approval of a document was answered [{ok: true}], no
    later approve call on that id, by anyone, with any body and however
    it is answered, changes the [documents] table again. *)
Theorem approve_again_keeps_documents (req1 req2 : Request)
        (user1 user2 : option AuthUser) (id : jstring) (w w1 : World) :
  run (handleApprove env1 req1 user1 id) w = (Responded ok_true, w1) ->
  documents (snd (run (handleApprove env2 req2 user2 id) w1)) = documents w1.
Proof.
  intros H1. apply handleApprove_ok_documents in H1.
  destruct (handleApprove_world env2 req2 user2 id w1) as [_ [_ [_ [Hd _]]]].
  cbv zeta in Hd. destruct Hd as [-> | ->]; [reflexivity|].
  rewrite H1. apply approve_twice_same_rows.
Qed.

End ApproveAgain.

(** ** Approvals that go through *)

Section ApproveSucceeds.

Variable env : Env.

Lemma has_assignment_id_app (id : jstring) (a b : list Assignment) :
  has_assignment_id id (a ++ b) = has_assignment_id id a || has_assignment_id id b.
Proof. unfold has_assignment_id. apply existsb_app. Qed.

Lemma has_pair_none (rows : list Assignment) (doc user : jstring) :
  ~ In (doc, user) (List.map pair_of rows) -> has_pair doc user rows = false.
Proof.
  intros H. destruct (has_pair doc user rows) eqn:E; [|reflexivity].
  apply has_pair_In in E as [a [Hin [H1 H2]]].
  exfalso. apply H. apply in_map_iff. exists a. split; [|assumption].
  unfold pair_of. rewrite H1, H2. reflexivity.
Qed.

Lemma has_assignment_id_none (rows : list Assignment) (id : jstring) :
  ~ In id (List.map a_id rows) -> has_assignment_id id rows = false.
Proof.
  intros H. unfold has_assignment_id.
  destruct (existsb _ rows) eqn:E; [|reflexivity].
  apply existsb_exists in E as [a [Hin Ha]]. apply JSFacts.eqb_eq in Ha.
  exfalso. apply H. apply in_map_iff. exists a. auto.
Qed.

(** Rows that break no constraint are all inserted. *)
Lemma add_assignments_succeeds (ds : list Document) (rows asg : list Assignment) :
  (forall r, In r rows -> has_document (a_doc_id r) ds = true) ->
  NoDup (List.map a_id rows) ->
  (forall r, In r rows -> has_assignment_id (a_id r) asg = false) ->
  NoDup (List.map pair_of rows) ->
  (forall r, In r rows -> has_pair (a_doc_id r) (a_user_id r) asg = false) ->
  add_assignments ds asg rows = Data (asg ++ rows).
Proof.
  revert asg. induction rows as [|r rows IH]; intros asg Hfk Hids Hpk Hpairs Huq; simpl.
  - rewrite app_nil_r. reflexivity.
  - rewrite (Hpk r (or_introl eq_refl)), (Hfk r (or_introl eq_refl)).
    rewrite (Huq r (or_introl eq_refl)). simpl.
    inversion Hids as [|? ? Hid Hids']; subst.
    inversion Hpairs as [|? ? Hp Hpairs']; subst.
    rewrite IH.
    + rewrite <- app_assoc. reflexivity.
    + intros r' Hr'. apply Hfk. right. exact Hr'.
    + exact Hids'.
    + intros r' Hr'. rewrite has_assignment_id_app, (Hpk r' (or_intror Hr')).
      simpl. rewrite orb_false_r. apply JSFacts.eqb_neq.
      intros E. apply Hid. rewrite E. apply in_map. exact Hr'.
    + exact Hpairs'.
    + intros r' Hr'. rewrite has_pair_app, (Huq r' (or_intror Hr')).
      unfold has_pair, same_pair. simpl. rewrite orb_false_r.
      destruct (JS.eqb (a_doc_id r) (a_doc_id r')) eqn:E1; [|reflexivity].
      destruct (JS.eqb (a_user_id r) (a_user_id r')) eqn:E2; [|reflexivity].
      apply JSFacts.eqb_eq in E1, E2. exfalso. apply Hp.
      apply in_map_iff. exists r'. split; [|exact Hr'].
      unfold pair_of. rewrite E1, E2. reflexivity.
Qed.

Lemma new_assignments_ids_from (start : nat) (rows : list (jstring * jstring)) :
  List.map a_id
    (List.map (fun ir => mkAssignment (gen_random_uuid env (fst ir))
                                      (fst (snd ir)) (snd (snd ir)) (now env))
              (combine (seq start (List.length rows)) rows))
  = List.map (gen_random_uuid env) (seq start (List.length rows)).
Proof.
  revert start. induction rows as [|[d u] rows IH]; intros start; simpl.
  - reflexivity.
  - rewrite IH. reflexivity.
Qed.

Lemma new_assignments_ids (rows : list (jstring * jstring)) :
  List.map a_id (new_assignments env rows)
  = List.map (gen_random_uuid env) (seq 0 (List.length rows)).
Proof. apply new_assignments_ids_from. Qed.

Lemma NoDup_pairs (id : jstring) (l : list jstring) :
  NoDup l -> NoDup (List.map (fun uid => (id, uid)) l).
Proof.
  induction 1 as [|u l Hu Hl IH]; simpl; constructor; [|exact IH].
  intros Hin. apply in_map_iff in Hin as [u' [E Hin]].
  injection E as ->. contradiction.
Qed.

(** X12. An admin's approval of an existing document for users named
    once each, none of them assigned to it yet, goes through when the
    datastore takes both statements and generates fresh row ids: the
    answer is [{ok: true}], the rows with that id are approved, and the
    table gains exactly one assignment row per user, in the order of the
    list. *)
Theorem approve_assigns (req : Request) (user : option AuthUser) (id : jstring)
        (l : list jstring) (w : World) :
  isAdmin user = true ->
  userIds (json_or_empty req) = Some l ->
  NoDup l ->
  has_document id (documents w) = true ->
  (forall u, In u l -> has_pair id u (document_assignments w) = false) ->
  fault env UpdateStatus = None ->
  fault env InsertAssignments = None ->
  NoDup (List.map (gen_random_uuid env) (seq 0 (List.length l))) ->
  (forall i, i < List.length l ->
             has_assignment_id (gen_random_uuid env i) (document_assignments w) = false) ->
  exists w',
    run (handleApprove env req user id) w = (Responded ok_true, w')
    /\ documents w' = update_where_id id (set_status approved) (documents w)
    /\ document_assignments w'
       = document_assignments w
         ++ new_assignments env (List.map (fun uid => (id, uid)) l)
    /\ List.map pair_of (new_assignments env (List.map (fun uid => (id, uid)) l))
       = List.map (fun uid => (id, uid)) l.
Proof.
  intros Ha Hl Hnd Hdoc Hnew Hf1 Hf2 Hgen Hfresh. apply userIds_Some in Hl.
  rewrite (handleApprove_typed env req user id w (Some l)) by assumption.
  rewrite Hf1.
  destruct l as [|u l].
  { eexists. split; [reflexivity|]. split; [reflexivity|].
    split; [symmetry; apply app_nil_r | reflexivity]. }
  rewrite Hf2. cbv zeta. cbn [documents document_assignments set_documents].
  rewrite add_assignments_succeeds.
  - eexists. split; [reflexivity|]. split; [reflexivity|].
    split; [reflexivity | apply new_assignments_pair_of].
  - intros r Hr. apply new_assignments_users in Hr as [-> _].
    rewrite has_document_update by reflexivity. exact Hdoc.
  - rewrite new_assignments_ids, length_map. exact Hgen.
  - intros r Hr.
    assert (Hid : In (a_id r)
                     (List.map (gen_random_uuid env)
                               (seq 0 (List.length (u :: l))))).
    { rewrite <- (length_map (fun uid => (id, uid)) (u :: l)).
      rewrite <- new_assignments_ids. apply in_map. exact Hr. }
    apply in_map_iff in Hid as [i [<- Hi]].
    apply in_seq in Hi. apply Hfresh. lia.
  - rewrite new_assignments_pair_of.
    apply NoDup_pairs. exact Hnd.
  - intros r Hr. apply new_assignments_users in Hr as [-> Hu].
    apply Hnew. exact Hu.
Qed.

End ApproveSucceeds.

(** ** The two listings *)

Section Listings.

Variable env : Env.

Lemma newer_or_equal_trans (a b c : Document) :
  newer_or_equal a b -> newer_or_equal b c -> newer_or_equal a c.
Proof. unfold newer_or_equal. lia. Qed.

Lemma order_strongly_sorted (l : list Document) :
  StronglySorted newer_or_equal (order_created_at_desc l).
Proof.
  apply Sorted_StronglySorted; [|apply order_sorted].
  intros a b c. apply newer_or_equal_trans.
Qed.

Lemma filter_strongly_sorted (f : Document -> bool) (l : list Document) :
  StronglySorted newer_or_equal l -> StronglySorted newer_or_equal (filter f l).
Proof.
  induction 1 as [|d l Hl IH Hd]; simpl; [constructor|].
  destruct (f d); [|exact IH].
  constructor; [exact IH|].
  apply Forall_forall. intros x Hx. apply filter_In in Hx as [Hx _].
  rewrite Forall_forall in Hd. apply Hd. exact Hx.
Qed.

(** X13. For an admin, GET /pending answers with the pending documents
    and nothing else, each once, newest first, and changes nothing; when
    the datastore refuses the query the answer is a 500 with the
    datastore's message. *)
Theorem pending_listing (req : Request) (user : option AuthUser) (w : World) :
  isAdmin user = true ->
  match fault env SelectPending with
  | Some message =>
      run (handlePending env req user) w = (Responded (server_error message), w)
  | None =>
      exists listed,
        run (handlePending env req user) w
        = (Responded (Response_json (JArr (List.map listed_row listed))), w)
        /\ Permutation listed
                       (filter (fun d => status_eqb (d_status d) pending) (documents w))
        /\ (forall d, In d listed <-> In d (documents w) /\ d_status d = pending)
        /\ StronglySorted newer_or_equal listed
  end.
Proof.
  intros Ha. unfold handlePending. rewrite Ha. open_handler.
  cbv beta iota zeta delta [negb].
  destruct (fault env SelectPending) as [m|]; [reflexivity|].
  eexists. split; [reflexivity|]. split; [apply order_perm|]. split.
  - intros d. rewrite order_In, filter_In, status_eqb_eq. reflexivity.
  - apply order_strongly_sorted.
Qed.

(** X14. When the datastore answers both queries, GET /approved/{userId}
    lists the documents newest first, none of them twice when the
    document ids are a key, and changes nothing. *)
Theorem approved_listing_newest_first (req : Request) (user : option AuthUser)
        (userId : jstring) (w : World) :
  fault env SelectApproved = None ->
  fault env SelectAssignments = None ->
  run (handleApprovedForUser env req user userId) w
  = (Responded (Response_json (JArr (List.map listed_row (listVisibleFor w userId)))), w)
  /\ StronglySorted newer_or_equal (listVisibleFor w userId)
  /\ (unique_document_ids w -> NoDup (List.map d_id (listVisibleFor w userId))).
Proof.
  intros H1 H2. split; [apply handleApprovedForUser_lists; assumption|]. split.
  - unfold listVisibleFor. apply filter_strongly_sorted, order_strongly_sorted.
  - unfold unique_document_ids, listVisibleFor. intros Hn.
    assert (Hsub : forall (f : Document -> bool) (l : list Document),
               NoDup (List.map d_id l) -> NoDup (List.map d_id (filter f l))).
    { intros f l. induction l as [|d l IH]; simpl; [auto|].
      intros Hl. inversion Hl as [|? ? Hd Hl']; subst.
      destruct (f d); [|apply IH; exact Hl'].
      simpl. constructor; [|apply IH; exact Hl'].
      intros Hin. apply Hd. apply in_map_iff in Hin as [x [Hx Hin]].
      apply filter_In in Hin as [Hin _]. apply in_map_iff. exists x. auto. }
    apply Hsub.
    apply (Permutation_NoDup (l := List.map d_id
             (filter (fun d => status_eqb (d_status d) approved) (documents w)))).
    + apply Permutation_map, Permutation_sym, order_perm.
    + apply Hsub. exact Hn.
Qed.

End Listings.

(** ** The summarizer's input *)

Section SummarizerInput.

Variable env : Env.

Lemma slice0_app (n : N) (text extra : jstring) :
  N.to_nat n <= List.length text -> slice0 n (text ++ extra) = slice0 n text.
Proof.
  intros H. unfold slice0. rewrite firstn_app.
  replace (N.to_nat n - List.length text) with 0 by lia.
  simpl. apply app_nil_r.
Qed.

(** X15. The summarizer looks at the first 120000 code units of the text
    only: what follows them changes neither its answer nor what it
    sends, and the text part of a request it sends is never longer than
    that. *)
Theorem summarize_reads_bounded_prefix (text extra : jstring) (w : World) :
  N.to_nat 120000 <= List.length text ->
  summarizeWithGemini env (text ++ extra) w = summarizeWithGemini env text w
  /\ (generate_requests (snd (summarizeWithGemini env (text ++ extra) w))
      = generate_requests w
      \/ exists sent,
           generate_requests (snd (summarizeWithGemini env (text ++ extra) w))
           = generate_requests w ++ [PROMPT ++ sent]
           /\ List.length sent = N.to_nat 120000
           /\ sent = slice0 120000 text).
Proof.
  intros Hlen. split.
  - unfold summarizeWithGemini. rewrite slice0_app by assumption. reflexivity.
  - destruct (summarize_world env (text ++ extra) w) as [[-> | ->] _].
    + left. reflexivity.
    + right. exists (slice0 120000 text).
      cbn [generate_requests log_generate_request].
      rewrite slice0_app by assumption.
      split; [reflexivity|]. split; [|reflexivity].
      unfold slice0. apply firstn_length_le. exact Hlen.
Qed.

(** X16. An upload whose file was stored and whose row was created
    sends exactly one request upstream when a credential is configured,
    and none when there is none; the request carries the extracted text
    when there is some, cut to its first 120000 code units. *)
Theorem upload_sends_one_request
        (req : Request) (u : AuthUser) (form : FormData) (file : File)
        (w w1 w2 : World) (doc : Document) :
  isAdmin (Some u) = true ->
  payload req = Multipart form ->
  form_file form = Some file ->
  storage_upload env (storagePath env file) (file_bytes file)
                 (or_else (file_type file) `"application/pdf"`) w
  = (Next (Data (storagePath env file)), w1) ->
  insert_document env (title_of form) (getPublicUrl env (storagePath env file))
                  (user_id u) w1
  = (Next (Data doc), w2) ->
  (truthy_opt (GEMINI_API_KEY env) = false ->
   generate_requests (snd (run (handleUpload env req (Some u)) w))
   = generate_requests w)
  /\ (truthy_opt (GEMINI_API_KEY env) = true ->
      parsePdfToText env (file_bytes file) <> [] ->
      generate_requests (snd (run (handleUpload env req (Some u)) w))
      = generate_requests w
        ++ [PROMPT ++ slice0 120000 (parsePdfToText env (file_bytes file))]).
Proof.
  intros Hadmin Hpay Hfile Hstore Hins.
  assert (Hw2 : generate_requests w2 = generate_requests w).
  { rewrite (insert_document_requests env _ _ _ _ _ _ Hins).
    apply (storage_upload_requests env _ _ _ _ _ _ Hstore). }
  unfold handleUpload, run, bind, formData.
  rewrite Hadmin, Hpay. cbv beta iota zeta delta [negb ret].
  rewrite Hfile, Hstore, Hins.
  destruct (update_document_step env UpdateParsedText (d_id doc)
              (set_parsed_text (parsePdfToText env (file_bytes file))) w2) as [res1 E1].
  rewrite E1.
  set (w3 := snd (update_document env UpdateParsedText (d_id doc)
                    (set_parsed_text (parsePdfToText env (file_bytes file))) w2)).
  assert (Hw3 : generate_requests w3 = generate_requests w).
  { unfold w3. rewrite update_document_requests. exact Hw2. }
  split.
  - intros Hkey. rewrite summarize_without_key by assumption.
    match goal with
    | |- context [update_document env UpdateSummary ?i ?f ?x] =>
        destruct (update_document_step env UpdateSummary i f x) as [res2 E2]
    end.
    rewrite E2. cbn [snd]. rewrite update_document_requests. exact Hw3.
  - intros Hkey Htext.
    assert (Hor : or_else (parsePdfToText env (file_bytes file))
                    (fallback_description (getPublicUrl env (storagePath env file)))
                  = parsePdfToText env (file_bytes file)).
    { unfold or_else. destruct (parsePdfToText env (file_bytes file));
        [contradiction | reflexivity]. }
    rewrite Hor.
    unfold truthy_opt in Hkey.
    destruct (GEMINI_API_KEY env) as [key|] eqn:Hk; [|discriminate Hkey].
    pose proof (summarize_logs env (parsePdfToText env (file_bytes file)) key w3 Hk Hkey)
      as Hlog.
    destruct (summarize_world env (parsePdfToText env (file_bytes file)) w3) as [_ Hnr].
    destruct (summarizeWithGemini env (parsePdfToText env (file_bytes file)) w3)
      as [[summary | r | ] w4] eqn:Es; cbn [fst snd] in *.
    + match goal with
      | |- context [update_document env UpdateSummary ?i ?f ?x] =>
          destruct (update_document_step env UpdateSummary i f x) as [res2 E2]
      end.
      rewrite E2. cbn [snd]. rewrite update_document_requests, Hlog, Hw3. reflexivity.
    + destruct (Hnr r eq_refl).
    + rewrite Hlog, Hw3. reflexivity.
Qed.

End SummarizerInput.

(** ** When nothing is extracted *)

Section NothingExtracted.

Variable env : Env.

Lemma trimStart_all (s : jstring) :
  forallb is_white_space s = true -> trimStart s = [].
Proof.
  induction s as [|c s IH]; simpl; [reflexivity|].
  intros H. apply andb_true_iff in H as [Hc Hs]. rewrite Hc. exact (IH Hs).
Qed.

Lemma trim_empty (s : jstring) :
  trim s = [] <-> forallb is_white_space s = true.
Proof.
  split.
  - intros H. destruct (JSFacts.trim_split s) as [l [r [Hs [Hl Hr]]]].
    rewrite H in Hs. rewrite Hs, !forallb_app, Hl, Hr. reflexivity.
  - intros H. unfold trim, trimEnd.
    rewrite (trimStart_all (rev s)); [reflexivity|].
    rewrite JSFacts.forallb_rev. exact H.
Qed.

(** X17. The extractor gives the empty string, and the upload then
    falls back to describing the file by its URL, exactly when pdf.js
    fails on the file or every page holds nothing but white space; a
    file without pages is such a file. *)
Theorem parsePdfToText_empty (fileBytes : list N) :
  parsePdfToText env fileBytes = [] <->
  match page_texts env fileBytes with
  | None => True
  | Some pages => forallb is_white_space (join [LF] pages) = true
  end.
Proof.
  unfold parsePdfToText, page_texts.
  destruct (pdfjs_import env); [|tauto].
  destruct (getDocument env fileBytes) as [pdf|]; [|tauto].
  rewrite read_pages_page_texts.
  destruct (page_texts_from pdf (numPages pdf) 1) as [ts|]; [|tauto].
  cbn [app]. rewrite trim_terminated. apply trim_empty.
Qed.

End NothingExtracted.

(** ** Who the caller is *)

Section Resolver.

Variable env : Env.

(** The three routes behind the admin gate. *)
Lemma serve_admin_route (req : Request) (w : World) :
  admin_only_request req = true ->
  let w0 := set_rest_authorization (nullish (Authorization (headers req)) []) w in
  let user := getAuthUser env req in
  run (serve env req) w = run (handleUpload env req user) w0
  \/ run (serve env req) w = run (handlePending env req user) w0
  \/ exists id, run (serve env req) w = run (handleApprove env req user id) w0.
Proof.
  intros Hroute. cbv zeta. unfold admin_only_request in Hroute.
  unfold serve, run at 1, bind, modify.
  destruct (JS.eqb (method req) `"POST"` && JS.eqb (route_pathname (url_pathname req)) `"/upload"`);
    [left; reflexivity|].
  destruct (JS.eqb (method req) `"GET"` && JS.eqb (route_pathname (url_pathname req)) `"/pending"`);
    [right; left; reflexivity|].
  simpl in Hroute. apply andb_true_iff in Hroute as [Hpost Hmatch].
  rewrite Hpost.
  destruct (match_approve (route_pathname (url_pathname req))) as [id|];
    [|discriminate].
  right. right. exists id. reflexivity.
Qed.

(** X18. A token the identity provider accepts decides who the caller
    is: the mock headers are not looked at, and a caller whose own role
    is not admin is refused on the admin routes even when the request
    also claims the admin role in x-mock-role. *)
Theorem valid_token_beats_mock_headers (req : Request) (h : jstring)
        (user : AuthUser) (w : World) :
  Authorization (headers req) = Some h ->
  h <> [] ->
  auth_getUser env (replace_first `"Bearer "` [] h) = Some user ->
  getAuthUser env req = Some user
  /\ (user_metadata_role user <> Some `"admin"` ->
      admin_only_request req = true ->
      fst (run (serve env req) w) = Responded Forbidden).
Proof.
  intros Hh Hne Hok.
  assert (Hget : getAuthUser env req = Some user).
  { unfold getAuthUser. rewrite Hh.
    apply JSFacts.truthy_nonempty in Hne. rewrite Hne, Hok. reflexivity. }
  split; [exact Hget|].
  intros Hrole Hroute.
  assert (Hna : isAdmin (getAuthUser env req) = false).
  { rewrite Hget. unfold isAdmin.
    destruct (user_metadata_role user) as [r|]; [|reflexivity].
    apply JSFacts.eqb_neq. intros E. apply Hrole. rewrite E. reflexivity. }
  destruct (serve_admin_route req w Hroute) as [-> | [-> | [id ->]]]; unfold run.
  - rewrite handleUpload_gate by assumption. reflexivity.
  - rewrite handlePending_gate by assumption. reflexivity.
  - rewrite handleApprove_gate by assumption. reflexivity.
Qed.

(** X19. A request resolves to no identity exactly when its token is
    absent or rejected and one of the two mock headers is missing or
    empty. *)
Theorem anonymous_exactly (req : Request) :
  getAuthUser env req = None <->
  token_unresolved env req
  /\ truthy_opt (x_mock_role (headers req))
     && truthy_opt (x_mock_user_id (headers req)) = false.
Proof.
  unfold getAuthUser, token_unresolved, truthy_opt.
  destruct (Authorization (headers req)) as [h|].
  - destruct (truthy h) eqn:Ht.
    + destruct (auth_getUser env (replace_first `"Bearer "` [] h)) as [u|].
      * split; [discriminate|]. intros [[K | K] _]; discriminate K.
      * destruct (x_mock_role (headers req)) as [r|],
                 (x_mock_user_id (headers req)) as [i|];
          try destruct (truthy r); try destruct (truthy i); simpl;
          split; try discriminate; try tauto; intros [_ K]; discriminate K.
    + destruct (x_mock_role (headers req)) as [r|],
               (x_mock_user_id (headers req)) as [i|];
        try destruct (truthy r); try destruct (truthy i); simpl;
        split; try discriminate; try tauto; intros [_ K]; discriminate K.
  - destruct (x_mock_role (headers req)) as [r|],
             (x_mock_user_id (headers req)) as [i|];
      try destruct (truthy r); try destruct (truthy i); simpl;
      split; try discriminate; try tauto; intros [_ K]; discriminate K.
Qed.

End Resolver.

(** ** The callers and the function together *)

Section Callers.

Variable env : Env.

Lemma plain_char_not_terminator (c : N) :
  plain_char c = true -> is_line_terminator c = false.
Proof.
  unfold plain_char, is_line_terminator. intros H.
  repeat (apply orb_true_iff in H as [H | H]).
  - apply andb_true_iff in H as [H1 H2].
    apply N.leb_le in H1, H2.
    repeat (apply orb_false_iff; split); apply N.eqb_neq; lia.
  - apply andb_true_iff in H as [H1 H2].
    apply N.leb_le in H1, H2.
    repeat (apply orb_false_iff; split); apply N.eqb_neq; lia.
  - apply andb_true_iff in H as [H1 H2].
    apply N.leb_le in H1, H2.
    repeat (apply orb_false_iff; split); apply N.eqb_neq; lia.
  - apply N.eqb_eq in H. subst. reflexivity.
  - apply N.eqb_eq in H. subst. reflexivity.
Qed.

Lemma plain_id_dot_star (s : jstring) : plain_id s = true -> dot_star s = true.
Proof.
  unfold plain_id, dot_star. induction s as [|c s IH]; simpl; [reflexivity|].
  intros H. apply andb_true_iff in H as [Hc Hs].
  rewrite (plain_char_not_terminator c Hc), IH by assumption. reflexivity.
Qed.

Lemma strip_suffix_self (p s : jstring) : strip_suffix p (s ++ p) = Some s.
Proof.
  unfold strip_suffix. rewrite rev_app_distr, strip_prefix_self, rev_involutive.
  reflexivity.
Qed.

Lemma route_pathname_prefixed (p : jstring) :
  route_pathname (`"/functions/v1/documents"` ++ `"/"` ++ p) = `"/"` ++ p.
Proof. unfold route_pathname. rewrite strip_prefix_self. reflexivity. Qed.

Lemma match_approve_built (id : jstring) :
  dot_star id = true -> match_approve (`"/"` ++ id ++ `"/approve"`) = Some id.
Proof.
  intros H. unfold match_approve. rewrite strip_prefix_self, strip_suffix_self, H.
  reflexivity.
Qed.

Lemma eqb_length (a b : jstring) :
  JS.eqb a b = true -> List.length a = List.length b.
Proof. intros H. apply JSFacts.eqb_eq in H. subst. reflexivity. Qed.

Lemma approve_path_is_not_upload (id : jstring) :
  JS.eqb (`"/"` ++ id ++ `"/approve"`) `"/upload"` = false.
Proof.
  destruct (JS.eqb (`"/"` ++ id ++ `"/approve"`) `"/upload"`) eqn:E; [|reflexivity].
  apply eqb_length in E. rewrite !length_app in E.
  change (List.length `"/"`) with 1 in E.
  change (List.length `"/approve"`) with 8 in E.
  change (List.length `"/upload"`) with 7 in E. lia.
Qed.

Lemma serve_approveDocument (b : Client.Browser) (id : jstring)
      (l : list jstring) (w : World) :
  plain_id id = true ->
  run (serve env (Client.approveDocument b id l)) w
  = run (handleApprove env (Client.approveDocument b id l)
           (getAuthUser env (Client.approveDocument b id l)) id)
        (set_rest_authorization (nullish (Authorization (Client.interceptor b)) []) w).
Proof.
  intros Hid. unfold serve, run at 1, bind, modify.
  cbn [method url_pathname headers Client.approveDocument].
  change (`"/functions/v1/documents/"` ++ id ++ `"/approve"`)
    with (`"/functions/v1/documents"` ++ `"/"` ++ id ++ `"/approve"`).
  rewrite route_pathname_prefixed, approve_path_is_not_upload.
  rewrite match_approve_built by (apply plain_id_dot_star; assumption).
  reflexivity.
Qed.

Lemma serve_getPendingDocuments (b : Client.Browser) (w : World) :
  run (serve env (Client.getPendingDocuments b)) w
  = run (handlePending env (Client.getPendingDocuments b)
           (getAuthUser env (Client.getPendingDocuments b)))
        (set_rest_authorization (nullish (Authorization (Client.interceptor b)) []) w).
Proof. reflexivity. Qed.

(** X20. The four calls of [documentsApi] arrive at the handlers they
    are meant for: the pending list at [handlePending], an upload at
    [handleUpload], an approval at [handleApprove] with the very id and
    user list the caller gave, and a user's list at
    [handleApprovedForUser] with the very user id. *)
Theorem documentsApi_reaches_handlers (b : Client.Browser) (id userId : jstring)
        (l : list jstring) (form : FormData) (w : World) :
  plain_id id = true ->
  plain_id userId = true ->
  run (serve env (Client.getPendingDocuments b)) w
  = run (handlePending env (Client.getPendingDocuments b)
           (getAuthUser env (Client.getPendingDocuments b)))
        (set_rest_authorization (nullish (Authorization (Client.interceptor b)) []) w)
  /\ run (serve env (Client.uploadDocument b form)) w
     = run (handleUpload env (Client.uploadDocument b form)
              (getAuthUser env (Client.uploadDocument b form)))
           (set_rest_authorization (nullish (Authorization (Client.interceptor b)) []) w)
  /\ run (serve env (Client.approveDocument b id l)) w
     = run (handleApprove env (Client.approveDocument b id l)
              (getAuthUser env (Client.approveDocument b id l)) id)
           (set_rest_authorization (nullish (Authorization (Client.interceptor b)) []) w)
  /\ userIds (json_or_empty (Client.approveDocument b id l)) = Some l
  /\ run (serve env (Client.getApprovedForUser b userId)) w
     = run (handleApprovedForUser env (Client.getApprovedForUser b userId)
              (getAuthUser env (Client.getApprovedForUser b userId)) userId)
           (set_rest_authorization (nullish (Authorization (Client.interceptor b)) []) w).
Proof.
  intros Hid Hu. split; [apply serve_getPendingDocuments|].
  split; [reflexivity|]. split; [|split].
  - apply serve_approveDocument. exact Hid.
  - reflexivity.
  - rewrite (serve_approved env (Client.getApprovedForUser b userId) userId w).
    + reflexivity.
    + reflexivity.
    + cbn [url_pathname Client.getApprovedForUser].
      change (`"/functions/v1/documents/approved/"` ++ userId)
        with (`"/functions/v1/documents"` ++ `"/"` ++ `"approved/"` ++ userId).
      rewrite route_pathname_prefixed.
      change (`"/"` ++ `"approved/"` ++ userId) with (`"/approved/"` ++ userId).
      unfold match_approved. rewrite strip_prefix_self.
      rewrite (plain_id_dot_star userId Hu). reflexivity.
Qed.

Lemma replace_first_prefix (pat rest : jstring) :
  replace_first pat [] (pat ++ rest) = rest.
Proof.
  destruct (pat ++ rest) eqn:E; simpl; rewrite <- ?E, strip_prefix_self; reflexivity.
Qed.

(** X21. With a session, the request carries the session's token and no
    mock header, and the function asks the identity provider about
    exactly that token: the caller is whoever the provider says, and
    nobody when the provider rejects the token. *)
Theorem session_token_round_trip (b : Client.Browser) (token : jstring)
        (req : Request) :
  Client.access_token b = Some token ->
  token <> [] ->
  headers req = Client.interceptor b ->
  x_mock_role (headers req) = None
  /\ x_mock_user_id (headers req) = None
  /\ getAuthUser env req = auth_getUser env token.
Proof.
  intros Ht Hne Hh. rewrite Hh. unfold Client.interceptor, truthy_opt. rewrite Ht.
  apply JSFacts.truthy_nonempty in Hne. rewrite Hne.
  split; [reflexivity|]. split; [reflexivity|].
  unfold getAuthUser. rewrite Hh. unfold Client.interceptor, truthy_opt.
  rewrite Ht, Hne. cbn [Authorization x_mock_role x_mock_user_id nullish].
  change (truthy (`"Bearer "` ++ token)) with true. cbv iota.
  rewrite replace_first_prefix.
  destruct (auth_getUser env token); reflexivity.
Qed.

(** X22. Without a session, the user object kept under [kmrl_user]
    becomes the caller's identity at the function: its role, and its
    [id], else its [user_id], else the id mock-user, provided role and
    id are not empty; a stored user with role admin passes the admin
    gate. *)
Theorem stored_mock_user_resolves (b : Client.Browser) (mockUser : Client.MockUser)
        (req : Request) :
  truthy_opt (Client.access_token b) = false ->
  Client.kmrl_user b = Client.User mockUser ->
  headers req = Client.interceptor b ->
  Client.role mockUser <> [] ->
  match Client.id mockUser with
  | Some i => i
  | None => nullish (Client.user_id mockUser) `"mock-user"`
  end <> [] ->
  getAuthUser env req
  = Some (mkAuthUser (match Client.id mockUser with
                      | Some i => i
                      | None => nullish (Client.user_id mockUser) `"mock-user"`
                      end)
                     (Some (Client.role mockUser)))
  /\ isAdmin (getAuthUser env req) = JS.eqb (Client.role mockUser) `"admin"`.
Proof.
  intros Ht Hs Hh Hr Hi.
  assert (Hget : getAuthUser env req
                 = Some (mkAuthUser (match Client.id mockUser with
                                     | Some i => i
                                     | None => nullish (Client.user_id mockUser) `"mock-user"`
                                     end)
                                    (Some (Client.role mockUser)))).
  { unfold getAuthUser. rewrite Hh. unfold Client.interceptor. rewrite Ht, Hs.
    cbn [Authorization x_mock_role x_mock_user_id].
    apply JSFacts.truthy_nonempty in Hr, Hi. rewrite Hr, Hi. reflexivity. }
  split; [exact Hget|]. rewrite Hget. reflexivity.
Qed.

End Callers.

(** ** The review page *)

Section ReviewPage.

Variable env : Env.

(** The selection after a series of clicks on employee buttons, from the
    empty selection [handleReviewDocument] sets. *)
Lemma includes_id_In (l : list jstring) (x : jstring) :
  Client.includes_id l x = true <-> In x l.
Proof.
  unfold Client.includes_id. rewrite existsb_exists. split.
  - intros [y [Hy E]]. apply JSFacts.eqb_eq in E. subst. exact Hy.
  - intros H. exists x. split; [exact H | apply JSFacts.eqb_eq; reflexivity].
Qed.

Lemma includes_id_toggle (e x : jstring) (prev : list jstring) :
  Client.includes_id (Client.toggleEmployee e prev) x
  = if JS.eqb e x then negb (Client.includes_id prev x) else Client.includes_id prev x.
Proof.
  unfold Client.toggleEmployee.
  destruct (Client.includes_id prev e) eqn:He.
  - destruct (JS.eqb e x) eqn:Ex.
    + apply JSFacts.eqb_eq in Ex. subst x. rewrite He. simpl.
      destruct (Client.includes_id (filter (fun i => negb (JS.eqb i e)) prev) e) eqn:F;
        [|reflexivity].
      apply includes_id_In, filter_In in F as [_ F].
      rewrite (proj2 (JSFacts.eqb_eq e e) eq_refl) in F. discriminate F.
    + destruct (Client.includes_id prev x) eqn:Hx.
      * apply includes_id_In. apply filter_In. split.
        -- apply includes_id_In. exact Hx.
        -- destruct (JS.eqb x e) eqn:Exe; [|reflexivity].
           apply JSFacts.eqb_eq in Exe. subst.
           rewrite (proj2 (JSFacts.eqb_eq e e) eq_refl) in Ex. discriminate Ex.
      * destruct (Client.includes_id (filter (fun i => negb (JS.eqb i e)) prev) x) eqn:F;
          [|reflexivity].
        apply includes_id_In, filter_In in F as [F _].
        apply includes_id_In in F. congruence.
  - unfold Client.includes_id in *. rewrite existsb_app. simpl.
    rewrite orb_false_r. destruct (JS.eqb e x) eqn:Ex.
    + apply JSFacts.eqb_eq in Ex. subst x. rewrite He. reflexivity.
    + rewrite orb_false_r. reflexivity.
Qed.

Lemma toggleEmployee_NoDup (e : jstring) (prev : list jstring) :
  NoDup prev -> NoDup (Client.toggleEmployee e prev).
Proof.
  intros Hn. unfold Client.toggleEmployee.
  destruct (Client.includes_id prev e) eqn:He.
  - apply NoDup_filter. exact Hn.
  - apply NoDup_snoc; [exact Hn|].
    intros Hin. apply includes_id_In in Hin. congruence.
Qed.

(** X23. Whatever buttons are clicked, starting from the empty
    selection, the selection names no employee twice and holds exactly
    the employees clicked an odd number of times. *)
Theorem selection_after_clicks (clicks : list jstring) (e : jstring) :
  NoDup (fold_left (fun prev empId => Client.toggleEmployee empId prev) clicks [])
  /\ Client.includes_id
       (fold_left (fun prev empId => Client.toggleEmployee empId prev) clicks []) e
     = Nat.odd (List.length (filter (fun c => JS.eqb c e) clicks)).
Proof.
  assert (G : forall start,
             NoDup start ->
             NoDup (fold_left (fun prev empId => Client.toggleEmployee empId prev)
                              clicks start)
             /\ Client.includes_id
                  (fold_left (fun prev empId => Client.toggleEmployee empId prev)
                             clicks start) e
                = xorb (Client.includes_id start e)
                       (Nat.odd (List.length (filter (fun c => JS.eqb c e) clicks)))).
  { induction clicks as [|c clicks IH]; intros start Hn.
    - simpl. split; [exact Hn|]. rewrite xorb_false_r. reflexivity.
    - cbn [fold_left filter].
      destruct (IH (Client.toggleEmployee c start) (toggleEmployee_NoDup c start Hn))
        as [I1 I2].
      split; [exact I1|]. rewrite I2, includes_id_toggle.
      destruct (JS.eqb c e); [|reflexivity].
      cbn [List.length]. rewrite Nat.odd_succ, <- Nat.negb_odd.
      destruct (Client.includes_id start e), (Nat.odd _); reflexivity. }
  destruct (G [] (NoDup_nil _)) as [G1 G2]. split; [exact G1|].
  rewrite G2. reflexivity.
Qed.

Lemma Loader_pending_rows (req : Request) (user : option AuthUser) (w : World) :
  Forall pending_row
         (Client.Loader_documents (fst (run (handlePending env req user) w))).
Proof.
  unfold handlePending. destruct (isAdmin user).
  - open_handler. cbv beta iota zeta delta [negb].
    destruct (fault env SelectPending); [constructor|].
    cbn. apply Forall_forall. intros r Hr.
    apply in_map_iff in Hr as [d [<- Hd]]. exists d. split; [reflexivity|].
    apply order_In, filter_In in Hd as [_ Hd]. apply status_eqb_eq. exact Hd.
  - constructor.
Qed.

Lemma filter_all (A : Type) (f : A -> bool) (l : list A) :
  Forall (fun x => f x = true) l -> filter f l = l.
Proof.
  induction 1 as [|x l Hx _ IH]; simpl; [reflexivity|]. rewrite Hx, IH. reflexivity.
Qed.

Lemma filter_none (A : Type) (f : A -> bool) (l : list A) :
  Forall (fun x => f x = false) l -> filter f l = [].
Proof.
  induction 1 as [|x l Hx _ IH]; simpl; [reflexivity|]. rewrite Hx, IH. reflexivity.
Qed.

Lemma Forall_filter (A : Type) (P : A -> Prop) (f : A -> bool) (l : list A) :
  Forall P l -> Forall P (filter f l).
Proof.
  intros H. apply Forall_forall. intros x Hx. apply filter_In in Hx as [Hx _].
  rewrite Forall_forall in H. apply H. exact Hx.
Qed.

(** X24. Whatever the function answers to the page's load, and whatever
    documents the page then removes after approvals or rejections, every
    document the page holds is pending: its pending list is the whole
    list, and its list of approved documents is empty. *)
Theorem review_page_holds_pending_only (b : Client.Browser) (w : World)
        (removed : list jstring) :
  Client.pendingDocuments
    (fold_left (fun prevDocs i => Client.removeDocument i prevDocs) removed
       (Client.Loader_documents (fst (run (serve env (Client.getPendingDocuments b)) w))))
  = fold_left (fun prevDocs i => Client.removeDocument i prevDocs) removed
      (Client.Loader_documents (fst (run (serve env (Client.getPendingDocuments b)) w)))
  /\ Client.approvedDocuments
       (fold_left (fun prevDocs i => Client.removeDocument i prevDocs) removed
          (Client.Loader_documents
             (fst (run (serve env (Client.getPendingDocuments b)) w))))
     = [].
Proof.
  rewrite serve_getPendingDocuments.
  pose proof (Loader_pending_rows (Client.getPendingDocuments b)
                (getAuthUser env (Client.getPendingDocuments b))
                (set_rest_authorization
                   (nullish (Authorization (Client.interceptor b)) []) w)) as H.
  revert H. generalize (Client.Loader_documents
                          (fst (run (handlePending env (Client.getPendingDocuments b)
                                       (getAuthUser env (Client.getPendingDocuments b)))
                                    (set_rest_authorization
                                       (nullish (Authorization (Client.interceptor b)) [])
                                       w)))).
  induction removed as [|i removed IH]; intros docs H.
  - simpl. split.
    + apply filter_all. eapply Forall_impl; [|exact H].
      intros r [d [-> Hd]]. unfold Client.status_is. cbn. rewrite Hd. reflexivity.
    + apply filter_none. eapply Forall_impl; [|exact H].
      intros r [d [-> Hd]]. unfold Client.status_is. cbn. rewrite Hd. reflexivity.
  - cbn [fold_left]. apply IH. apply Forall_filter. exact H.
Qed.

Lemma insert_desc_front (d : Document) (l : list Document) :
  Forall (fun y => newer_or_equal d y) l -> insert_desc d l = d :: l.
Proof.
  intros H. destruct l as [|x l]; [reflexivity|]. simpl.
  inversion H as [|? ? Hx _]; subst. unfold newer_or_equal in Hx.
  apply N.leb_le in Hx. rewrite Hx. reflexivity.
Qed.

Lemma filter_insert_desc (q : Document -> bool) (d : Document) (l : list Document) :
  StronglySorted newer_or_equal l ->
  filter q (insert_desc d l)
  = if q d then insert_desc d (filter q l) else filter q l.
Proof.
  induction 1 as [|x l Hl IH Hx].
  - simpl. destruct (q d); reflexivity.
  - cbn [insert_desc].
    destruct (N.leb_spec (d_created_at x) (d_created_at d)) as [Hle|Hlt].
    + cbn [filter]. destruct (q d); [|reflexivity].
      symmetry. apply (insert_desc_front d (filter q (x :: l))).
      apply Forall_filter. constructor; [exact Hle|].
      eapply Forall_impl; [|exact Hx]. unfold newer_or_equal. intros y Hy. lia.
    + cbn [filter]. rewrite IH. destruct (q d), (q x); try reflexivity.
      cbn [insert_desc]. apply N.leb_gt in Hlt. rewrite Hlt. reflexivity.
Qed.

Lemma order_filter (q : Document -> bool) (l : list Document) :
  order_created_at_desc (filter q l) = filter q (order_created_at_desc l).
Proof.
  induction l as [|d l IH]; [reflexivity|].
  cbn [filter order_created_at_desc fold_right].
  fold (order_created_at_desc l).
  rewrite filter_insert_desc by apply order_strongly_sorted.
  destruct (q d); [|exact IH].
  cbn [order_created_at_desc fold_right]. fold (order_created_at_desc (filter q l)).
  rewrite IH. reflexivity.
Qed.

Lemma filter_pending_approved (id : jstring) (ds : list Document) :
  filter (fun d => status_eqb (d_status d) pending)
         (update_where_id id (set_status approved) ds)
  = filter (fun d => negb (JS.eqb (d_id d) id))
           (filter (fun d => status_eqb (d_status d) pending) ds).
Proof.
  unfold update_where_id. induction ds as [|d ds IH]; [reflexivity|].
  cbn [List.map filter]. destruct (JS.eqb (d_id d) id) eqn:E.
  - cbn [set_status d_status status_eqb]. rewrite IH.
    destruct (status_eqb (d_status d) pending); [|reflexivity].
    cbn [filter]. rewrite E. reflexivity.
  - rewrite IH. destruct (status_eqb (d_status d) pending); [|reflexivity].
    cbn [filter]. rewrite E. reflexivity.
Qed.

Lemma removeDocument_rows (id : jstring) (l : list Document) :
  Client.removeDocument id (List.map listed_row l)
  = List.map listed_row (filter (fun d => negb (JS.eqb (d_id d) id)) l).
Proof.
  unfold Client.removeDocument. induction l as [|d l IH]; [reflexivity|].
  cbn [List.map filter]. rewrite IH.
  replace (Client.id_is_not id (listed_row d)) with (negb (JS.eqb (d_id d) id))
    by reflexivity.
  destruct (negb (JS.eqb (d_id d) id)); reflexivity.
Qed.

Lemma Loader_array (rows : list Json) :
  Client.Loader_documents (Responded (Response_json (JArr rows))) = rows.
Proof. reflexivity. Qed.

Lemma handlePending_admin (req : Request) (user : option AuthUser) (w : World) :
  isAdmin user = true ->
  fault env SelectPending = None ->
  run (handlePending env req user) w
  = (Responded (Response_json
                  (JArr (List.map listed_row
                           (order_created_at_desc
                              (filter (fun d => status_eqb (d_status d) pending)
                                      (documents w)))))), w).
Proof.
  intros Ha Hf. unfold handlePending. rewrite Ha. open_handler.
  cbv beta iota zeta delta [negb]. rewrite Hf. reflexivity.
Qed.

(** X25. After the page's approval of a document is answered [{ok:
    true}], the list the page keeps, the pending list it had loaded
    without the approved document, is the list a reload gives (rows
    created at the same instant taken in table order). *)
Theorem page_agrees_with_reload (b : Client.Browser) (id : jstring)
        (l : list jstring) (w w1 : World) :
  plain_id id = true ->
  fault env SelectPending = None ->
  run (serve env (Client.approveDocument b id l)) w = (Responded ok_true, w1) ->
  Client.Loader_documents (fst (run (serve env (Client.getPendingDocuments b)) w1))
  = Client.removeDocument id
      (Client.Loader_documents (fst (run (serve env (Client.getPendingDocuments b)) w))).
Proof.
  intros Hid Hf H. rewrite serve_approveDocument in H by exact Hid.
  assert (Ha : isAdmin (getAuthUser env (Client.getPendingDocuments b)) = true).
  { change (getAuthUser env (Client.getPendingDocuments b))
      with (getAuthUser env (Client.approveDocument b id l)).
    destruct (isAdmin (getAuthUser env (Client.approveDocument b id l))) eqn:Ha;
      [reflexivity|].
    unfold run in H. rewrite handleApprove_gate in H by exact Ha. discriminate H. }
  apply handleApprove_ok_documents in H.
  rewrite !serve_getPendingDocuments.
  rewrite !handlePending_admin by assumption.
  cbn [fst]. rewrite !Loader_array.
  cbn [documents set_rest_authorization].
  rewrite H, filter_pending_approved, order_filter, removeDocument_rows. reflexivity.
Qed.

End ReviewPage.

(** ** What a successful upload leaves behind *)

Section UploadStores.

Variable env : Env.

Lemma title_of_file (form : FormData) (file : File) :
  form_file form = Some file ->
  title_of form = or_else (nullish (form_title form) []) (file_name file).
Proof.
  intros H. unfold title_of. rewrite H. destruct (form_title form); reflexivity.
Qed.

(** X26. When the two updates are taken, an upload answered with success
    has stored one object, holding the file's bytes under its type or
    application/pdf, and has added one row, the one of the confirmation:
    title from the form or, when that is empty, the file's name; the
    extracted text; the summarizer's answer; status pending; the caller
    as creator. The summary is empty or the trimmed text of the first
    candidate of the reply to the prompt made of the extracted text or,
    when there is none, of the description by the row's URL. *)
Theorem upload_row_contents (req : Request) (user : option AuthUser)
        (w w' : World) (r : Response) :
  run (handleUpload env req user) w = (Responded r, w') ->
  status r = 200 ->
  fault env UpdateParsedText = None ->
  fault env UpdateSummary = None ->
  exists u form file object row summary,
    user = Some u
    /\ payload req = Multipart form
    /\ form_file form = Some file
    /\ bucket w' = bucket w ++ [object]
    /\ o_bytes object = file_bytes file
    /\ o_content_type object = or_else (file_type file) `"application/pdf"`
    /\ documents w' = documents w ++ [row]
    /\ r = upload_confirmation (d_id row) (d_title row) (d_file_url row)
    /\ d_title row = or_else (nullish (form_title form) []) (file_name file)
    /\ d_parsed_text row = Some (parsePdfToText env (file_bytes file))
    /\ d_summary row = Some summary
    /\ d_status row = pending
    /\ d_created_by row = Some (user_id u)
    /\ (summary = []
        \/ exists key resp data,
             GEMINI_API_KEY env = Some key
             /\ fetch_generate env key
                  (PROMPT ++ slice0 120000
                     (or_else (parsePdfToText env (file_bytes file))
                        (fallback_description (d_file_url row))))
                = Some resp
             /\ json resp = Some data
             /\ summary = trim (nullish (first_candidate_text data) [])).
Proof.
  intros H Hst Hp Hs. unfold handleUpload in H.
  open_handler_in H. rewrite ?Hp, ?Hs in H.
  split_cases_in H; inversion H; subst; clear H; simpl in Hst; try discriminate Hst.
  all: eexists _, _, _, _, _, _.
  all: split; [reflexivity|]; split; [reflexivity|]; split; [eassumption|].
  all: cbn [bucket documents users d_id set_documents log_generate_request set_bucket] in *.
  all: repeat rewrite update_appended by (reflexivity || assumption).
  all: cbn [set_parsed_text set_summary d_id d_title d_file_url d_parsed_text
            d_summary d_status d_created_at d_created_by].
  all: rewrite (title_of_file _ _ ltac:(eassumption)).
  all: do 10 (split; [reflexivity|]).
  all: first [ left; reflexivity
             | right; eexists _, _, _; repeat split; eassumption ].
Qed.

End UploadStores.

(** ** From the upload to the pending list *)

Section UploadThenPending.

Variables env1 env2 : Env.

Lemma handleUpload_success_row (req : Request) (user : option AuthUser)
      (w w' : World) (r : Response) :
  run (handleUpload env1 req user) w = (Responded r, w') ->
  status r = 200 ->
  exists row,
    r = upload_confirmation (d_id row) (d_title row) (d_file_url row)
    /\ In row (documents w')
    /\ d_status row = pending.
Proof.
  intros H Hst. unfold handleUpload in H.
  open_handler_in H.
  split_cases_in H; inversion H; subst; clear H; simpl in Hst; try discriminate Hst.
  all: cbn [documents set_documents log_generate_request set_bucket].
  all: match goal with
       | |- exists row, _ /\ In row ?ds /\ _ =>
           match ds with
           | context [_ ++ [?doc]] =>
               assert (K : exists row, In row ds /\ same_card row doc)
                 by (repeat first
                       [ apply appended_card
                       | apply update_keeps_card;
                         [intros;
                          first [apply set_parsed_text_card | apply set_summary_card] |] ])
           end
       end.
  all: destruct K as [row [Hin [C1 [C2 [C3 C4]]]]]; exists row.
  all: rewrite C1, C2, C3; cbn [d_id d_title d_file_url d_status] in *.
  all: split; [reflexivity|]; split; assumption.
Qed.

(** X27. A document whose upload was answered with success is on the
    next pending list an admin asks for, with the id, title and URL of
    the confirmation, until it is approved: the list is served from the
    table the upload left. *)
Theorem uploaded_document_is_listed (req1 req2 : Request)
        (user1 user2 : option AuthUser) (w w1 : World) (r : Response) :
  run (handleUpload env1 req1 user1) w = (Responded r, w1) ->
  status r = 200 ->
  isAdmin user2 = true ->
  fault env2 SelectPending = None ->
  exists id title file_url rows,
    r = upload_confirmation id title file_url
    /\ run (handlePending env2 req2 user2) w1
       = (Responded (Response_json (JArr rows)), w1)
    /\ exists row,
         In row rows
         /\ field `"id"` row = Some (JStr id)
         /\ field `"title"` row = Some (JStr title)
         /\ field `"file_url"` row = Some (JStr file_url)
         /\ field `"status"` row = Some (JStr `"pending"`).
Proof.
  intros H Hst Ha Hf.
  destruct (handleUpload_success_row req1 user1 w w1 r H Hst) as [row [Hr [Hin Hp]]].
  exists (d_id row), (d_title row), (d_file_url row). eexists.
  split; [exact Hr|]. split; [apply handlePending_admin; assumption|].
  exists (listed_row row). split.
  - apply in_map. apply order_In. apply filter_In. split; [exact Hin|].
    apply status_eqb_eq. exact Hp.
  - repeat split; try reflexivity. cbn. rewrite Hp. reflexivity.
Qed.

End UploadThenPending.

(** ** Runs of the whole function in the office *)

Lemma approved_row_is_final_witness :
  In (set_status approved Office.d1)
     (documents
        (snd (run (serve Office.later
                     (Office.approve_request (Office.bearer "tok-admin")
                                             (Office.with_users ["u1"%string])))
                  Office.approved_for_u1))).
Proof.
  apply (approved_row_is_final Office.later
           (Office.approve_request (Office.bearer "tok-admin")
                                   (Office.with_users ["u1"%string]))
           Office.approved_for_u1 (set_status approved Office.d1)).
  - simpl. left. reflexivity.
  - reflexivity.
Defined.

Lemma serve_keeps_keys_witness :
  unique_document_ids
    (snd (run (serve Office.calm (Office.upload_request (Office.bearer "tok-admin")))
              Office.one_pending))
  /\ unique_assignment_ids
       (snd (run (serve Office.calm (Office.upload_request (Office.bearer "tok-admin")))
                 Office.one_pending))
  /\ unique_pairs
       (document_assignments
          (snd (run (serve Office.calm (Office.upload_request (Office.bearer "tok-admin")))
                    Office.one_pending)))
  /\ unique_storage_paths
       (snd (run (serve Office.calm (Office.upload_request (Office.bearer "tok-admin")))
                 Office.one_pending)).
Proof.
  apply (serve_keeps_keys Office.calm
           (Office.upload_request (Office.bearer "tok-admin")) Office.one_pending).
  - vm_compute. constructor; [intros [] | constructor].
  - vm_compute. constructor.
  - intros doc user. vm_compute. lia.
  - vm_compute. constructor.
Defined.

Lemma serve_keeps_references_witness :
  assignments_refer
    (snd (run (serve Office.later (Office.upload_request (Office.bearer "tok-admin")))
              Office.approved_for_u1))
  /\ creators_exist
       (snd (run (serve Office.later (Office.upload_request (Office.bearer "tok-admin")))
                 Office.approved_for_u1)).
Proof.
  apply (serve_keeps_references Office.later
           (Office.upload_request (Office.bearer "tok-admin")) Office.approved_for_u1).
  - intros a [<-|[]]. reflexivity.
  - intros d u [<-|[]] E. injection E as <-. reflexivity.
Defined.

Lemma get_is_read_only_witness :
  bucket (snd (run (serve Office.calm (Office.pending_request (Office.bearer "tok-admin")))
                   Office.one_pending))
  = bucket Office.one_pending
  /\ users (snd (run (serve Office.calm
                        (Office.pending_request (Office.bearer "tok-admin")))
                     Office.one_pending))
     = users Office.one_pending
  /\ documents (snd (run (serve Office.calm
                            (Office.pending_request (Office.bearer "tok-admin")))
                         Office.one_pending))
     = documents Office.one_pending
  /\ document_assignments
       (snd (run (serve Office.calm (Office.pending_request (Office.bearer "tok-admin")))
                 Office.one_pending))
     = document_assignments Office.one_pending
  /\ generate_requests
       (snd (run (serve Office.calm (Office.pending_request (Office.bearer "tok-admin")))
                 Office.one_pending))
     = generate_requests Office.one_pending.
Proof.
  apply (get_is_read_only Office.calm
           (Office.pending_request (Office.bearer "tok-admin")) Office.one_pending).
  reflexivity.
Defined.

Lemma other_methods_not_found_witness :
  run (serve Office.calm
         (mkRequest `"DELETE"` `"/functions/v1/documents/d1"`
                    (Office.bearer "tok-admin") NoPayload))
      Office.one_pending
  = (Responded (new_Response (Text `"Not Found"`) 404),
     set_rest_authorization `"Bearer tok-admin"` Office.one_pending).
Proof.
  apply (other_methods_not_found Office.calm
           (mkRequest `"DELETE"` `"/functions/v1/documents/d1"`
                      (Office.bearer "tok-admin") NoPayload)
           Office.one_pending);
    vm_compute; discriminate.
Defined.

Lemma upload_without_success_witness :
  (exists r,
      Failed = Responded r
      /\ documents
           (snd (run (handleUpload Office.offline
                        (Office.upload_request (Office.bearer "tok-admin"))
                        (Some Office.a1))
                     Office.empty_office))
         = documents Office.empty_office
      /\ document_assignments
           (snd (run (handleUpload Office.offline
                        (Office.upload_request (Office.bearer "tok-admin"))
                        (Some Office.a1))
                     Office.empty_office))
         = document_assignments Office.empty_office
      /\ generate_requests
           (snd (run (handleUpload Office.offline
                        (Office.upload_request (Office.bearer "tok-admin"))
                        (Some Office.a1))
                     Office.empty_office))
         = generate_requests Office.empty_office
      /\ (status r <> 500 ->
          snd (run (handleUpload Office.offline
                      (Office.upload_request (Office.bearer "tok-admin"))
                      (Some Office.a1))
                   Office.empty_office)
          = Office.empty_office))
  \/ (Failed = Failed
      /\ (snd (run (handleUpload Office.offline
                      (Office.upload_request (Office.bearer "tok-admin"))
                      (Some Office.a1))
                   Office.empty_office)
          = Office.empty_office
          \/ exists object row prompt,
               bucket (snd (run (handleUpload Office.offline
                                   (Office.upload_request (Office.bearer "tok-admin"))
                                   (Some Office.a1))
                                Office.empty_office))
               = bucket Office.empty_office ++ [object]
               /\ documents (snd (run (handleUpload Office.offline
                                         (Office.upload_request (Office.bearer "tok-admin"))
                                         (Some Office.a1))
                                      Office.empty_office))
                  = documents Office.empty_office ++ [row]
               /\ d_status row = pending
               /\ document_assignments
                    (snd (run (handleUpload Office.offline
                                 (Office.upload_request (Office.bearer "tok-admin"))
                                 (Some Office.a1))
                              Office.empty_office))
                  = document_assignments Office.empty_office
               /\ generate_requests
                    (snd (run (handleUpload Office.offline
                                 (Office.upload_request (Office.bearer "tok-admin"))
                                 (Some Office.a1))
                              Office.empty_office))
                  = generate_requests Office.empty_office ++ [prompt])).
Proof.
  apply (upload_without_success Office.offline
           (Office.upload_request (Office.bearer "tok-admin")) (Some Office.a1)
           Office.empty_office
           (snd (run (handleUpload Office.offline
                        (Office.upload_request (Office.bearer "tok-admin"))
                        (Some Office.a1))
                     Office.empty_office))
           Failed).
  - vm_compute. reflexivity.
  - intros r H. discriminate H.
Defined.


Lemma approve_repeated_user_witness :
  exists r w',
    run (handleApprove Office.calm
           (Office.approve_request (Office.bearer "tok-admin")
                                   (Office.with_users ["u1"%string; "u1"%string]))
           (Some Office.a1) `"d1"`)
        Office.one_pending
    = (Responded r, w')
    /\ status r = 500
    /\ document_assignments w' = document_assignments Office.one_pending
    /\ (fault Office.calm UpdateStatus = None ->
        documents w'
        = update_where_id `"d1"` (set_status approved) (documents Office.one_pending)).
Proof.
  apply (approve_repeated_user Office.calm
           (Office.approve_request (Office.bearer "tok-admin")
                                   (Office.with_users ["u1"%string; "u1"%string]))
           (Some Office.a1) `"d1"` [`"u1"`; `"u1"`] Office.one_pending).
  - reflexivity.
  - reflexivity.
  - intros H. inversion H as [|x l Hn _]. apply Hn. left. reflexivity.
Defined.

Lemma approve_unknown_document_witness :
  documents (snd (run (handleApprove Office.calm
                         (Office.approve_request (Office.bearer "tok-admin")
                                                 (Office.with_users ["u1"%string]))
                         (Some Office.a1) `"d7"`)
                      Office.one_pending))
  = documents Office.one_pending
  /\ document_assignments
       (snd (run (handleApprove Office.calm
                    (Office.approve_request (Office.bearer "tok-admin")
                                            (Office.with_users ["u1"%string]))
                    (Some Office.a1) `"d7"`)
                 Office.one_pending))
     = document_assignments Office.one_pending
  /\ exists r,
       fst (run (handleApprove Office.calm
                   (Office.approve_request (Office.bearer "tok-admin")
                                           (Office.with_users ["u1"%string]))
                   (Some Office.a1) `"d7"`)
                Office.one_pending)
       = Responded r
       /\ status r = 500.
Proof.
  destruct (approve_unknown_document Office.calm
              (Office.approve_request (Office.bearer "tok-admin")
                                      (Office.with_users ["u1"%string]))
              (Some Office.a1) `"d7"` Office.one_pending eq_refl eq_refl)
    as [D [A [R _]]].
  split; [exact D|]. split; [exact A|].
  apply (R `"u1"` []). reflexivity.
Defined.

Lemma approve_again_keeps_documents_witness :
  documents
    (snd (run (handleApprove Office.later
                 (Office.approve_request (Office.bearer "tok-admin")
                                         (Office.with_users ["u1"%string]))
                 (Some Office.a1) `"d1"`)
              Office.approved_for_u1))
  = documents Office.approved_for_u1.
Proof.
  apply (approve_again_keeps_documents Office.calm Office.later
           (Office.approve_request (Office.bearer "tok-admin")
                                   (Office.with_users ["u1"%string]))
           (Office.approve_request (Office.bearer "tok-admin")
                                   (Office.with_users ["u1"%string]))
           (Some Office.a1) (Some Office.a1) `"d1"`
           Office.one_pending Office.approved_for_u1).
  vm_compute. reflexivity.
Defined.

Lemma approve_assigns_witness :
  exists w',
    run (handleApprove Office.calm
           (Office.approve_request (Office.bearer "tok-admin")
                                   (Office.with_users ["u1"%string]))
           (Some Office.a1) `"d1"`)
        Office.one_pending
    = (Responded ok_true, w')
    /\ documents w'
       = update_where_id `"d1"` (set_status approved) (documents Office.one_pending)
    /\ document_assignments w'
       = document_assignments Office.one_pending
         ++ new_assignments Office.calm (List.map (fun uid => (`"d1"`, uid)) [`"u1"`])
    /\ List.map pair_of
                (new_assignments Office.calm
                                 (List.map (fun uid => (`"d1"`, uid)) [`"u1"`]))
       = List.map (fun uid => (`"d1"`, uid)) [`"u1"`].
Proof.
  apply (approve_assigns Office.calm
           (Office.approve_request (Office.bearer "tok-admin")
                                   (Office.with_users ["u1"%string]))
           (Some Office.a1) `"d1"` [`"u1"`] Office.one_pending).
  - reflexivity.
  - reflexivity.
  - constructor; [intros [] | constructor].
  - reflexivity.
  - intros u _. reflexivity.
  - reflexivity.
  - reflexivity.
  - vm_compute. constructor; [intros [] | constructor].
  - intros i _. reflexivity.
Defined.

Lemma pending_listing_witness :
  exists listed,
    run (handlePending Office.calm (Office.pending_request (Office.bearer "tok-admin"))
           (Some Office.a1))
        Office.one_pending
    = (Responded (Response_json (JArr (List.map listed_row listed))), Office.one_pending)
    /\ Permutation listed
                   (filter (fun d => status_eqb (d_status d) pending)
                           (documents Office.one_pending))
    /\ (forall d, In d listed <-> In d (documents Office.one_pending) /\ d_status d = pending)
    /\ StronglySorted newer_or_equal listed.
Proof.
  apply (pending_listing Office.calm (Office.pending_request (Office.bearer "tok-admin"))
           (Some Office.a1) Office.one_pending).
  reflexivity.
Defined.

Lemma approved_listing_newest_first_witness :
  run (handleApprovedForUser Office.calm
         (Office.approved_request (Office.bearer "tok-u1") "u1")
         (Some (mkAuthUser `"u1"` (Some `"employee"`))) `"u1"`)
      Office.approved_for_u1
  = (Responded (Response_json
                  (JArr (List.map listed_row
                           (listVisibleFor Office.approved_for_u1 `"u1"`)))),
     Office.approved_for_u1)
  /\ StronglySorted newer_or_equal (listVisibleFor Office.approved_for_u1 `"u1"`)
  /\ (unique_document_ids Office.approved_for_u1 ->
      NoDup (List.map d_id (listVisibleFor Office.approved_for_u1 `"u1"`))).
Proof.
  apply (approved_listing_newest_first Office.calm
           (Office.approved_request (Office.bearer "tok-u1") "u1")
           (Some (mkAuthUser `"u1"` (Some `"employee"`))) `"u1"`
           Office.approved_for_u1);
    reflexivity.
Defined.

Lemma summarize_reads_bounded_prefix_witness :
  summarizeWithGemini Office.calm
    (List.repeat 32%N (N.to_nat 120000) ++ `"and more"`) Office.empty_office
  = summarizeWithGemini Office.calm (List.repeat 32%N (N.to_nat 120000))
                        Office.empty_office
  /\ (generate_requests
        (snd (summarizeWithGemini Office.calm
                (List.repeat 32%N (N.to_nat 120000) ++ `"and more"`)
                Office.empty_office))
      = generate_requests Office.empty_office
      \/ exists sent,
           generate_requests
             (snd (summarizeWithGemini Office.calm
                     (List.repeat 32%N (N.to_nat 120000) ++ `"and more"`)
                     Office.empty_office))
           = generate_requests Office.empty_office ++ [PROMPT ++ sent]
           /\ List.length sent = N.to_nat 120000
           /\ sent = slice0 120000 (List.repeat 32%N (N.to_nat 120000))).
Proof.
  apply (summarize_reads_bounded_prefix Office.calm
           (List.repeat 32%N (N.to_nat 120000)) `"and more"` Office.empty_office).
  rewrite repeat_length. apply le_n.
Defined.

Lemma upload_sends_one_request_witness :
  (truthy_opt (GEMINI_API_KEY Office.calm) = false ->
   generate_requests
     (snd (run (handleUpload Office.calm
                  (Office.upload_request (Office.bearer "tok-admin")) (Some Office.a1))
               Office.empty_office))
   = generate_requests Office.empty_office)
  /\ (truthy_opt (GEMINI_API_KEY Office.calm) = true ->
      parsePdfToText Office.calm (file_bytes Office.report) <> [] ->
      generate_requests
        (snd (run (handleUpload Office.calm
                     (Office.upload_request (Office.bearer "tok-admin")) (Some Office.a1))
                  Office.empty_office))
      = generate_requests Office.empty_office
        ++ [PROMPT ++ slice0 120000 (parsePdfToText Office.calm (file_bytes Office.report))]).
Proof.
  apply (upload_sends_one_request Office.calm
           (Office.upload_request (Office.bearer "tok-admin")) Office.a1
           (mkForm (Some Office.report) (Some `"Q1 Report"`)) Office.report
           Office.empty_office
           (snd (storage_upload Office.calm (storagePath Office.calm Office.report)
                   (file_bytes Office.report)
                   (or_else (file_type Office.report) `"application/pdf"`)
                   Office.empty_office))
           (snd (insert_document Office.calm `"Q1 Report"`
                   (getPublicUrl Office.calm (storagePath Office.calm Office.report))
                   `"a1"`
                   (snd (storage_upload Office.calm (storagePath Office.calm Office.report)
                           (file_bytes Office.report)
                           (or_else (file_type Office.report) `"application/pdf"`)
                           Office.empty_office))))
           (mkDocument `"row-0"` `"Q1 Report"`
              (getPublicUrl Office.calm (storagePath Office.calm Office.report))
              None None pending 7%N (Some `"a1"`)));
    vm_compute; reflexivity.
Defined.

Lemma valid_token_beats_mock_headers_witness :
  getAuthUser Office.calm
    (Office.pending_request
       (mkHeaders (Some `"Bearer tok-u1"`) (Some `"admin"`) (Some `"a1"`)))
  = Some (mkAuthUser `"u1"` (Some `"employee"`))
  /\ fst (run (serve Office.calm
                 (Office.pending_request
                    (mkHeaders (Some `"Bearer tok-u1"`) (Some `"admin"`) (Some `"a1"`))))
              Office.one_pending)
     = Responded Forbidden.
Proof.
  destruct (valid_token_beats_mock_headers Office.calm
              (Office.pending_request
                 (mkHeaders (Some `"Bearer tok-u1"`) (Some `"admin"`) (Some `"a1"`)))
              `"Bearer tok-u1"` (mkAuthUser `"u1"` (Some `"employee"`))
              Office.one_pending)
    as [A B].
  - reflexivity.
  - vm_compute. discriminate.
  - reflexivity.
  - split; [exact A|]. apply B; [vm_compute; discriminate | reflexivity].
Defined.

Lemma documentsApi_reaches_handlers_witness :
  run (serve Office.calm
         (Client.approveDocument (Client.mkBrowser (Some `"tok-admin"`) Client.NoItem)
                                 `"d1"` [`"u1"`]))
      Office.one_pending
  = run (handleApprove Office.calm
           (Client.approveDocument (Client.mkBrowser (Some `"tok-admin"`) Client.NoItem)
                                   `"d1"` [`"u1"`])
           (getAuthUser Office.calm
              (Client.approveDocument (Client.mkBrowser (Some `"tok-admin"`) Client.NoItem)
                                      `"d1"` [`"u1"`]))
           `"d1"`)
        (set_rest_authorization `"Bearer tok-admin"` Office.one_pending)
  /\ run (serve Office.calm
            (Client.getApprovedForUser
               (Client.mkBrowser (Some `"tok-admin"`) Client.NoItem) `"u1"`))
         Office.one_pending
     = run (handleApprovedForUser Office.calm
              (Client.getApprovedForUser
                 (Client.mkBrowser (Some `"tok-admin"`) Client.NoItem) `"u1"`)
              (getAuthUser Office.calm
                 (Client.getApprovedForUser
                    (Client.mkBrowser (Some `"tok-admin"`) Client.NoItem) `"u1"`))
              `"u1"`)
           (set_rest_authorization `"Bearer tok-admin"` Office.one_pending).
Proof.
  destruct (documentsApi_reaches_handlers Office.calm
              (Client.mkBrowser (Some `"tok-admin"`) Client.NoItem) `"d1"` `"u1"`
              [`"u1"`] (mkForm (Some Office.report) (Some `"Q1 Report"`))
              Office.one_pending eq_refl eq_refl)
    as [_ [_ [A [_ U]]]].
  split; [exact A | exact U].
Defined.

Lemma session_token_round_trip_witness :
  x_mock_role (headers (Client.getPendingDocuments
                          (Client.mkBrowser (Some `"tok-admin"`) Client.NoItem)))
  = None
  /\ x_mock_user_id (headers (Client.getPendingDocuments
                                (Client.mkBrowser (Some `"tok-admin"`) Client.NoItem)))
     = None
  /\ getAuthUser Office.calm
       (Client.getPendingDocuments (Client.mkBrowser (Some `"tok-admin"`) Client.NoItem))
     = auth_getUser Office.calm `"tok-admin"`.
Proof.
  apply (session_token_round_trip Office.calm
           (Client.mkBrowser (Some `"tok-admin"`) Client.NoItem) `"tok-admin"`
           (Client.getPendingDocuments
              (Client.mkBrowser (Some `"tok-admin"`) Client.NoItem))).
  - reflexivity.
  - vm_compute. discriminate.
  - reflexivity.
Defined.

Lemma stored_mock_user_resolves_witness :
  getAuthUser Office.calm
    (Client.getPendingDocuments
       (Client.mkBrowser None
          (Client.User (Client.mkMockUser `"admin"` None (Some `"a1"`)))))
  = Some (mkAuthUser `"a1"` (Some `"admin"`))
  /\ isAdmin (getAuthUser Office.calm
                (Client.getPendingDocuments
                   (Client.mkBrowser None
                      (Client.User (Client.mkMockUser `"admin"` None (Some `"a1"`))))))
     = JS.eqb `"admin"` `"admin"`.
Proof.
  apply (stored_mock_user_resolves Office.calm
           (Client.mkBrowser None
              (Client.User (Client.mkMockUser `"admin"` None (Some `"a1"`))))
           (Client.mkMockUser `"admin"` None (Some `"a1"`))
           (Client.getPendingDocuments
              (Client.mkBrowser None
                 (Client.User (Client.mkMockUser `"admin"` None (Some `"a1"`)))))).
  - reflexivity.
  - reflexivity.
  - reflexivity.
  - vm_compute. discriminate.
  - vm_compute. discriminate.
Defined.

Lemma page_agrees_with_reload_witness :
  Client.Loader_documents
    (fst (run (serve Office.calm
                 (Client.getPendingDocuments
                    (Client.mkBrowser (Some `"tok-admin"`) Client.NoItem)))
              (snd (run (serve Office.calm
                           (Client.approveDocument
                              (Client.mkBrowser (Some `"tok-admin"`) Client.NoItem)
                              `"d1"` [`"u1"`]))
                        Office.one_pending))))
  = Client.removeDocument `"d1"`
      (Client.Loader_documents
         (fst (run (serve Office.calm
                      (Client.getPendingDocuments
                         (Client.mkBrowser (Some `"tok-admin"`) Client.NoItem)))
                   Office.one_pending))).
Proof.
  apply (page_agrees_with_reload Office.calm
           (Client.mkBrowser (Some `"tok-admin"`) Client.NoItem) `"d1"` [`"u1"`]
           Office.one_pending
           (snd (run (serve Office.calm
                        (Client.approveDocument
                           (Client.mkBrowser (Some `"tok-admin"`) Client.NoItem)
                           `"d1"` [`"u1"`]))
                     Office.one_pending))).
  - reflexivity.
  - reflexivity.
  - vm_compute. reflexivity.
Defined.

Lemma upload_row_contents_witness :
  exists u form file object row summary,
    Some Office.a1 = Some u
    /\ payload (Office.upload_request (Office.bearer "tok-admin")) = Multipart form
    /\ form_file form = Some file
    /\ bucket (snd (run (handleUpload Office.calm
                           (Office.upload_request (Office.bearer "tok-admin"))
                           (Some Office.a1))
                        Office.empty_office))
       = bucket Office.empty_office ++ [object]
    /\ o_bytes object = file_bytes file
    /\ o_content_type object = or_else (file_type file) `"application/pdf"`
    /\ documents (snd (run (handleUpload Office.calm
                              (Office.upload_request (Office.bearer "tok-admin"))
                              (Some Office.a1))
                           Office.empty_office))
       = documents Office.empty_office ++ [row]
    /\ upload_confirmation `"row-0"` `"Q1 Report"`
         `"https://kmrl.supabase.co/storage/v1/object/public/documents/r1-report.pdf"`
       = upload_confirmation (d_id row) (d_title row) (d_file_url row)
    /\ d_title row = or_else (nullish (form_title form) []) (file_name file)
    /\ d_parsed_text row = Some (parsePdfToText Office.calm (file_bytes file))
    /\ d_summary row = Some summary
    /\ d_status row = pending
    /\ d_created_by row = Some (user_id u)
    /\ (summary = []
        \/ exists key resp data,
             GEMINI_API_KEY Office.calm = Some key
             /\ fetch_generate Office.calm key
                  (PROMPT ++ slice0 120000
                     (or_else (parsePdfToText Office.calm (file_bytes file))
                        (fallback_description (d_file_url row))))
                = Some resp
             /\ json resp = Some data
             /\ summary = trim (nullish (first_candidate_text data) [])).
Proof.
  apply (upload_row_contents Office.calm
           (Office.upload_request (Office.bearer "tok-admin")) (Some Office.a1)
           Office.empty_office
           (snd (run (handleUpload Office.calm
                        (Office.upload_request (Office.bearer "tok-admin"))
                        (Some Office.a1))
                     Office.empty_office))
           (upload_confirmation `"row-0"` `"Q1 Report"`
              `"https://kmrl.supabase.co/storage/v1/object/public/documents/r1-report.pdf"`)).
  - vm_compute. reflexivity.
  - reflexivity.
  - reflexivity.
  - reflexivity.
Defined.

Lemma uploaded_document_is_listed_witness :
  exists id title file_url rows,
    upload_confirmation `"row-0"` `"Q1 Report"`
      `"https://kmrl.supabase.co/storage/v1/object/public/documents/r1-report.pdf"`
    = upload_confirmation id title file_url
    /\ run (handlePending Office.later
              (Office.pending_request (Office.bearer "tok-admin")) (Some Office.a1))
           (snd (run (handleUpload Office.calm
                        (Office.upload_request (Office.bearer "tok-admin"))
                        (Some Office.a1))
                     Office.empty_office))
       = (Responded (Response_json (JArr rows)),
          snd (run (handleUpload Office.calm
                      (Office.upload_request (Office.bearer "tok-admin"))
                      (Some Office.a1))
                   Office.empty_office))
    /\ exists row,
         In row rows
         /\ field `"id"` row = Some (JStr id)
         /\ field `"title"` row = Some (JStr title)
         /\ field `"file_url"` row = Some (JStr file_url)
         /\ field `"status"` row = Some (JStr `"pending"`).
Proof.
  apply (uploaded_document_is_listed Office.calm Office.later
           (Office.upload_request (Office.bearer "tok-admin"))
           (Office.pending_request (Office.bearer "tok-admin"))
           (Some Office.a1) (Some Office.a1) Office.empty_office
           (snd (run (handleUpload Office.calm
                        (Office.upload_request (Office.bearer "tok-admin"))
                        (Some Office.a1))
                     Office.empty_office))
           (upload_confirmation `"row-0"` `"Q1 Report"`
              `"https://kmrl.supabase.co/storage/v1/object/public/documents/r1-report.pdf"`)).
  - vm_compute. reflexivity.
  - reflexivity.
  - reflexivity.
  - reflexivity.
Defined.
